(** * Custom CloudFormation resources: a shallow embedding of [handler.py]

    The module [handler.py] dispatches a CloudFormation lifecycle event to
    one of five resource handlers, turns the handler's result or exception
    into a response envelope, and PUTs that envelope to the event's
    [ResponseURL].  This file embeds the dispatcher and the handlers as
    computations in a state-and-exception monad and proves properties of
    them.

    Python dictionaries that the code mutates are objects of a store,
    addressed by location, so that [dict(event["ResourceProperties"])] is
    an allocation of a copy and [rp.pop(k)] an update of that copy.
    Services reached over the network (EC2, KMS, API Gateway, the HTTP
    callback), the password library and the modules [amifilter] and
    [hashparams] are the operations of a class of collaborators acting on
    an abstract world. *)

From Stdlib Require Import ZArith String Ascii List Permutation Sorted.
From stdpp Require Import gmap strings list fin_maps pretty.

Set Warnings "-register-all".

Open Scope string_scope.
Open Scope Z_scope.

(** ** Python values *)

(** Values as they arrive in a JSON event, plus [bytes].  CloudFormation
    events carry null, booleans, integers, strings, arrays and objects; a
    character of a [string] is one code point in the range 0..255. *)
Inductive pyval : Type :=
| VNone
| VBool (b : bool)
| VInt (z : Z)
| VStr (s : string)
| VBytes (b : string)
| VList (l : list pyval)
| VDict (d : list (string * pyval)).

(** [isinstance(v, str)], [isinstance(v, int)] (a [bool] is an [int]),
    [isinstance(v, dict)] and [isinstance(v, (list, tuple, dict))]. *)
Definition is_str (v : pyval) : bool :=
  match v with VStr _ => true | _ => false end.

Definition is_int (v : pyval) : bool :=
  match v with VInt _ | VBool _ => true | _ => false end.

Definition is_dict (v : pyval) : bool :=
  match v with VDict _ => true | _ => false end.

Definition is_list_tuple_dict (v : pyval) : bool :=
  match v with VList _ | VDict _ => true | _ => false end.

(** [bool(v)]: the truth value of an object. *)
Definition truthy (v : pyval) : bool :=
  match v with
  | VNone => false
  | VBool b => b
  | VInt z => negb (z =? 0)
  | VStr s | VBytes s => negb (String.eqb s "")
  | VList l => match l with [] => false | _ => true end
  | VDict d => match d with [] => false | _ => true end
  end.

(** [s == v] for a string [s]: only an equal string is equal to it. *)
Definition str_eq (s : string) (v : pyval) : bool :=
  match v with VStr t => String.eqb s t | _ => false end.

(** [len(v)]; [None] stands for the [TypeError] of an object without a
    length. *)
Definition py_len (v : pyval) : option Z :=
  match v with
  | VStr s | VBytes s => Some (Z.of_nat (String.length s))
  | VList l => Some (Z.of_nat (length l))
  | VDict d => Some (Z.of_nat (length d))
  | VNone | VBool _ | VInt _ => None
  end.

Definition int_value (v : pyval) : option Z :=
  match v with
  | VInt z => Some z
  | VBool b => Some (if b then 1 else 0)
  | _ => None
  end.

(** Lexicographic order on strings by code point, as [str.__lt__]. *)
Fixpoint str_ltb (s t : string) : bool :=
  match s, t with
  | EmptyString, EmptyString => false
  | EmptyString, String _ _ => true
  | String _ _, EmptyString => false
  | String a s', String b t' =>
      if (nat_of_ascii a <? nat_of_ascii b)%nat then true
      else if (nat_of_ascii b <? nat_of_ascii a)%nat then false
      else str_ltb s' t'
  end.

Definition str_leb (s t : string) : bool := negb (str_ltb t s).

(** [a < b]; [None] stands for the [TypeError] of unorderable operands.
    Numbers compare with numbers, strings with strings, bytes with
    bytes. *)
Definition py_lt (a b : pyval) : option bool :=
  match int_value a, int_value b with
  | Some x, Some y => Some (x <? y)
  | _, _ =>
      match a, b with
      | VStr s, VStr t => Some (str_ltb s t)
      | VBytes s, VBytes t => Some (str_ltb s t)
      | _, _ => None
      end
  end.

(** [listify]: encapsulate a value in a list if it is not one already. *)
Definition listify (value : pyval) : pyval :=
  match value with
  | VList _ => value
  | _ => VList [value]
  end.

(** ** Exceptions *)

(** An instance of [Exception]: the names of its class and of the bases
    of that class below [Exception], most specific first, and the text
    [str(e)] yields.  Process exits, which derive from [BaseException]
    alone, are not raised by handlers and are not part of the type. *)
Record exn : Type := Exn { exn_classes : list string; exn_str : string }.

Definition ValueError (msg : string) : exn := Exn ["ValueError"] msg.
Definition TypeError (msg : string) : exn := Exn ["TypeError"] msg.
Definition KeyError (msg : string) : exn := Exn ["KeyError"; "LookupError"] msg.
Definition IndexError (msg : string) : exn := Exn ["IndexError"; "LookupError"] msg.
Definition OverflowError (msg : string) : exn :=
  Exn ["OverflowError"; "ArithmeticError"] msg.

(** [isinstance(e, cls)], the test an [except cls] clause makes. *)
Definition isinstance (e : exn) (cls : string) : bool :=
  existsb (String.eqb cls) (exn_classes e).

Inductive outcome (A : Type) : Type :=
| Ret (a : A)
| Raise (e : exn).
Arguments Ret {A} a.
Arguments Raise {A} e.

(** ** Ordered dictionaries *)

(** A dictionary whose order of insertion is observable (the response
    body, a handler's result, keyword arguments). *)
Definition odict : Type := list (string * pyval).

Fixpoint od_get (k : string) (d : odict) : option pyval :=
  match d with
  | [] => None
  | (k', v) :: d' => if String.eqb k k' then Some v else od_get k d'
  end.

Definition od_mem (k : string) (d : odict) : bool :=
  match od_get k d with Some _ => true | None => false end.

(** [d[k] = v]: an existing key keeps its position. *)
Fixpoint od_set (k : string) (v : pyval) (d : odict) : odict :=
  match d with
  | [] => [(k, v)]
  | (k', v') :: d' =>
      if String.eqb k k' then (k, v) :: d' else (k', v') :: od_set k v d'
  end.

(** [del d[k]] for a key that is present. *)
Fixpoint od_del (k : string) (d : odict) : odict :=
  match d with
  | [] => []
  | (k', v') :: d' =>
      if String.eqb k k' then d' else (k', v') :: od_del k d'
  end.

(** ** Records of the collaborating modules *)

(** An image record of the EC2 [describe_images] answer, with the
    attributes the ranking and the filters read. *)
Record image : Type := Image {
  ImageId : string;
  CreationDate : string;
  VirtualizationType : string;
  RootDeviceType : string;
  ImageName : string;
  Description : string
}.

(** [hashparams.HashParameter]: the attributes [validate_hash_parameter]
    reads.  The coercion [type] and the [validator] are callables that
    return or raise. *)
Record HashParameter : Type := {
  algorithm_parameter : string;
  type : pyval -> outcome pyval;
  validator : option (pyval -> outcome unit);
  min_length : option Z;
  max_length : option Z;
  min_value : option pyval;
  max_value : option pyval
}.

(** [hashparams.HashAlgorithm]: the attributes [hash_password] and
    [get_hash_algorithm] read; [algorithm] is the passlib handler. *)
Record HashAlgorithm (builder : Type) : Type := {
  algorithm : builder;
  is_secure : bool;
  parameters : list (string * HashParameter)
}.
Arguments algorithm {builder} _.
Arguments is_secure {builder} _.
Arguments parameters {builder} _.

(** A call of [requests.put]. *)
Record put_request : Type := Put {
  put_url : string;
  put_headers : odict;
  put_data : string
}.

(** What [handler.py] imports and calls but does not define.  [W] is the
    state of the world outside the process; an operation on a service
    takes the world and returns it with its answer. *)
Class Collaborators (W builder : Type) : Type := {
  (* builtins and the standard library *)
  repr : pyval -> string;
  int_of_str : string -> outcome Z;
  uuid4 : W -> string * W;
  json_dumps : odict -> string;
  b64decode : string -> outcome string;
  os_urandom : Z -> W -> outcome string * W;
  (* requests *)
  requests_put : put_request -> W -> outcome (Z * string) * W;
  (* boto3 *)
  boto3_client : string -> W -> outcome unit * W;
  get_rest_api : pyval -> W -> outcome (option (list string)) * W;
  update_rest_api : pyval -> string -> string -> W -> outcome unit * W;
  describe_images :
    list pyval -> list pyval -> W -> outcome (option (list image)) * W;
  kms_encrypt : pyval -> pyval -> string -> W -> outcome string * W;
  kms_decrypt : string -> pyval -> W -> outcome pyval * W;
  (* iso8601 *)
  parse_date : string -> outcome Z;
  (* passlib *)
  genphrase : odict -> W -> outcome string * W;
  genword : odict -> W -> outcome string * W;
  builder_using : builder -> odict -> W -> outcome builder * W;
  builder_hash : builder -> pyval -> W -> outcome string * W;
  (* amifilter: both receive the mapping [rp] itself and may change it *)
  add_filters :
    gmap string pyval -> odict -> outcome unit * gmap string pyval * odict;
  filter_names_and_descriptions :
    list image -> gmap string pyval ->
    outcome (list image) * gmap string pyval;
  (* hashparams: [HashAlgorithm.algorithms.get] *)
  algorithms : string -> option (HashAlgorithm builder)
}.

(** ** The lifecycle event *)

Definition loc : Type := positive.

(** A lifecycle event.  [ResourceProperties] is a reference to a mapping
    in the store. *)
Record LifecycleEvent : Type := {
  RequestType : string;
  ResourceType : string;
  ResourceProperties : loc;
  StackId : string;
  RequestId : string;
  LogicalResourceId : string;
  ResponseURL : string;
  PhysicalResourceId : option string
}.

(** ** The monad of handlers *)

(** The mutable mappings, the world outside the process, and the
    requests sent so far. *)
Record state (W : Type) : Type := State {
  heap : gmap loc (gmap string pyval);
  world : W;
  sent : list put_request
}.
Arguments State {W} _ _ _.
Arguments heap {W} _.
Arguments world {W} _.
Arguments sent {W} _.

(** A computation that reads and writes a state [S] and returns or
    raises. *)
Definition StateExn (S A : Type) : Type := S -> outcome A * S.

Definition ret {S A} (a : A) : StateExn S A := fun st => (Ret a, st).

Definition raise {S A} (e : exn) : StateExn S A := fun st => (Raise e, st).

Definition bind {S A B} (m : StateExn S A) (f : A -> StateExn S B)
    : StateExn S B :=
  fun st =>
    match m st with
    | (Ret a, st') => f a st'
    | (Raise e, st') => (Raise e, st')
    end.

(** [try: m  except cls as e: h e], where [catches e] says whether the
    clause matches. *)
Definition try_except {S A} (m : StateExn S A) (catches : exn -> bool)
    (h : exn -> StateExn S A) : StateExn S A :=
  fun st =>
    match m st with
    | (Ret a, st') => (Ret a, st')
    | (Raise e, st') => if catches e then h e st' else (Raise e, st')
    end.

(** Sequencing of pure calls that return or raise. *)
Definition obind {A B} (o : outcome A) (f : A -> outcome B) : outcome B :=
  match o with
  | Ret a => f a
  | Raise e => Raise e
  end.

(** A pure call that returns or raises. *)
Definition lift {S A} (o : outcome A) : StateExn S A := fun st => (o, st).

Declare Scope monad_scope.
Delimit Scope monad_scope with monad.
Notation "x <- m ;; k" := (bind m (fun x => k))
  (at level 100, m at next level, right associativity) : monad_scope.
Notation "m ;;; k" := (bind m (fun _ => k))
  (at level 100, right associativity) : monad_scope.
Notation "x <~ o ;; k" := (obind o (fun x => k))
  (at level 100, o at next level, right associativity) : monad_scope.
Open Scope monad_scope.

Fixpoint mapM {S A B} (f : A -> StateExn S B) (l : list A)
    : StateExn S (list B) :=
  match l with
  | [] => ret []
  | x :: l' => y <- f x ;; ys <- mapM f l' ;; ret (y :: ys)
  end.

(** ** Strings *)

(** The double quote, for messages that contain one. *)
Definition dq : string := String (ascii_of_nat 34) EmptyString.

(** [s.replace(a, b)] for single characters [a] and [b]. *)
Fixpoint replace_char (a b : ascii) (s : string) : string :=
  match s with
  | EmptyString => EmptyString
  | String c s' =>
      String (if Ascii.eqb c a then b else c) (replace_char a b s')
  end.

(** [str.lower] on the code points below 256: the letters A..Z and the
    capital letters of Latin-1, 192..222 without the multiplication
    sign 215, are 32 below their small letters. *)
Definition lower_char (c : ascii) : ascii :=
  let n := N_of_ascii c in
  if (((65 <=? n) && (n <=? 90))
      || ((192 <=? n) && (n <=? 222) && negb (n =? 215)))%N
  then ascii_of_N (n + 32) else c.

Fixpoint lower (s : string) : string :=
  match s with
  | EmptyString => EmptyString
  | String c s' => String (lower_char c) (lower s')
  end.

(** [sep.join(l)]. *)
Fixpoint join (sep : string) (l : list string) : string :=
  match l with
  | [] => ""
  | [s] => s
  | s :: l' => s +:+ sep +:+ join sep l'
  end.

(** [str(n)] for an integer. *)
Definition str_of_Z (n : Z) : string := pretty n.

(** [password.encode("utf-8")] on code points below 256. *)
Fixpoint encode_utf8 (s : string) : string :=
  match s with
  | EmptyString => EmptyString
  | String c s' =>
      let n := N_of_ascii c in
      if (n <? 128)%N then String c (encode_utf8 s')
      else String (ascii_of_N (N.lor 192 (N.shiftr n 6)))
             (String (ascii_of_N (N.lor 128 (N.land n 63)))
                (encode_utf8 s'))
  end.

(** [result.decode("iso8859-1")] and its inverse [raw.encode("iso8859-1")]:
    byte [n] is code point [n], so both keep the characters. *)
Definition decode_iso8859_1 (b : string) : string := b.
Definition encode_iso8859_1 (s : string) : string := s.

(** ** Base16 and Base64 (RFC 4648) *)

Definition hex_digit (n : N) : ascii :=
  if (n <? 10)%N then ascii_of_N (48 + n) else ascii_of_N (55 + n).

(** [base64.b16encode]: two upper-case digits per byte. *)
Fixpoint b16encode (b : string) : string :=
  match b with
  | EmptyString => EmptyString
  | String c b' =>
      let n := N_of_ascii c in
      String (hex_digit (N.shiftr n 4))
        (String (hex_digit (N.land n 15)) (b16encode b'))
  end.

Definition hex_value (c : ascii) : option N :=
  let n := N_of_ascii c in
  if ((48 <=? n) && (n <=? 57))%N then Some (n - 48)%N
  else if ((65 <=? n) && (n <=? 70))%N then Some (n - 55)%N
  else if ((97 <=? n) && (n <=? 102))%N then Some (n - 87)%N
  else None.

(** [base64.b16decode(s, casefold=True)]. *)
Fixpoint b16decode (s : string) : option string :=
  match s with
  | EmptyString => Some EmptyString
  | String _ EmptyString => None
  | String h (String l s') =>
      match hex_value h, hex_value l, b16decode s' with
      | Some x, Some y, Some b =>
          Some (String (ascii_of_N (N.lor (N.shiftl x 4) y)) b)
      | _, _, _ => None
      end
  end.

(** The Base64 alphabet. *)
Definition b64_char (n : N) : ascii :=
  if (n <? 26)%N then ascii_of_N (65 + n)
  else if (n <? 52)%N then ascii_of_N (71 + n)
  else if (n <? 62)%N then ascii_of_N (n - 4)
  else if (n =? 62)%N then "+"%char
  else "/"%char.

Definition b64_value (c : ascii) : option N :=
  let n := N_of_ascii c in
  if ((65 <=? n) && (n <=? 90))%N then Some (n - 65)%N
  else if ((97 <=? n) && (n <=? 122))%N then Some (n - 71)%N
  else if ((48 <=? n) && (n <=? 57))%N then Some (n + 4)%N
  else if (n =? 43)%N then Some 62%N
  else if (n =? 47)%N then Some 63%N
  else None.

(** The four sextets of three octets, and back. *)
Definition sextet1 (a : N) : N := N.shiftr a 2.
Definition sextet2 (a b : N) : N :=
  N.lor (N.shiftl (N.land a 3) 4) (N.shiftr b 4).
Definition sextet3 (b c : N) : N :=
  N.lor (N.shiftl (N.land b 15) 2) (N.shiftr c 6).
Definition sextet4 (c : N) : N := N.land c 63.

Definition octet1 (s1 s2 : N) : N := N.lor (N.shiftl s1 2) (N.shiftr s2 4).
Definition octet2 (s2 s3 : N) : N :=
  N.lor (N.shiftl (N.land s2 15) 4) (N.shiftr s3 2).
Definition octet3 (s3 s4 : N) : N := N.lor (N.shiftl (N.land s3 3) 6) s4.

(** [base64.b64encode]: four characters per three bytes, padded with
    [=]. *)
Fixpoint b64encode (b : string) : string :=
  match b with
  | EmptyString => EmptyString
  | String x EmptyString =>
      let a := N_of_ascii x in
      String (b64_char (sextet1 a))
        (String (b64_char (sextet2 a 0)) "==")
  | String x (String y EmptyString) =>
      let a := N_of_ascii x in
      let b := N_of_ascii y in
      String (b64_char (sextet1 a))
        (String (b64_char (sextet2 a b))
           (String (b64_char (sextet3 b 0)) "="))
  | String x (String y (String z b')) =>
      let a := N_of_ascii x in
      let b := N_of_ascii y in
      let c := N_of_ascii z in
      String (b64_char (sextet1 a))
        (String (b64_char (sextet2 a b))
           (String (b64_char (sextet3 b c))
              (String (b64_char (sextet4 c)) (b64encode b'))))
  end.

(** [base64.b64decode(s, validate=True)]: groups of four characters of
    the alphabet, the last one possibly padded. *)
Fixpoint b64decode_validate (s : string) : option string :=
  match s with
  | EmptyString => Some EmptyString
  | String c1 (String c2 (String c3 (String c4 s'))) =>
      match b64_value c1, b64_value c2 with
      | Some s1, Some s2 =>
          let o1 := ascii_of_N (octet1 s1 s2) in
          if Ascii.eqb c3 "=" then
            if Ascii.eqb c4 "=" then
              match s' with
              | EmptyString => Some (String o1 EmptyString)
              | _ => None
              end
            else None
          else
            match b64_value c3 with
            | Some s3 =>
                let o2 := ascii_of_N (octet2 s2 s3) in
                if Ascii.eqb c4 "=" then
                  match s' with
                  | EmptyString => Some (String o1 (String o2 EmptyString))
                  | _ => None
                  end
                else
                  match b64_value c4, b64decode_validate s' with
                  | Some s4, Some b =>
                      Some (String o1
                              (String o2
                                 (String (ascii_of_N (octet3 s3 s4)) b)))
                  | _, _ => None
                  end
            | None => None
            end
      | _, _ => None
      end
  | _ => None
  end.

(** ** Sorting *)

(** [list.sort(key=..., reverse=...)]: a stable sort that compares keys
    with [<] only.  With [reverse] the list is reversed, sorted and
    reversed again, which keeps elements of equal key in their original
    order. *)
Section Sorting.
Context {A K : Type} (ltb : K -> K -> bool) (key : A -> K).

Fixpoint insert_sorted (x : A) (l : list A) : list A :=
  match l with
  | [] => [x]
  | y :: l' =>
      if ltb (key y) (key x) then y :: insert_sorted x l' else x :: l
  end.

Fixpoint sort_stable (l : list A) : list A :=
  match l with
  | [] => []
  | x :: l' => insert_sorted x (sort_stable l')
  end.

Definition list_sort (reverse : bool) (l : list A) : list A :=
  if reverse then rev (sort_stable (rev l)) else sort_stable l.
End Sorting.

(** [sorted(keys)] for strings. *)
Definition sorted (l : list string) : list string :=
  list_sort str_ltb (fun s => s) false l.

(** The largest [ssize_t] of the 64-bit platforms the function runs
    on. *)
Definition ssize_t_max : Z := 2 ^ 63 - 1.

(** ** The handlers *)

Section Handlers.
Context {W builder : Type} {C : Collaborators W builder}.

Local Abbreviation M := (StateExn (state W)).

(** *** Operations on the store and the world *)

(** A call on a service. *)
Definition call {A} (op : W -> outcome A * W) : M A :=
  fun st =>
    let (o, w) := op (world st) in
    (o, State (heap st) w (sent st)).

Definition call_total {A} (op : W -> A * W) : M A :=
  fun st =>
    let (a, w) := op (world st) in
    (Ret a, State (heap st) w (sent st)).

(** [requests.put(url, headers=headers, data=body)]; the request is
    recorded whatever the answer. *)
Definition requests_put_call (r : put_request) : M (Z * string) :=
  fun st =>
    let (o, w) := requests_put r (world st) in
    (o, State (heap st) w (sent st ++ [r])).

(** The mapping at a location.  An event without [ResourceProperties]
    has a location outside the store, and reading it is the [KeyError]
    of [event["ResourceProperties"]]. *)
Definition load (l : loc) : M (gmap string pyval) :=
  fun st =>
    match heap st !! l with
    | Some d => (Ret d, st)
    | None => (Raise (KeyError (repr (VStr "ResourceProperties"))), st)
    end.

Definition store (l : loc) (d : gmap string pyval) : M unit :=
  fun st => (Ret tt, State (<[l := d]> (heap st)) (world st) (sent st)).

(** A new mapping, at a location the store does not use. *)
Definition alloc (d : gmap string pyval) : M loc :=
  fun st =>
    let l := fresh (dom (heap st)) in
    (Ret l, State (<[l := d]> (heap st)) (world st) (sent st)).

(** [dict(m)]: a shallow copy. *)
Definition dict_copy (l : loc) : M loc :=
  d <- load l ;; alloc d.

(** [k in rp] *)
Definition dict_contains (rp : loc) (k : string) : M bool :=
  d <- load rp ;;
  ret (match d !! k with Some _ => true | None => false end).

(** [rp[k]] *)
Definition dict_getitem (rp : loc) (k : string) : M pyval :=
  d <- load rp ;;
  match d !! k with
  | Some v => ret v
  | None => raise (KeyError (repr (VStr k)))
  end.

(** [rp.get(k, dflt)]; [rp.get(k)] is [dict_get rp k VNone]. *)
Definition dict_get (rp : loc) (k : string) (dflt : pyval) : M pyval :=
  d <- load rp ;;
  ret (default dflt (d !! k)).

(** [rp.pop(k)] *)
Definition dict_pop (rp : loc) (k : string) : M pyval :=
  d <- load rp ;;
  match d !! k with
  | Some v => store rp (delete k d) ;;; ret v
  | None => raise (KeyError (repr (VStr k)))
  end.

(** [rp.pop(k, dflt)] *)
Definition dict_pop_default (rp : loc) (k : string) (dflt : pyval)
    : M pyval :=
  d <- load rp ;;
  match d !! k with
  | Some v => store rp (delete k d) ;;; ret v
  | None => ret dflt
  end.

(** [sorted(rp.keys())] *)
Definition dict_sorted_keys (rp : loc) : M (list string) :=
  d <- load rp ;;
  ret (sorted (elements (dom d))).

(** [os.urandom(size)].  The size is converted to a C [ssize_t] first: a
    negative one is refused, and one above [ssize_t_max] does not fit and
    raises [OverflowError].  The bytes are then asked of the operating
    system, and the request may fail as well, for want of memory for
    instance: that is the outcome of [os_urandom]. *)
Definition urandom (size : Z) : M string :=
  if size <? 0 then raise (ValueError "negative argument not allowed")
  else if ssize_t_max <? size then
    raise (OverflowError "Python int too large to convert to C ssize_t")
  else call (os_urandom size).

(** [add_filters(rp, filters)] of [amifilter], on the mapping at [rp]. *)
Definition add_filters_call (rp : loc) (filters : odict) : M odict :=
  d <- load rp ;;
  let '(o, d', filters') := add_filters d filters in
  store rp d' ;;;
  match o with
  | Ret _ => ret filters'
  | Raise e => raise e
  end.

(** [filter_names_and_descriptions(images, rp)] of [amifilter]. *)
Definition filter_names_and_descriptions_call (images : list image)
    (rp : loc) : M (list image) :=
  d <- load rp ;;
  let '(o, d') := filter_names_and_descriptions images d in
  store rp d' ;;;
  lift o.

(** *** Builtins *)

(** The name [type(v).__name__]. *)
Definition type_name (v : pyval) : string :=
  match v with
  | VNone => "NoneType"
  | VBool _ => "bool"
  | VInt _ => "int"
  | VStr _ => "str"
  | VBytes _ => "bytes"
  | VList _ => "list"
  | VDict _ => "dict"
  end.

(** [int(v)] *)
Definition py_int (v : pyval) : outcome Z :=
  match v with
  | VInt z => Ret z
  | VBool b => Ret (if b then 1 else 0)
  | VStr s | VBytes s => int_of_str s
  | VNone | VList _ | VDict _ =>
      Raise (TypeError
        ("int() argument must be a string, a bytes-like object or a real "
         +:+ "number, not '" +:+ type_name v +:+ "'"))
  end.

(** [str(v)]: a string is itself, the other values print as [repr]. *)
Definition py_str (v : pyval) : string :=
  match v with
  | VStr s => s
  | _ => repr v
  end.

(** [distutils.util.strtobool] *)
Definition strtobool (val : string) : outcome pyval :=
  let val := lower val in
  if existsb (String.eqb val) ["y"; "yes"; "t"; "true"; "on"; "1"]
  then Ret (VInt 1)
  else if existsb (String.eqb val) ["n"; "no"; "f"; "false"; "off"; "0"]
  then Ret (VInt 0)
  else Raise (ValueError ("invalid truth value " +:+ repr (VStr val))).

(** [request_type in ("Create", "Update")] *)
Definition in_create_update (request_type : string) : bool :=
  String.eqb request_type "Create" || String.eqb request_type "Update".

(** *** Custom::ApiGatewayBinary *)

Definition api_gateway_binary (event : LifecycleEvent) : M (option odict) :=
  call (boto3_client "apigateway") ;;;
  let request_type := RequestType event in
  rest_api_id <- dict_getitem (ResourceProperties event) "RestApiId" ;;
  rest_api_info <- call (get_rest_api rest_api_id) ;;
  let binary_enabled :=
    match rest_api_info with
    | Some types => existsb (String.eqb "*/*") types
    | None => false
    end in
  (if in_create_update request_type then
     if negb binary_enabled then
       call (update_rest_api rest_api_id "add" "/binaryMediaTypes/*~1*")
     else ret tt
   else if String.eqb request_type "Delete" then
     if binary_enabled then
       call (update_rest_api rest_api_id "remove" "/binaryMediaTypes/*~1*")
     else ret tt
   else ret tt) ;;;
  ret None.

(** *** Custom::FindImage *)

(** The sort key of an image: the tuple (preferred virtualization type,
    preferred root device type, creation date), compared as Python
    compares tuples. *)
Definition bool_ltb (a b : bool) : bool := negb a && b.

Definition key_ltb (a b : bool * bool * Z) : bool :=
  let '(a1, a2, a3) := a in
  let '(b1, b2, b3) := b in
  if negb (Bool.eqb a1 b1) then bool_ltb a1 b1
  else if negb (Bool.eqb a2 b2) then bool_ltb a2 b2
  else a3 <? b3.

(** [preferred is None or attribute == preferred] *)
Definition is_preferred (preferred : pyval) (attribute : string) : bool :=
  match preferred with
  | VNone => true
  | _ => str_eq attribute preferred
  end.

Definition sort_key (preferred_virtualization_type
    preferred_root_device_type : pyval) (image : image)
    : outcome (bool * bool * Z) :=
  match parse_date (CreationDate image) with
  | Raise e => Raise e
  | Ret date =>
      let is_preferred_virtualization_type :=
        is_preferred preferred_virtualization_type
          (VirtualizationType image) in
      let is_preferred_root_device_type :=
        is_preferred preferred_root_device_type (RootDeviceType image) in
      Ret (is_preferred_virtualization_type,
           is_preferred_root_device_type,
           date)
  end.

(** [images.sort(key=sort_key, reverse=True)]: the keys are computed
    first, one per image in list order, then the images are sorted. *)
Definition sort_images (pvt prdt : pyval) (images : list image)
    : M (list image) :=
  keyed <- mapM (fun image =>
                   k <- lift (sort_key pvt prdt image) ;; ret (k, image))
             images ;;
  ret (map snd (list_sort key_ltb fst true keyed)).

(** The part of [find_image] after the candidate pool is known. *)
Definition rank_images (rp : loc) (images : list image)
    : M (option odict) :=
  preferred_virtualization_type <-
    dict_get rp "PreferredVirtualizationType" VNone ;;
  preferred_root_device_type <-
    dict_get rp "PreferredRootDeviceType" VNone ;;
  images <- sort_images preferred_virtualization_type
              preferred_root_device_type images ;;
  let image_ids := map ImageId images in
  match image_ids with
  | [] => raise (IndexError "list index out of range")
  | first :: _ =>
      ret (Some [("ImageId", VStr first);
                 ("MatchingImageIds", VList (map VStr image_ids))])
  end.

(** The filters dictionary as a list of [{Name: key, Values: values}]
    dictionaries. *)
Definition to_ec2_filters (filters : odict) : list pyval :=
  map (fun '(key, values) =>
         VDict [("Name", VStr key); ("Values", values)]) filters.

Definition find_image (event : LifecycleEvent) : M (option odict) :=
  if negb (in_create_update (RequestType event)) then ret None
  else
    rp <- dict_copy (ResourceProperties event) ;;
    let filters : odict := [] in
    owner <- try_except (dict_getitem rp "Owner")
               (fun e => isinstance e "KeyError")
               (fun _ => raise (ValueError "Owner must be specified")) ;;
    filters <- add_filters_call rp filters ;;
    let ec2_filters := to_ec2_filters filters in
    call (boto3_client "ec2") ;;;
    images <- call (describe_images [owner] ec2_filters) ;;
    match images with
    | None | Some [] =>
        raise (ValueError "No AMIs found that match the filters applied.")
    | Some images =>
        images <- filter_names_and_descriptions_call images rp ;;
        rank_images rp images
    end.

(** *** Custom::GeneratePassword *)

(** [handle_genphrase_properties(request_properties, generator_kw)]; the
    keyword dictionary it fills is returned. *)
Definition handle_genphrase_properties (request_properties : loc)
    (generator_kw : odict) : M odict :=
  has_chars <- dict_contains request_properties "Chars" ;;
  if has_chars then
    raise (ValueError
      ("Chars cannot be specified when PasswordType is "
       +:+ dq +:+ "phrase" +:+ dq))
  else
  has_charset <- dict_contains request_properties "Charset" ;;
  if has_charset then
    raise (ValueError
      ("Charset cannot be specified when PasswordType is "
       +:+ dq +:+ "phrase" +:+ dq))
  else
  has_wordset <- dict_contains request_properties "Wordset" ;;
  has_words <- dict_contains request_properties "Words" ;;
  generator_kw <-
    (if has_wordset then
       if has_words then
         raise (ValueError "Words and Wordset are mutually exclusive")
       else
         wordset <- dict_getitem request_properties "Wordset" ;;
         ret (od_set "wordset" wordset generator_kw)
     else if has_words then
       words <- dict_getitem request_properties "Words" ;;
       ret (od_set "words" words generator_kw)
     else ret generator_kw) ;;
  has_separator <- dict_contains request_properties "Separator" ;;
  if has_separator then
    separator <- dict_getitem request_properties "Separator" ;;
    ret (od_set "sep" separator generator_kw)
  else ret generator_kw.

(** [handle_genword_properties(request_properties, generator_kw)] *)
Definition handle_genword_properties (request_properties : loc)
    (generator_kw : odict) : M odict :=
  has_words <- dict_contains request_properties "Words" ;;
  if has_words then
    raise (ValueError
      ("Words cannot be specified when PasswordType is "
       +:+ dq +:+ "word" +:+ dq))
  else
  has_wordset <- dict_contains request_properties "Wordset" ;;
  if has_wordset then
    raise (ValueError
      ("Wordset cannot be specified when PasswordType is "
       +:+ dq +:+ "word" +:+ dq))
  else
  has_charset <- dict_contains request_properties "Charset" ;;
  has_chars <- dict_contains request_properties "Chars" ;;
  generator_kw <-
    (if has_charset then
       if has_chars then
         raise (ValueError "Chars and Charset are mutually exclusive")
       else
         charset <- dict_getitem request_properties "Charset" ;;
         ret (od_set "charset" charset generator_kw)
     else if has_chars then
       chars <- dict_getitem request_properties "Chars" ;;
       ret (od_set "chars" chars generator_kw)
     else ret generator_kw) ;;
  has_separator <- dict_contains request_properties "Separator" ;;
  if has_separator then
    raise (ValueError
      ("Separator cannot be specified when PasswordType is "
       +:+ dq +:+ "word" +:+ dq))
  else ret generator_kw.

Definition generate_password (event : LifecycleEvent) : M (option odict) :=
  if negb (in_create_update (RequestType event)) then ret None
  else
    rp <- dict_copy (ResourceProperties event) ;;
    password_type <- dict_get rp "PasswordType" (VStr "word") ;;
    let kw : odict := [] in
    generator_kw <-
      (if str_eq "phrase" password_type then
         kw <- handle_genphrase_properties rp kw ;; ret (genphrase, kw)
       else if str_eq "word" password_type then
         kw <- handle_genword_properties rp kw ;; ret (genword, kw)
       else
         raise (ValueError
           ("PasswordType must be " +:+ dq +:+ "word" +:+ dq +:+ " or "
            +:+ dq +:+ "phrase" +:+ dq +:+ ": " +:+ repr password_type))) ;;
    let '(generator, kw) := generator_kw in
    entropy <- dict_get rp "Entropy" VNone ;;
    kw <-
      (match entropy with
       | VNone => ret kw
       | _ =>
           if negb (is_int entropy) then
             raise (ValueError
               ("Entropy must be an integer: " +:+ repr entropy))
           else ret (od_set "entropy" entropy kw)
       end) ;;
    password <- call (generator kw) ;;
    encryption_key <- dict_get rp "EncryptionKey" VNone ;;
    match encryption_key with
    | VNone => ret (Some [("PlaintextPassword", VStr password)])
    | _ =>
        encryption_context <- dict_get rp "EncryptionContext" (VDict []) ;;
        call (boto3_client "kms") ;;;
        blob <- call (kms_encrypt encryption_key encryption_context
                        (encode_utf8 password)) ;;
        ret (Some [("CiphertextBase64Password", VStr (b64encode blob))])
    end.

(** *** Custom::HashPassword *)

(** [handle_plaintext_password_hash_params(request_properties)] *)
Definition handle_plaintext_password_hash_params
    (request_properties : loc) : M pyval :=
  plaintext_password <- dict_pop request_properties "PlaintextPassword" ;;
  if negb (is_str plaintext_password) then
    raise (TypeError "PlaintextPassword must be a string")
  else ret plaintext_password.

(** [handle_ciphertext_password_hash_params(request_properties)] *)
Definition handle_ciphertext_password_hash_params
    (request_properties : loc) : M pyval :=
  ciphertext_b64_password <-
    dict_pop request_properties "CiphertextBase64Password" ;;
  encryption_context <-
    dict_pop_default request_properties "EncryptionContext" VNone ;;
  match ciphertext_b64_password with
  | VStr ciphertext_b64 =>
      encryption_context <-
        (match encryption_context with
         | VNone => ret (VDict [])
         | _ =>
             if negb (is_dict encryption_context) then
               raise (TypeError "EncryptionContext must be a mapping")
             else ret encryption_context
         end) ;;
      ciphertext <-
        try_except (lift (b64decode ciphertext_b64))
          (fun e => isinstance e "ValueError")
          (fun _ => raise (ValueError
             "Invalid base64 encoding in CiphertextBase64Password")) ;;
      try_except
        (call (boto3_client "kms") ;;;
         call (kms_decrypt ciphertext encryption_context))
        (fun _ => true)
        (fun _ => raise (ValueError
           "Unable to decrypt CiphertextBase64Password"))
  | _ => raise (TypeError "CiphertextBase64Password must be a string")
  end.

(** [allow_insecure] after its coercion to a truth value. *)
Definition coerce_allow_insecure (allow_insecure : pyval)
    : outcome pyval :=
  match allow_insecure with
  | VStr s => strtobool s
  | _ =>
      if is_list_tuple_dict allow_insecure then
        Raise (TypeError "AllowInsecure must be true or false")
      else Ret (VBool (truthy allow_insecure))
  end.

(** [get_hash_algorithm(request_properties)] *)
Definition get_hash_algorithm (request_properties : loc)
    : M (HashAlgorithm builder) :=
  scheme <- dict_pop_default request_properties "Scheme" VNone ;;
  allow_insecure <-
    dict_pop_default request_properties "AllowInsecure" (VBool false) ;;
  allow_insecure <- lift (coerce_allow_insecure allow_insecure) ;;
  match scheme with
  | VNone => raise (ValueError "Scheme must be specified")
  | VStr scheme =>
      if String.eqb scheme "" then
        raise (ValueError "Scheme cannot be empty")
      else
        match algorithms (replace_char "-" "_" scheme) with
        | None =>
            raise (ValueError ("Unknown scheme " +:+ repr (VStr scheme)))
        | Some algo =>
            if negb (is_secure algo) && negb (truthy allow_insecure)
            then
              raise (ValueError
                ("Scheme " +:+ scheme
                 +:+ " is insecure and AllowInsecure was not specified"))
            else ret algo
        end
  | _ => raise (TypeError "Scheme must be a string")
  end.

(** [validate_hash_parameter(parameter, name, value)] *)
Definition validate_hash_parameter (parameter : HashParameter)
    (name : string) (value : pyval) : outcome pyval :=
  value <~
    (match type parameter value with
     | Ret coerced => Ret coerced
     | Raise e =>
         if isinstance e "TypeError" || isinstance e "ValueError" then
           Raise (ValueError
             ("Invalid value for parameter " +:+ name +:+ ": "
              +:+ repr value))
         else Raise e
     end) ;;
  _ <~
    (match validator parameter with
     | Some validate => validate value
     | None => Ret tt
     end) ;;
  _ <~
    (match min_length parameter with
     | Some min_length =>
         match py_len value with
         | None =>
             Raise (TypeError
               ("object of type '" +:+ type_name value
                +:+ "' has no len()"))
         | Some len =>
             if len <? min_length then
               Raise (ValueError
                 ("Length of parameter " +:+ name
                  +:+ " cannot be less than " +:+ str_of_Z min_length
                  +:+ ": " +:+ repr value))
             else Ret tt
         end
     | None => Ret tt
     end) ;;
  _ <~
    (match max_length parameter with
     | Some max_length =>
         match py_len value with
         | None =>
             Raise (TypeError
               ("object of type '" +:+ type_name value
                +:+ "' has no len()"))
         | Some len =>
             if max_length <? len then
               Raise (ValueError
                 ("Length of parameter " +:+ name
                  +:+ " cannot be greater than " +:+ str_of_Z max_length
                  +:+ ": " +:+ repr value))
             else Ret tt
         end
     | None => Ret tt
     end) ;;
  _ <~
    (match min_value parameter with
     | Some min_value =>
         match py_lt value min_value with
         | None =>
             Raise (TypeError
               ("'<' not supported between instances of '"
                +:+ type_name value +:+ "' and '" +:+ type_name min_value
                +:+ "'"))
         | Some below =>
             if below then
               Raise (ValueError
                 ("Value of parameter " +:+ name
                  +:+ " cannot be less than " +:+ py_str min_value
                  +:+ ": " +:+ repr value))
             else Ret tt
         end
     | None => Ret tt
     end) ;;
  _ <~
    (match max_value parameter with
     | Some max_value =>
         match py_lt max_value value with
         | None =>
             Raise (TypeError
               ("'>' not supported between instances of '"
                +:+ type_name value +:+ "' and '" +:+ type_name max_value
                +:+ "'"))
         | Some above =>
             if above then
               Raise (ValueError
                 ("Value of parameter " +:+ name
                  +:+ " cannot be greater than " +:+ py_str max_value
                  +:+ ": " +:+ repr value))
             else Ret tt
         end
     | None => Ret tt
     end) ;;
  Ret value.

(** The loop of [hash_password] over [algorithm.parameters.items()]:
    each declared parameter that is present is popped, validated and
    stored under the scheme's keyword. *)
Fixpoint parse_parameters (rp : loc)
    (declared : list (string * HashParameter)) (builder_kw : odict)
    : M odict :=
  match declared with
  | [] => ret builder_kw
  | (parameter_name, parameter) :: declared' =>
      present <- dict_contains rp parameter_name ;;
      if negb present then parse_parameters rp declared' builder_kw
      else
        parameter_value <- dict_pop rp parameter_name ;;
        parameter_value <-
          lift (validate_hash_parameter parameter parameter_name
                  parameter_value) ;;
        parse_parameters rp declared'
          (od_set (algorithm_parameter parameter) parameter_value
             builder_kw)
  end.

(** [rp.pop("ServiceToken", "")] and the test for leftover keys. *)
Definition reject_unknown_parameters (rp : loc) : M unit :=
  dict_pop_default rp "ServiceToken" (VStr "") ;;;
  d <- load rp ;;
  if negb (bool_decide (dom d = ∅)) then
    keys <- dict_sorted_keys rp ;;
    raise (ValueError ("Unknown parameters: " +:+ join ", " keys))
  else ret tt.

Definition hash_password (event : LifecycleEvent) : M (option odict) :=
  if negb (in_create_update (RequestType event)) then ret None
  else
    rp <- dict_copy (ResourceProperties event) ;;
    has_plaintext <- dict_contains rp "PlaintextPassword" ;;
    has_ciphertext <- dict_contains rp "CiphertextBase64Password" ;;
    if has_plaintext && has_ciphertext then
      raise (ValueError
        ("PlaintextPassword and CiphertextBase64Password are mutually "
         +:+ "exclusive"))
    else if negb has_plaintext && negb has_ciphertext then
      raise (ValueError
        ("Either PlaintextPassword or CiphertextBase64Password must be "
         +:+ "specified"))
    else
      plaintext_password <-
        (if has_plaintext then handle_plaintext_password_hash_params rp
         else handle_ciphertext_password_hash_params rp) ;;
      algo <- get_hash_algorithm rp ;;
      let builder := algorithm algo in
      builder_kw <- parse_parameters rp (parameters algo) [] ;;
      reject_unknown_parameters rp ;;;
      builder <- call (builder_using builder builder_kw) ;;
      result <- call (builder_hash builder plaintext_password) ;;
      ret (Some [("Hash", VStr result)]).

(** *** Custom::SecureRandom *)

(** The [try] block of [secure_random]: [size] is rebound by [int], so
    the message shows the integer when the sign test fails and the
    original value when the conversion fails. *)
Definition parse_size (size : pyval) : outcome Z :=
  match py_int size with
  | Ret n =>
      if n <=? 0 then
        Raise (ValueError ("Invalid size parameter: " +:+ repr (VInt n)))
      else Ret n
  | Raise e =>
      if isinstance e "ValueError" then
        Raise (ValueError ("Invalid size parameter: " +:+ repr size))
      else Raise e
  end.

Definition secure_random (event : LifecycleEvent) : M (option odict) :=
  if negb (in_create_update (RequestType event)) then ret None
  else
    size <- dict_getitem (ResourceProperties event) "Size" ;;
    size <- lift (parse_size size) ;;
    result <- urandom size ;;
    ret (Some [("Raw", VStr (decode_iso8859_1 result));
               ("Hex", VStr (lower (b16encode result)));
               ("Base64", VStr (b64encode result))]).

(** *** The dispatcher *)

Definition handlers
    : list (string * (LifecycleEvent -> M (option odict))) :=
  [("Custom::ApiGatewayBinary", api_gateway_binary);
   ("Custom::FindImage", find_image);
   ("Custom::GeneratePassword", generate_password);
   ("Custom::HashPassword", hash_password);
   ("Custom::SecureRandom", secure_random)].

(** [handlers.get(resource_type)] *)
Fixpoint handlers_get (resource_type : string)
    (hs : list (string * (LifecycleEvent -> M (option odict))))
    : option (LifecycleEvent -> M (option odict)) :=
  match hs with
  | [] => None
  | (name, handler) :: hs' =>
      if String.eqb resource_type name then Some handler
      else handlers_get resource_type hs'
  end.

(** The body of the response before the handler runs. *)
Definition initial_body (event : LifecycleEvent) : odict :=
  let body :=
    [("Status", VStr "FAILED");
     ("Reason", VStr "Unknown error");
     ("StackId", VStr (StackId event));
     ("RequestId", VStr (RequestId event));
     ("LogicalResourceId", VStr (LogicalResourceId event))] in
  match PhysicalResourceId event with
  | Some physical_resource_id =>
      od_set "PhysicalResourceId" (VStr physical_resource_id) body
  | None => body
  end.

(** The [try] block of [lambda_handler]. *)
Definition handler_body (handler : LifecycleEvent -> M (option odict))
    (event : LifecycleEvent) (body : odict) : M odict :=
  try_except
    (data <- handler event ;;
     let data := default [] data in
     let '(body, data) :=
       match od_get "PhysicalResourceId" data with
       | Some physical_resource_id =>
           (od_set "PhysicalResourceId" physical_resource_id body,
            od_del "PhysicalResourceId" data)
       | None => (body, data)
       end in
     let body := od_set "Status" (VStr "SUCCESS") body in
     let body := od_del "Reason" body in
     ret (od_set "Data" (VDict data) body))
    (fun _ => true)
    (fun e => ret (od_set "Reason" (VStr (exn_str e)) body)).

(** The envelope [lambda_handler] builds. *)
Definition make_body (event : LifecycleEvent) : M odict :=
  let body := initial_body event in
  body <-
    (match handlers_get (ResourceType event) handlers with
     | None =>
         ret (od_set "Reason"
                (VStr ("Unknown resource type " +:+ ResourceType event))
                body)
     | Some handler => handler_body handler event body
     end) ;;
  if negb (od_mem "PhysicalResourceId" body) then
    physical_resource_id <- call_total uuid4 ;;
    ret (od_set "PhysicalResourceId" (VStr physical_resource_id) body)
  else ret body.

(** The request that delivers an envelope. *)
Definition delivery (event : LifecycleEvent) (body : odict) : put_request :=
  let body := json_dumps body in
  let headers :=
    [("Content-Type", VStr "");
     ("Content-Length", VStr (str_of_Z (Z.of_nat (String.length body))))] in
  Put (ResponseURL event) headers body.

Definition lambda_handler (event : LifecycleEvent) : M unit :=
  body <- make_body event ;;
  requests_put_call (delivery event body) ;;;
  ret tt.

End Handlers.

(** ** The filtering step of [amifilter] *)

(** Modelled from the spec: the name and description filtering step
    [filter_names_and_descriptions] of the module [amifilter], which is
    not among the sources.  The spec says of it only that it is a
    filtering step of the pool of candidates, after which the pool may be
    empty: it keeps the images of the pool that pass a test on the
    properties and the image, in their order, and leaves the properties
    as they are. *)
Definition spec_filter_names_and_descriptions
    (passes : gmap string pyval -> image -> bool)
    (images : list image) (rp : gmap string pyval)
    : outcome (list image) * gmap string pyval :=
  (Ret (List.filter (passes rp) images), rp).

(** ** An instance of the collaborators, for examples *)

(** A small world in which the handlers can be run: the world is a
    counter that numbers the identifiers and the random bytes handed
    out, the services answer at once, and the tables of [amifilter] and
    [hashparams] have a few entries. *)
Module Example.

Definition repr (v : pyval) : string :=
  match v with
  | VNone => "None"
  | VBool b => if b then "True" else "False"
  | VInt z => pretty z
  | VStr s => "'" +:+ s +:+ "'"
  | VBytes s => "b'" +:+ s +:+ "'"
  | VList _ => "[...]"
  | VDict _ => "{...}"
  end.

(** Decimal digits to a number. *)
Fixpoint digits (s : string) (acc : Z) : option Z :=
  match s with
  | EmptyString => Some acc
  | String c s' =>
      let n := Z.of_N (N_of_ascii c) in
      if (48 <=? n) && (n <=? 57) then digits s' (10 * acc + (n - 48))
      else None
  end.

Definition int_of_str (s : string) : outcome Z :=
  match s with
  | EmptyString =>
      Raise (ValueError "invalid literal for int() with base 10: ''")
  | String c s' =>
      match (if Ascii.eqb c "-" then
               match s' with
               | EmptyString => None
               | _ => option_map Z.opp (digits s' 0)
               end
             else digits s 0) with
      | Some z => Ret z
      | None =>
          Raise (ValueError
            ("invalid literal for int() with base 10: "
             +:+ repr (VStr s)))
      end
  end.

(** Dates written [YYYY-MM-DD], read as the number [YYYYMMDD]. *)
Fixpoint drop_hyphens (s : string) : string :=
  match s with
  | EmptyString => EmptyString
  | String c s' =>
      if Ascii.eqb c "-" then drop_hyphens s'
      else String c (drop_hyphens s')
  end.

Definition parse_date (s : string) : outcome Z :=
  match drop_hyphens s with
  | EmptyString =>
      Raise (Exn ["ParseError"; "ValueError"] "Unable to parse date string")
  | s' =>
      match digits s' 0 with
      | Some z => Ret z
      | None =>
          Raise (Exn ["ParseError"; "ValueError"]
                   "Unable to parse date string")
      end
  end.

Definition json_dumps (d : odict) : string :=
  "{" +:+ join ", " (map (fun '(k, v) => k +:+ ": " +:+ repr v) d)
  +:+ "}".

(** [base64.b64decode(s)] for a string, as CPython decodes without
    [validate].  The string must be ASCII.  Characters outside the
    alphabet are skipped.  A padding character that completes a group of
    four ends the data, and any other is skipped.  Data that stops in
    the middle of a group is the error [binascii.Error], a
    [ValueError]. *)
Definition emit (octet : N) (o : outcome string) : outcome string :=
  match o with
  | Ret b => Ret (String (ascii_of_N octet) b)
  | Raise e => Raise e
  end.

Fixpoint a2b_base64 (s : string) (quad_pos : nat) (leftchar : N)
    (pads : nat) (count : nat) : outcome string :=
  match s with
  | EmptyString =>
      match quad_pos with
      | O => Ret EmptyString
      | S O =>
          Raise (Exn ["Error"; "ValueError"]
            ("Invalid base64-encoded string: number of data characters ("
             +:+ pretty count
             +:+ ") cannot be 1 more than a multiple of 4"))
      | _ => Raise (Exn ["Error"; "ValueError"] "Incorrect padding")
      end
  | String c s' =>
      if Ascii.eqb c "=" then
        if (2 <=? quad_pos)%nat && (4 <=? quad_pos + S pads)%nat
        then Ret EmptyString
        else a2b_base64 s' quad_pos leftchar (S pads) count
      else
        match b64_value c with
        | None => a2b_base64 s' quad_pos leftchar pads count
        | Some v =>
            match quad_pos with
            | O => a2b_base64 s' 1 v 0 (S count)
            | S O =>
                emit (N.lor (N.shiftl leftchar 2) (N.shiftr v 4))
                  (a2b_base64 s' 2 (N.land v 15) 0 (S count))
            | S (S O) =>
                emit (N.lor (N.shiftl leftchar 4) (N.shiftr v 2))
                  (a2b_base64 s' 3 (N.land v 3) 0 (S count))
            | _ =>
                emit (N.lor (N.shiftl leftchar 6) v)
                  (a2b_base64 s' 0 0 0 (S count))
            end
        end
  end.

Fixpoint is_ascii (s : string) : bool :=
  match s with
  | EmptyString => true
  | String c s' => (N_of_ascii c <? 128)%N && is_ascii s'
  end.

Definition b64decode (s : string) : outcome string :=
  if is_ascii s then a2b_base64 s 0 0 0 0
  else Raise (ValueError
                "string argument should contain only ASCII characters").

(** The bytes the operating system hands out: byte number [w] of the
    world is [7 w + 200] modulo 256. *)
Fixpoint urandom_bytes (n : nat) (w : nat) : string * nat :=
  match n with
  | O => (EmptyString, w)
  | S n' =>
      let (s, w') := urandom_bytes n' (S w) in
      (String (ascii_of_nat (7 * w + 200)) s, w')
  end.

Definition os_urandom (size : Z) (w : nat) : outcome string * nat :=
  let (bytes, w') := urandom_bytes (Z.to_nat size) w in
  (Ret bytes, w').

Definition images : list image :=
  [Image "A" "2020-01-01" "hvm" "ebs" "base-2020" "";
   Image "B" "2021-01-01" "hvm" "ebs" "base-2021" ""].

(** Copies the [Architecture] property into the filters. *)
Definition add_filters (rp : gmap string pyval) (filters : odict)
    : outcome unit * gmap string pyval * odict :=
  match rp !! "Architecture" with
  | Some v => (Ret tt, rp, od_set "architecture" (listify v) filters)
  | None => (Ret tt, rp, filters)
  end.

(** The rule of the examples: an image passes when its name is the
    [ImageName] property, if there is one. *)
Definition passes (rp : gmap string pyval) (i : image) : bool :=
  match rp !! "ImageName" with
  | Some (VStr name) => String.eqb (ImageName i) name
  | _ => true
  end.

Definition filter_names_and_descriptions (images : list image)
    (rp : gmap string pyval) : outcome (list image) * gmap string pyval :=
  spec_filter_names_and_descriptions passes images rp.

Definition to_int (v : pyval) : outcome pyval :=
  match v with
  | VInt z => Ret (VInt z)
  | VBool b => Ret (VInt (if b then 1 else 0))
  | VStr s | VBytes s =>
      match int_of_str s with
      | Ret z => Ret (VInt z)
      | Raise e => Raise e
      end
  | _ => Raise (TypeError "int() argument must be a string or a number")
  end.

Definition to_str (v : pyval) : outcome pyval :=
  match v with
  | VStr s => Ret (VStr s)
  | _ => Ret (VStr (repr v))
  end.

Definition rounds : HashParameter := {|
  algorithm_parameter := "rounds";
  type := to_int;
  validator := None;
  min_length := None;
  max_length := None;
  min_value := Some (VInt 1000);
  max_value := Some (VInt 999999999)
|}.

Definition salt : HashParameter := {|
  algorithm_parameter := "salt";
  type := to_str;
  validator := None;
  min_length := Some 0;
  max_length := Some 16;
  min_value := None;
  max_value := None
|}.

(** A parameter with a validator of its own. *)
Definition ident : HashParameter := {|
  algorithm_parameter := "ident";
  type := to_str;
  validator := Some (fun v =>
    if str_eq "2a" v || str_eq "2b" v then Ret tt
    else Raise (ValueError "unsupported variant"));
  min_length := None;
  max_length := None;
  min_value := None;
  max_value := None
|}.

Definition algorithms (scheme : string) : option (HashAlgorithm string) :=
  if String.eqb scheme "md5_crypt" then
    Some {| algorithm := "md5_crypt"; is_secure := false;
            parameters := [("Salt", salt)] |}
  else if String.eqb scheme "sha256_crypt" then
    Some {| algorithm := "sha256_crypt"; is_secure := true;
            parameters := [("Rounds", rounds); ("Salt", salt)] |}
  else if String.eqb scheme "bcrypt" then
    Some {| algorithm := "bcrypt"; is_secure := true;
            parameters := [("Ident", ident); ("Rounds", rounds)] |}
  else None.

(** The fields in the order of the class. *)
Definition collaborators : Collaborators nat string :=
  Build_Collaborators nat string
    repr
    int_of_str
    (fun w => ("uuid-" +:+ pretty w, S w))
    json_dumps
    b64decode
    os_urandom
    (fun _ w => (Ret (200, "OK"), w))
    (fun _ w => (Ret tt, w))
    (fun _ w => (Ret None, w))
    (fun _ _ _ w => (Ret tt, w))
    (fun _ _ w => (Ret (Some images), w))
    (fun _ _ plaintext w => (Ret plaintext, w))
    (fun ciphertext _ w => (Ret (VBytes ciphertext), w))
    parse_date
    (fun _ w => (Ret "correct horse battery staple", w))
    (fun _ w => (Ret "Xq3vB7pL", w))
    (fun b _ w => (Ret b, w))
    (fun b password w =>
       (Ret ("$" +:+ b +:+ "$"
             +:+ match password with
                 | VStr s | VBytes s => s
                 | _ => ""
                 end), S w))
    add_filters
    filter_names_and_descriptions
    algorithms.

(** An event for the resource type [resource_type], whose properties
    are the mapping at location 1. *)
Definition event (request_type resource_type : string) : LifecycleEvent := {|
  RequestType := request_type;
  ResourceType := resource_type;
  ResourceProperties := 1%positive;
  StackId := "arn:aws:cloudformation:stack/example";
  RequestId := "request-1";
  LogicalResourceId := "Resource";
  ResponseURL := "https://cloudformation.example/response";
  PhysicalResourceId := None
|}.

(** The state in which the properties of the event are [rp]. *)
Definition initial (rp : list (string * pyval)) : state nat :=
  State {[ 1%positive := list_to_map rp ]} 0%nat [].
End Example.

(** ** Specifications *)

(** A computation writes within [L] when every mapping of the store at a
    location outside [L] is after it what it was before. *)
Definition writes_within {W A} (L : loc -> Prop)
    (m : StateExn (state W) A) : Prop :=
  forall st l, ~ L l -> heap (m st).2 !! l = heap st !! l.

(** A computation preserves the store, and the mapping at [l] in
    particular, when every mapping of the store is after it what it was
    before and it puts no mapping at [l] if there was none. *)
Definition preserves {W A} (l : loc) (m : StateExn (state W) A) : Prop :=
  forall st,
    heap st ⊆ heap (m st).2 /\ heap (m st).2 !! l = heap st !! l.

(** The state in which the mapping at [l] is [d]. *)
Definition set_dict {W} (st : state W) (l : loc) (d : gmap string pyval)
    : state W :=
  State (<[l := d]> (heap st)) (world st) (sent st).

Section DispatcherSpecs.
Context {W builder : Type} {C : Collaborators W builder}.

(** The envelope after a handler has returned [data]. *)
Definition success_body (data : option odict) (body : odict) : odict :=
  let data := default [] data in
  let '(body, data) :=
    match od_get "PhysicalResourceId" data with
    | Some physical_resource_id =>
        (od_set "PhysicalResourceId" physical_resource_id body,
         od_del "PhysicalResourceId" data)
    | None => (body, data)
    end in
  od_set "Data" (VDict data)
    (od_del "Reason" (od_set "Status" (VStr "SUCCESS") body)).

(** The envelope after a handler has raised [e]. *)
Definition failure_body (e : exn) (body : odict) : odict :=
  od_set "Reason" (VStr (exn_str e)) body.

(** The last step of [make_body]: an identifier for a resource that has
    none. *)
Definition with_physical_resource_id (body : odict)
    : StateExn (state W) odict :=
  if negb (od_mem "PhysicalResourceId" body) then
    physical_resource_id <- call_total uuid4 ;;
    ret (od_set "PhysicalResourceId" (VStr physical_resource_id) body)
  else ret body.

(** What [lambda_handler] does once the envelope is made: it sends it,
    and its own outcome is that of the sending. *)
Definition deliver (event : LifecycleEvent) (body : odict) (st : state W)
    : outcome unit * state W :=
  let r := delivery event body in
  let (o, w) := requests_put r (world st) in
  (match o with Ret _ => Ret tt | Raise e => Raise e end,
   State (heap st) w (sent st ++ [r])).

End DispatcherSpecs.

(** A message mentions a text when the text occurs in it. *)
Fixpoint starts_with (s p : string) : bool :=
  match p, s with
  | EmptyString, _ => true
  | String a p', String b s' => Ascii.eqb a b && starts_with s' p'
  | String _ _, EmptyString => false
  end.

Fixpoint mentions (s p : string) : bool :=
  starts_with s p
  || match s with
     | EmptyString => false
     | String _ s' => mentions s' p
     end.

(** An error names a parameter and a value when it is a [ValueError]
    whose message mentions the parameter's name and the value as [repr]
    shows it. *)
Definition names_parameter_and_value (e : exn) (name shown : string)
    : Prop :=
  isinstance e "ValueError" = true
  /\ mentions (exn_str e) name = true
  /\ mentions (exn_str e) shown = true.

(** The checks of a hash parameter that a coerced value passes. *)
Definition validator_passes (p : HashParameter) (v : pyval) : Prop :=
  match validator p with
  | None => True
  | Some validate => validate v = Ret tt
  end.

Definition min_length_passes (p : HashParameter) (v : pyval) : Prop :=
  match min_length p with
  | None => True
  | Some n => exists len, py_len v = Some len /\ n <= len
  end.

Definition max_length_passes (p : HashParameter) (v : pyval) : Prop :=
  match max_length p with
  | None => True
  | Some n => exists len, py_len v = Some len /\ len <= n
  end.

Definition min_value_passes (p : HashParameter) (v : pyval) : Prop :=
  match min_value p with
  | None => True
  | Some m => py_lt v m = Some false
  end.

Definition max_value_passes (p : HashParameter) (v : pyval) : Prop :=
  match max_value p with
  | None => True
  | Some m => py_lt m v = Some false
  end.

(** [k in d] *)
Definition has_key (d : gmap string pyval) (k : string) : bool :=
  match d !! k with Some _ => true | None => false end.

(** The step of [hash_password] that takes the password from the
    properties [d] of the copy at [rp]. *)
Definition password_source {W builder} {C : Collaborators W builder}
    (rp : loc) (d : gmap string pyval) : StateExn (state W) pyval :=
  if has_key d "PlaintextPassword"
  then handle_plaintext_password_hash_params rp
  else handle_ciphertext_password_hash_params rp.

(** The keys that step pops. *)
Definition password_keys (d : gmap string pyval) : list string :=
  if has_key d "PlaintextPassword" then ["PlaintextPassword"]
  else ["CiphertextBase64Password"; "EncryptionContext"].

(** [d] without the keys [ks], popped one after the other. *)
Definition delete_all (ks : list string) (d : gmap string pyval)
    : gmap string pyval :=
  foldl (fun d k => delete k d) d ks.

(** The sort key of an image whose creation date parses to [date i],
    under the preferences of the properties [d]. *)
Definition image_key (d : gmap string pyval) (date : image -> Z)
    (i : image) : bool * bool * Z :=
  (is_preferred (default VNone (d !! "PreferredVirtualizationType"))
     (VirtualizationType i),
   is_preferred (default VNone (d !! "PreferredRootDeviceType"))
     (RootDeviceType i),
   date i).

(** A preference, as the properties give it, is matched by an attribute
    when it is not specified (absent or [None]) or is the attribute. *)
Definition matches_preference (preference : option pyval)
    (attribute : string) : Prop :=
  preference = None \/ preference = Some VNone
  \/ preference = Some (VStr attribute).

Definition matches_virtualization (d : gmap string pyval) (i : image)
    : Prop :=
  matches_preference (d !! "PreferredVirtualizationType")
    (VirtualizationType i).

Definition matches_root_device (d : gmap string pyval) (i : image)
    : Prop :=
  matches_preference (d !! "PreferredRootDeviceType") (RootDeviceType i).

(** [x] stands before [y] in the list [l]. *)
Definition comes_before {A} (l : list A) (x y : A) : Prop :=
  exists l1 l2 l3, l = (l1 ++ x :: l2 ++ y :: l3)%list.

(** Equality of sort keys. *)
Definition key_eqb (a b : bool * bool * Z) : bool :=
  let '(a1, a2, a3) := a in
  let '(b1, b2, b3) := b in
  Bool.eqb a1 b1 && Bool.eqb a2 b2 && (a3 =? b3).

(** Every character, for properties of bytes that are checked by running
    through them. *)
Definition all_ascii : list ascii := map ascii_of_nat (seq 0 256).

Definition forall_ascii (P : ascii -> bool) : bool := forallb P all_ascii.

(** Every character of a string passes a test. *)
Fixpoint string_forall (P : ascii -> bool) (s : string) : bool :=
  match s with
  | EmptyString => true
  | String c s' => P c && string_forall P s'
  end.

(** A digit 0..9 or a letter a..f. *)
Definition is_lower_hex (c : ascii) : bool :=
  let n := N_of_ascii c in
  (((48 <=? n) && (n <=? 57)) || ((97 <=? n) && (n <=? 102)))%N.

(** A sextet is written as a character of the alphabet, which is not the
    padding and reads back as the sextet. *)
Definition sextet_round_trips (s : N) : bool :=
  match b64_value (b64_char s) with
  | Some s' => (s' =? s)%N
  | None => false
  end && negb (Ascii.eqb (b64_char s) "=").

(** A computation sends nothing when the requests sent are after it what
    they were before. *)
Definition sends_nothing {W A} (m : StateExn (state W) A) : Prop :=
  forall st, sent (m st).2 = sent st.

(** A computation changes nothing when the state is after it what it
    was before. *)
Definition changes_nothing {W A} (m : StateExn (state W) A) : Prop :=
  forall st, (m st).2 = st.

(** The resource types of the table [handlers]. *)
Definition resource_types : list string :=
  ["Custom::ApiGatewayBinary"; "Custom::FindImage";
   "Custom::GeneratePassword"; "Custom::HashPassword";
   "Custom::SecureRandom"].

(** [binary_enabled] of [api_gateway_binary], for an answer of
    [get_rest_api]. *)
Definition binary_enabled (rest_api_info : option (list string)) : bool :=
  match rest_api_info with
  | Some types => existsb (String.eqb "*/*") types
  | None => false
  end.

(** A second world, for examples that need a service to answer in more
    than one way: the answer of API Gateway depends on the identifier of
    the REST API, that of EC2 on the owner, that of KMS on the
    ciphertext.  A lookup of a REST API adds 1 to the counter of the
    world and a patch adds 10, so that the counter tells which calls were
    made. *)
Module Scenario.

Definition get_rest_api (rest_api_id : pyval) (w : nat)
    : outcome (option (list string)) * nat :=
  match rest_api_id with
  | VStr "api-binary" => (Ret (Some ["application/json"; "*/*"]), S w)
  | VStr "api-plain" => (Ret (Some ["application/json"]), S w)
  | VStr _ => (Ret None, S w)
  | _ => (Raise (Exn ["ParamValidationError"] "Invalid type for restApiId"),
          w)
  end.

(** Four images that differ in virtualization type, root device type
    and date. *)
Definition mixed : list image :=
  [Image "A" "2020-01-01" "hvm" "ebs" "base-2020" "";
   Image "B" "2021-01-01" "paravirtual" "ebs" "base-2021" "";
   Image "E" "2019-06-01" "hvm" "instance-store" "base-2019" "";
   Image "F" "2022-01-01" "paravirtual" "instance-store" "base-2022" ""].

Definition describe_images (owners filters : list pyval) (w : nat)
    : outcome (option (list image)) * nat :=
  match owners with
  | [VStr "nobody"] => (Ret (Some []), w)
  | [VStr "undated"] =>
      (Ret (Some [Image "A" "2020-01-01" "hvm" "ebs" "base-2020" "";
                  Image "C" "yesterday" "hvm" "ebs" "base" "";
                  Image "D" "tomorrow" "hvm" "ebs" "base" ""]), w)
  | [VStr "mixed"] => (Ret (Some mixed), w)
  | _ => (Ret (Some Example.images), w)
  end.

Definition kms_decrypt (ciphertext : string) (context : pyval) (w : nat)
    : outcome pyval * nat :=
  if String.eqb ciphertext "" then
    (Raise (Exn ["InvalidCiphertextException"; "ClientError"]
              "An error occurred (InvalidCiphertextException)"), w)
  else (Ret (VStr ciphertext), w).

Definition kms_encrypt (key context : pyval) (plaintext : string) (w : nat)
    : outcome string * nat :=
  (Ret ("kms:" +:+ plaintext), S w).

(** The fields in the order of the class. *)
Definition collaborators : Collaborators nat string :=
  Build_Collaborators nat string
    Example.repr
    Example.int_of_str
    (fun w => ("uuid-" +:+ pretty w, S w))
    Example.json_dumps
    Example.b64decode
    Example.os_urandom
    (fun _ w => (Ret (200, "OK"), w))
    (fun _ w => (Ret tt, w))
    get_rest_api
    (fun _ _ _ w => (Ret tt, (w + 10)%nat))
    describe_images
    kms_encrypt
    kms_decrypt
    Example.parse_date
    (fun _ w => (Ret "correct horse battery staple", w))
    (fun _ w => (Ret "Xq3vB7pL", w))
    (fun b _ w => (Ret b, w))
    (fun b password w =>
       (Ret ("$" +:+ b +:+ "$"
             +:+ match password with
                 | VStr s | VBytes s => s
                 | _ => ""
                 end), S w))
    Example.add_filters
    Example.filter_names_and_descriptions
    Example.algorithms.

(** The state in which the properties of the event are [rp]. *)
Definition initial (rp : list (string * pyval)) : state nat :=
  State {[ 1%positive := list_to_map rp ]} 0%nat [].

End Scenario.

(** * Properties *)

(** ** The monad *)

Section MonadFacts.
Context {S A B : Type}.

Lemma bind_ret_run (m : StateExn S A) (f : A -> StateExn S B) st a st' :
  m st = (Ret a, st') -> bind m f st = f a st'.
Proof. intros H. unfold bind. now rewrite H. Qed.

Lemma bind_raise_run (m : StateExn S A) (f : A -> StateExn S B) st e st' :
  m st = (Raise e, st') -> bind m f st = (Raise e, st').
Proof. intros H. unfold bind. now rewrite H. Qed.

Lemma bind_inv (m : StateExn S A) (f : A -> StateExn S B) st o st2 :
  bind m f st = (o, st2) ->
  (exists a st1, m st = (Ret a, st1) /\ f a st1 = (o, st2))
  \/ (exists e, m st = (Raise e, st2) /\ o = Raise e).
Proof.
  unfold bind. destruct (m st) as [[a|e] st1]; intros H.
  - left. eauto.
  - right. exists e. inversion H; subst. auto.
Qed.

End MonadFacts.

(** ** The store *)

Section StoreFacts.
Context {W builder : Type} {C : Collaborators W builder}.

Local Abbreviation M := (StateExn (state W)).

Lemma load_run (st : state W) l d :
  heap st !! l = Some d -> load l st = (Ret d, st).
Proof. intros H. unfold load. now rewrite H. Qed.

Lemma heap_set_dict (st : state W) l d :
  heap (set_dict st l d) !! l = Some d.
Proof. simpl. apply lookup_insert_eq. Qed.

Lemma set_dict_set_dict (st : state W) l d d' :
  set_dict (set_dict st l d) l d' = set_dict st l d'.
Proof. unfold set_dict. simpl. now rewrite insert_insert_eq. Qed.

Lemma dict_copy_run (st : state W) l d :
  heap st !! l = Some d ->
  dict_copy l st = (Ret (fresh (dom (heap st))),
                    set_dict st (fresh (dom (heap st))) d).
Proof.
  intros H. unfold dict_copy. rewrite (bind_ret_run _ _ _ _ _ (load_run _ _ _ H)).
  reflexivity.
Qed.

Lemma dict_copy_dangling (st : state W) l :
  heap st !! l = None ->
  dict_copy l st
  = (Raise (KeyError (repr (VStr "ResourceProperties"))), st).
Proof. intros H. unfold dict_copy, bind, load. now rewrite H. Qed.

Lemma fresh_loc_ne (st : state W) l d :
  heap st !! l = Some d -> l <> fresh (dom (heap st)).
Proof.
  intros H Heq.
  apply (is_fresh (dom (heap st))). rewrite <- Heq.
  apply elem_of_dom. eauto.
Qed.

Lemma dict_contains_run (st : state W) rp d k :
  heap st !! rp = Some d ->
  dict_contains rp k st
  = (Ret (match d !! k with Some _ => true | None => false end), st).
Proof.
  intros H. unfold dict_contains.
  now rewrite (bind_ret_run _ _ _ _ _ (load_run _ _ _ H)).
Qed.

Lemma dict_get_run (st : state W) rp d k dflt :
  heap st !! rp = Some d ->
  dict_get rp k dflt st = (Ret (default dflt (d !! k)), st).
Proof.
  intros H. unfold dict_get.
  now rewrite (bind_ret_run _ _ _ _ _ (load_run _ _ _ H)).
Qed.

Lemma dict_getitem_run (st : state W) rp d k v :
  heap st !! rp = Some d -> d !! k = Some v ->
  dict_getitem rp k st = (Ret v, st).
Proof.
  intros H Hk. unfold dict_getitem.
  rewrite (bind_ret_run _ _ _ _ _ (load_run _ _ _ H)). now rewrite Hk.
Qed.

Lemma dict_getitem_missing (st : state W) rp d k :
  heap st !! rp = Some d -> d !! k = None ->
  dict_getitem rp k st = (Raise (KeyError (repr (VStr k))), st).
Proof.
  intros H Hk. unfold dict_getitem.
  rewrite (bind_ret_run _ _ _ _ _ (load_run _ _ _ H)). now rewrite Hk.
Qed.

Lemma dict_pop_run (st : state W) rp d k v :
  heap st !! rp = Some d -> d !! k = Some v ->
  dict_pop rp k st = (Ret v, set_dict st rp (delete k d)).
Proof.
  intros H Hk. unfold dict_pop.
  rewrite (bind_ret_run _ _ _ _ _ (load_run _ _ _ H)). now rewrite Hk.
Qed.

Lemma dict_pop_missing (st : state W) rp d k :
  heap st !! rp = Some d -> d !! k = None ->
  dict_pop rp k st = (Raise (KeyError (repr (VStr k))), st).
Proof.
  intros H Hk. unfold dict_pop.
  rewrite (bind_ret_run _ _ _ _ _ (load_run _ _ _ H)). now rewrite Hk.
Qed.

Lemma dict_pop_default_run (st : state W) rp d k dflt :
  heap st !! rp = Some d ->
  dict_pop_default rp k dflt st
  = (Ret (default dflt (d !! k)), set_dict st rp (delete k d)).
Proof.
  intros H. unfold dict_pop_default.
  rewrite (bind_ret_run _ _ _ _ _ (load_run _ _ _ H)).
  destruct (d !! k) eqn:Hk; simpl.
  - reflexivity.
  - unfold ret, set_dict. rewrite delete_id by exact Hk.
    rewrite insert_id by exact H. now destruct st.
Qed.

End StoreFacts.

(** ** What a computation leaves alone *)

Create HintDb ww.

Section FrameBasics.
Context {W builder : Type} {C : Collaborators W builder}.

Local Abbreviation M := (StateExn (state W)).

Lemma ww_ret {A} L (a : A) : writes_within (W:=W) L (ret a).
Proof. now intros st l _. Qed.

Lemma ww_raise {A} L e : writes_within (W:=W) (A:=A) L (raise e).
Proof. now intros st l _. Qed.

Lemma ww_lift {A} L (o : outcome A) : writes_within (W:=W) L (lift o).
Proof. now intros st l _. Qed.

Lemma ww_bind {A B} L (m : M A) (f : A -> M B) :
  writes_within L m -> (forall a, writes_within L (f a)) ->
  writes_within L (bind m f).
Proof.
  intros Hm Hf st l Hl. unfold bind.
  specialize (Hm st l Hl). destruct (m st) as [[a|e] st1]; simpl in *.
  - now rewrite (Hf a st1 l Hl).
  - exact Hm.
Qed.

Lemma ww_try_except {A} L (m : M A) catches h :
  writes_within L m -> (forall e, writes_within L (h e)) ->
  writes_within L (try_except m catches h).
Proof.
  intros Hm Hh st l Hl. unfold try_except.
  specialize (Hm st l Hl). destruct (m st) as [[a|e] st1]; simpl in *.
  - exact Hm.
  - destruct (catches e); simpl; [now rewrite (Hh e st1 l Hl) | exact Hm].
Qed.

Lemma ww_call {A} L (op : W -> outcome A * W) : writes_within L (call op).
Proof. intros st l _. unfold call. now destruct (op (world st)). Qed.

Lemma ww_call_total {A} L (op : W -> A * W) :
  writes_within L (call_total op).
Proof. intros st l _. unfold call_total. now destruct (op (world st)). Qed.

Lemma ww_requests_put_call L r : writes_within L (requests_put_call r).
Proof.
  intros st l _. unfold requests_put_call.
  now destruct (requests_put r (world st)).
Qed.

Lemma ww_load L l : writes_within (W:=W) L (load l).
Proof. intros st l' _. unfold load. now destruct (heap st !! l). Qed.

Lemma ww_store (L : loc -> Prop) rp d :
  L rp -> writes_within (W:=W) L (store rp d).
Proof.
  intros HL st l Hl. simpl. apply lookup_insert_ne. congruence.
Qed.

End FrameBasics.

#[global] Hint Resolve ww_ret ww_raise ww_lift ww_call ww_call_total
  ww_requests_put_call ww_load ww_store : ww.

(** One step of a proof that a computation writes within [L]: the
    computation is taken apart at a sequencing, a handler of exceptions
    or a case distinction. *)
Ltac ww_step :=
  match goal with
  | |- writes_within _ (bind _ _) => apply ww_bind; [| intros]
  | |- writes_within _ (try_except _ _ _) =>
      apply ww_try_except; [| intros]
  | |- writes_within _ (match ?x with _ => _ end) => destruct x
  | |- writes_within _ _ => solve [eauto with ww]
  end.

Ltac ww := repeat ww_step.

Section FrameOperations.
Context {W builder : Type} {C : Collaborators W builder}.

Local Abbreviation M := (StateExn (state W)).

Lemma ww_dict_contains L rp k : writes_within L (dict_contains rp k).
Proof. unfold dict_contains. ww. Qed.

Lemma ww_dict_getitem L rp k : writes_within L (dict_getitem rp k).
Proof. unfold dict_getitem. ww. Qed.

Lemma ww_dict_get L rp k dflt : writes_within L (dict_get rp k dflt).
Proof. unfold dict_get. ww. Qed.

Lemma ww_dict_pop (L : loc -> Prop) rp k :
  L rp -> writes_within L (dict_pop rp k).
Proof. intros. unfold dict_pop. ww. Qed.

Lemma ww_dict_pop_default (L : loc -> Prop) rp k dflt :
  L rp -> writes_within L (dict_pop_default rp k dflt).
Proof. intros. unfold dict_pop_default. ww. Qed.

Lemma ww_dict_sorted_keys L rp : writes_within L (dict_sorted_keys rp).
Proof. unfold dict_sorted_keys. ww. Qed.

Lemma ww_urandom L size : writes_within L (urandom size).
Proof. unfold urandom. ww. Qed.

Lemma ww_add_filters_call (L : loc -> Prop) rp filters :
  L rp -> writes_within L (add_filters_call rp filters).
Proof.
  intros. unfold add_filters_call. apply ww_bind; [ww | intros d].
  destruct (add_filters d filters) as [[o d'] filters']. ww.
Qed.

Lemma ww_filter_names_and_descriptions_call (L : loc -> Prop) images rp :
  L rp -> writes_within L (filter_names_and_descriptions_call images rp).
Proof.
  intros. unfold filter_names_and_descriptions_call.
  apply ww_bind; [ww | intros d].
  destruct (filter_names_and_descriptions images d) as [o d']. ww.
Qed.

End FrameOperations.

#[global] Hint Resolve ww_dict_contains ww_dict_getitem ww_dict_get
  ww_dict_pop ww_dict_pop_default ww_dict_sorted_keys ww_urandom
  ww_add_filters_call ww_filter_names_and_descriptions_call : ww.

Section FrameHandlers.
Context {W builder : Type} {C : Collaborators W builder}.

Local Abbreviation M := (StateExn (state W)).

Lemma ww_mapM {A B} L (f : A -> M B) l :
  (forall a, writes_within L (f a)) -> writes_within L (mapM f l).
Proof. intros Hf. induction l as [|a l IH]; simpl; ww. Qed.

Lemma ww_sort_images L pvt prdt images :
  writes_within L (sort_images pvt prdt images).
Proof.
  unfold sort_images. apply ww_bind; [| intros; ww].
  apply ww_mapM. intros. ww.
Qed.

#[local] Hint Resolve ww_sort_images : ww.

Lemma ww_rank_images L rp images : writes_within L (rank_images rp images).
Proof. unfold rank_images. ww. Qed.

Lemma ww_handle_genphrase_properties L rp kw :
  writes_within L (handle_genphrase_properties rp kw).
Proof. unfold handle_genphrase_properties. ww. Qed.

Lemma ww_handle_genword_properties L rp kw :
  writes_within L (handle_genword_properties rp kw).
Proof. unfold handle_genword_properties. ww. Qed.

Lemma ww_handle_plaintext_password_hash_params (L : loc -> Prop) rp :
  L rp -> writes_within L (handle_plaintext_password_hash_params rp).
Proof. intros. unfold handle_plaintext_password_hash_params. ww. Qed.

Lemma ww_handle_ciphertext_password_hash_params (L : loc -> Prop) rp :
  L rp -> writes_within L (handle_ciphertext_password_hash_params rp).
Proof. intros. unfold handle_ciphertext_password_hash_params. ww. Qed.

Lemma ww_get_hash_algorithm (L : loc -> Prop) rp :
  L rp -> writes_within L (get_hash_algorithm rp).
Proof. intros. unfold get_hash_algorithm. ww. Qed.

Lemma ww_parse_parameters (L : loc -> Prop) rp declared kw :
  L rp -> writes_within L (parse_parameters rp declared kw).
Proof.
  intros HL. revert kw.
  induction declared as [|[name p] declared IH]; intros kw; simpl; ww.
Qed.

Lemma ww_reject_unknown_parameters (L : loc -> Prop) rp :
  L rp -> writes_within L (reject_unknown_parameters rp).
Proof. intros. unfold reject_unknown_parameters. ww. Qed.

#[local] Hint Resolve ww_rank_images ww_handle_genphrase_properties
  ww_handle_genword_properties ww_handle_plaintext_password_hash_params
  ww_handle_ciphertext_password_hash_params ww_get_hash_algorithm
  ww_parse_parameters ww_reject_unknown_parameters : ww.

(** A computation that copies the mapping at [l] and then writes only to
    the copy leaves every mapping of the store as it was. *)
Lemma copy_then_write_copy {A} l (body : loc -> M A) st :
  (forall rp, writes_within (eq rp) (body rp)) ->
  heap st ⊆ heap (bind (dict_copy l) body st).2.
Proof.
  intros Hbody. destruct (heap st !! l) as [d|] eqn:Hl.
  - rewrite (bind_ret_run _ _ _ _ _ (dict_copy_run _ _ _ Hl)).
    set (rp := fresh (dom (heap st))).
    apply map_subseteq_spec. intros l' d' Hl'.
    rewrite (Hbody rp (set_dict st rp d) l').
    + simpl. rewrite lookup_insert_ne; [exact Hl' |].
      intros Heq. now apply (fresh_loc_ne st l' d' Hl').
    + intros Heq. now apply (fresh_loc_ne st l' d' Hl').
  - now rewrite (bind_raise_run _ _ _ _ _ (dict_copy_dangling _ _ Hl)).
Qed.

Lemma read_only_extends {A} (m : M A) st :
  writes_within (fun _ => False) m -> heap st ⊆ heap (m st).2.
Proof.
  intros Hm. apply map_subseteq_spec. intros l d Hl.
  rewrite Hm; auto.
Qed.

Lemma preserves_read_only {A} l (m : M A) :
  writes_within (fun _ => False) m -> preserves l m.
Proof.
  intros Hm st. split; [now apply read_only_extends |].
  apply Hm. tauto.
Qed.

Lemma preserves_bind {A B} l (m : M A) (f : A -> M B) :
  preserves l m -> (forall a, preserves l (f a)) -> preserves l (bind m f).
Proof.
  intros Hm Hf st. unfold bind.
  destruct (Hm st) as [Hsub Heq]. destruct (m st) as [[a|e] st1]; simpl in *.
  - destruct (Hf a st1) as [Hsub' Heq']. split.
    + now transitivity (heap st1).
    + now rewrite Heq'.
  - now split.
Qed.

Lemma preserves_try_except {A} l (m : M A) catches h :
  preserves l m -> (forall e, preserves l (h e)) ->
  preserves l (try_except m catches h).
Proof.
  intros Hm Hh st. unfold try_except.
  destruct (Hm st) as [Hsub Heq]. destruct (m st) as [[a|e] st1]; simpl in *.
  - now split.
  - destruct (catches e); [| now split].
    destruct (Hh e st1) as [Hsub' Heq']. split.
    + now transitivity (heap st1).
    + now rewrite Heq'.
Qed.

Lemma preserves_copy {A} l (body : loc -> M A) :
  (forall rp, writes_within (eq rp) (body rp)) ->
  preserves l (bind (dict_copy l) body).
Proof.
  intros Hbody st. split; [now apply copy_then_write_copy |].
  destruct (heap st !! l) as [d|] eqn:Hl.
  - apply (lookup_weaken _ _ _ _ Hl). now apply copy_then_write_copy.
  - now rewrite (bind_raise_run _ _ _ _ _ (dict_copy_dangling _ _ Hl)).
Qed.

Lemma api_gateway_binary_preserves event :
  preserves (ResourceProperties event) (api_gateway_binary event).
Proof. apply preserves_read_only. unfold api_gateway_binary. ww. Qed.

Lemma secure_random_preserves event :
  preserves (ResourceProperties event) (secure_random event).
Proof. apply preserves_read_only. unfold secure_random. ww. Qed.

Lemma find_image_preserves event :
  preserves (ResourceProperties event) (find_image event).
Proof.
  unfold find_image. destruct (negb _).
  - apply preserves_read_only. ww.
  - apply preserves_copy. intros rp. ww.
Qed.

Lemma generate_password_preserves event :
  preserves (ResourceProperties event) (generate_password event).
Proof.
  unfold generate_password. destruct (negb _).
  - apply preserves_read_only. ww.
  - apply preserves_copy. intros rp. ww.
Qed.

Lemma hash_password_preserves event :
  preserves (ResourceProperties event) (hash_password event).
Proof.
  unfold hash_password. destruct (negb _).
  - apply preserves_read_only. ww.
  - apply preserves_copy. intros rp. ww.
Qed.

Lemma handlers_preserve event :
  Forall (fun h => preserves (ResourceProperties event) (h.2 event))
    handlers.
Proof.
  unfold handlers.
  apply List.Forall_cons; [apply api_gateway_binary_preserves |].
  apply List.Forall_cons; [apply find_image_preserves |].
  apply List.Forall_cons; [apply generate_password_preserves |].
  apply List.Forall_cons; [apply hash_password_preserves |].
  apply List.Forall_cons; [apply secure_random_preserves |].
  apply List.Forall_nil.
Qed.

Lemma handlers_get_In name hs handler :
  handlers_get (W:=W) name hs = Some handler -> In (name, handler) hs.
Proof.
  induction hs as [|[n h] hs IH]; simpl; [discriminate |].
  destruct (String.eqb name n) eqn:E.
  - intros [= ->]. apply String.eqb_eq in E. subst. now left.
  - intros H. right. now apply IH.
Qed.

Lemma lambda_handler_preserves event :
  preserves (ResourceProperties event) (lambda_handler event).
Proof.
  unfold lambda_handler. apply preserves_bind;
    [| intros body; apply preserves_read_only; ww].
  unfold make_body. apply preserves_bind;
    [| intros body; apply preserves_read_only; destruct (negb _); ww].
  destruct (handlers_get _ _) as [handler|] eqn:Hget;
    [| apply preserves_read_only; ww].
  unfold handler_body. apply preserves_try_except;
    [| intros; apply preserves_read_only; ww].
  apply preserves_bind.
  - pose proof (handlers_preserve event) as Hall.
    rewrite List.Forall_forall in Hall.
    apply (Hall (ResourceType event, handler)).
    now apply handlers_get_In.
  - intros data. apply preserves_read_only.
    destruct (od_get _ _); ww.
Qed.

(** C10.  Whatever the event and the store, each of the five handlers,
    and the dispatcher around them, leaves every mapping of the store as
    it was, the event's [ResourceProperties] among them: the three
    handlers that pop keys pop them from a copy at a location of its
    own, and the two others only read. *)
Theorem resource_properties_unchanged (event : LifecycleEvent)
    (st : state W) :
  Forall (fun h =>
            heap st ⊆ heap (h.2 event st).2
            /\ heap (h.2 event st).2 !! ResourceProperties event
               = heap st !! ResourceProperties event)
    handlers
  /\ heap st ⊆ heap (lambda_handler event st).2
  /\ heap (lambda_handler event st).2 !! ResourceProperties event
     = heap st !! ResourceProperties event.
Proof.
  split.
  - eapply List.Forall_impl; [| apply handlers_preserve].
    intros h Hh. apply Hh.
  - apply lambda_handler_preserves.
Qed.

End FrameHandlers.

(** ** The dispatcher *)

Section Dispatcher.
Context {W builder : Type} {C : Collaborators W builder}.

Local Abbreviation M := (StateExn (state W)).

Lemma od_get_set_eq k v d : od_get k (od_set k v d) = Some v.
Proof.
  induction d as [|[k' v'] d IH]; simpl.
  - now rewrite String.eqb_refl.
  - destruct (String.eqb k k') eqn:E; simpl; rewrite ?E, ?String.eqb_refl; auto.
Qed.

Lemma od_get_set_ne k k' v d :
  k <> k' -> od_get k (od_set k' v d) = od_get k d.
Proof.
  intros Hne. induction d as [|[k2 v2] d IH]; simpl.
  - now apply String.eqb_neq in Hne as ->.
  - destruct (String.eqb k' k2) eqn:E; simpl.
    + apply String.eqb_eq in E. subst k2.
      now apply String.eqb_neq in Hne as ->.
    + now rewrite IH.
Qed.

Lemma handler_body_returns handler event body (st : state W) data st1 :
  handler event st = (Ret data, st1) ->
  handler_body handler event body st = (Ret (success_body data body), st1).
Proof.
  intros H. unfold handler_body, try_except, bind. rewrite H.
  unfold success_body. now destruct (od_get _ _).
Qed.

Lemma handler_body_raises handler event body (st : state W) e st1 :
  handler event st = (Raise e, st1) ->
  handler_body handler event body st = (Ret (failure_body e body), st1).
Proof.
  intros H. unfold handler_body, try_except, bind. now rewrite H.
Qed.

Lemma with_physical_resource_id_run body (st : state W) :
  exists body' st',
    with_physical_resource_id body st = (Ret body', st')
    /\ heap st' = heap st /\ sent st' = sent st
    /\ (forall k, k <> "PhysicalResourceId" ->
                  od_get k body' = od_get k body)
    /\ od_mem "PhysicalResourceId" body' = true.
Proof.
  unfold with_physical_resource_id.
  destruct (od_mem "PhysicalResourceId" body) eqn:Hmem; simpl.
  - exists body, st. now repeat split.
  - unfold bind, call_total. destruct (uuid4 (world st)) as [u w].
    eexists _, _. repeat split.
    + intros k Hk. now apply od_get_set_ne.
    + unfold od_mem. now rewrite od_get_set_eq.
Qed.

Lemma make_body_run event handler (st : state W) o st1 :
  handlers_get (ResourceType event) handlers = Some handler ->
  handler event st = (o, st1) ->
  make_body event st
  = with_physical_resource_id
      (match o with
       | Ret data => success_body data (initial_body event)
       | Raise e => failure_body e (initial_body event)
       end) st1.
Proof.
  intros Hget Hrun. unfold make_body. rewrite Hget.
  destruct o as [data|e].
  - now rewrite (bind_ret_run _ _ _ _ _
                   (handler_body_returns _ _ _ _ _ _ Hrun)).
  - now rewrite (bind_ret_run _ _ _ _ _
                   (handler_body_raises _ _ _ _ _ _ Hrun)).
Qed.

Lemma lambda_handler_run event (st : state W) body st1 :
  make_body event st = (Ret body, st1) ->
  lambda_handler event st = deliver event body st1.
Proof.
  intros H. unfold lambda_handler. rewrite (bind_ret_run _ _ _ _ _ H).
  unfold deliver, bind, requests_put_call.
  now destruct (requests_put _ _) as [[r|e] w].
Qed.

Lemma in_create_update_false request_type :
  request_type <> "Create" -> request_type <> "Update" ->
  in_create_update request_type = false.
Proof.
  intros H1 H2. unfold in_create_update.
  apply String.eqb_neq in H1, H2. now rewrite H1, H2.
Qed.

Lemma failure_body_fields e event :
  let body := failure_body e (initial_body event) in
  od_get "Status" body = Some (VStr "FAILED")
  /\ od_get "Reason" body = Some (VStr (exn_str e))
  /\ od_get "Data" body = None
  /\ od_get "StackId" body = Some (VStr (StackId event))
  /\ od_get "RequestId" body = Some (VStr (RequestId event))
  /\ od_get "LogicalResourceId" body
     = Some (VStr (LogicalResourceId event)).
Proof.
  unfold failure_body, initial_body.
  destruct (PhysicalResourceId event); now repeat split.
Qed.

Lemma success_body_fields event :
  let body := success_body None (initial_body event) in
  od_get "Status" body = Some (VStr "SUCCESS")
  /\ od_get "Reason" body = None
  /\ od_get "Data" body = Some (VDict []).
Proof.
  unfold success_body, initial_body.
  destruct (PhysicalResourceId event); now repeat split.
Qed.

(** C1.  When the handler registered for the event's resource type
    raises an exception [e], [lambda_handler] builds an envelope whose
    [Status] is [FAILED], whose [Reason] is [str(e)] and which has no
    [Data], and sends it, serialised, to the event's [ResponseURL].  The
    outcome of [lambda_handler] is that of the sending: an exception that
    leaves it was raised by [requests.put], not by the handler. *)
Theorem handler_exception_becomes_failed_envelope
    (event : LifecycleEvent)
    (handler : LifecycleEvent -> StateExn (state W) (option odict))
    (st st1 : state W) (e : exn) :
  handlers_get (ResourceType event) handlers = Some handler ->
  handler event st = (Raise e, st1) ->
  exists body st2,
    make_body event st = (Ret body, st2)
    /\ od_get "Status" body = Some (VStr "FAILED")
    /\ od_get "Reason" body = Some (VStr (exn_str e))
    /\ od_get "Data" body = None
    /\ od_get "StackId" body = Some (VStr (StackId event))
    /\ od_get "RequestId" body = Some (VStr (RequestId event))
    /\ od_get "LogicalResourceId" body
       = Some (VStr (LogicalResourceId event))
    /\ od_mem "PhysicalResourceId" body = true
    /\ lambda_handler event st = deliver event body st2
    /\ sent (lambda_handler event st).2
       = (sent st1 ++ [delivery event body])%list
    /\ put_url (delivery event body) = ResponseURL event
    /\ put_data (delivery event body) = json_dumps body
    /\ (forall e',
          (lambda_handler event st).1 = Raise e' ->
          (requests_put (delivery event body) (world st2)).1 = Raise e').
Proof.
  intros Hget Hrun.
  pose proof (make_body_run _ _ _ _ _ Hget Hrun) as Hmake. simpl in Hmake.
  destruct (with_physical_resource_id_run
              (failure_body e (initial_body event)) st1)
    as (body & st2 & Hwith & Hheap & Hsent & Hkeep & Hid).
  rewrite Hwith in Hmake.
  destruct (failure_body_fields e event)
    as (Hstatus & Hreason & Hdata & Hstack & Hrequest & Hlogical).
  pose proof (lambda_handler_run _ _ _ _ Hmake) as Hlam.
  exists body, st2.
  split; [exact Hmake |].
  split; [rewrite Hkeep by discriminate; exact Hstatus |].
  split; [rewrite Hkeep by discriminate; exact Hreason |].
  split; [rewrite Hkeep by discriminate; exact Hdata |].
  split; [rewrite Hkeep by discriminate; exact Hstack |].
  split; [rewrite Hkeep by discriminate; exact Hrequest |].
  split; [rewrite Hkeep by discriminate; exact Hlogical |].
  split; [exact Hid |].
  split; [exact Hlam |].
  rewrite Hlam. unfold deliver.
  destruct (requests_put (delivery event body) (world st2)) as [o w].
  simpl. rewrite Hsent. repeat split.
  intros e' He'. destruct o; [discriminate | now inversion He'].
Qed.

(** C9.  For an event whose [RequestType] is neither [Create] nor
    [Update], each of [find_image], [generate_password],
    [hash_password] and [secure_random] returns [None] and leaves the
    state as it is, whatever the store holds for the event's properties;
    and when the event's resource type is one of these four, the
    envelope made by the dispatcher has [Status] [SUCCESS], no [Reason]
    and the empty mapping as [Data], and is sent. *)
Theorem delete_returns_none_without_reading_properties
    (event : LifecycleEvent) (st : state W) :
  RequestType event <> "Create" ->
  RequestType event <> "Update" ->
  find_image event st = (Ret None, st)
  /\ generate_password event st = (Ret None, st)
  /\ hash_password event st = (Ret None, st)
  /\ secure_random event st = (Ret None, st)
  /\ (In (ResourceType event)
        ["Custom::FindImage"; "Custom::GeneratePassword";
         "Custom::HashPassword"; "Custom::SecureRandom"] ->
      exists body st1,
        make_body event st = (Ret body, st1)
        /\ heap st1 = heap st
        /\ od_get "Status" body = Some (VStr "SUCCESS")
        /\ od_get "Reason" body = None
        /\ od_get "Data" body = Some (VDict [])
        /\ lambda_handler event st = deliver event body st1).
Proof.
  intros H1 H2. pose proof (in_create_update_false _ H1 H2) as Hcu.
  assert (Hfind : find_image event st = (Ret None, st))
    by (unfold find_image; now rewrite Hcu).
  assert (Hgen : generate_password event st = (Ret None, st))
    by (unfold generate_password; now rewrite Hcu).
  assert (Hhash : hash_password event st = (Ret None, st))
    by (unfold hash_password; now rewrite Hcu).
  assert (Hrand : secure_random event st = (Ret None, st))
    by (unfold secure_random; now rewrite Hcu).
  repeat (split; [assumption |]).
  intros Hin.
  assert (Hmake : make_body event st
                  = with_physical_resource_id
                      (success_body None (initial_body event)) st).
  { simpl in Hin.
    destruct Hin as [Hty | [Hty | [Hty | [Hty | []]]]];
      [ apply (make_body_run event find_image st (Ret None) st)
      | apply (make_body_run event generate_password st (Ret None) st)
      | apply (make_body_run event hash_password st (Ret None) st)
      | apply (make_body_run event secure_random st (Ret None) st) ];
      try assumption; now rewrite <- Hty. }
  destruct (with_physical_resource_id_run
              (success_body None (initial_body event)) st)
    as (body & st1 & Hwith & Hheap & _ & Hkeep & _).
  rewrite Hwith in Hmake.
  destruct (success_body_fields event) as (Hstatus & Hreason & Hdata).
  exists body, st1.
  split; [exact Hmake |]. split; [exact Hheap |].
  split; [rewrite Hkeep by discriminate; exact Hstatus |].
  split; [rewrite Hkeep by discriminate; exact Hreason |].
  split; [rewrite Hkeep by discriminate; exact Hdata |].
  now apply lambda_handler_run.
Qed.

End Dispatcher.

(** ** The parameters of a hash scheme *)

Section HashParameters.
Context {W builder : Type} {C : Collaborators W builder}.

Lemma append_nil_l t : "" +:+ t = t.
Proof. reflexivity. Qed.

Lemma append_cons a s t : String a s +:+ t = String a (s +:+ t).
Proof. reflexivity. Qed.

Lemma starts_with_nil s : starts_with s "" = true.
Proof. now destruct s. Qed.

Lemma starts_with_app_self s : starts_with s s = true.
Proof.
  induction s as [|a s IH]; simpl; [reflexivity |].
  now rewrite Ascii.eqb_refl.
Qed.

Lemma starts_with_app s t : starts_with (s +:+ t) s = true.
Proof.
  induction s as [|a s IH]; [apply starts_with_nil |].
  rewrite append_cons. simpl. now rewrite Ascii.eqb_refl, IH.
Qed.

Lemma starts_with_app_m s t p :
  starts_with s p = true -> starts_with (s +:+ t) p = true.
Proof.
  revert p. induction s as [|a s IH]; intros [|b p] H;
    try apply starts_with_nil; try discriminate.
  rewrite append_cons. simpl in *.
  apply andb_true_iff in H as [-> H]. simpl. now apply IH.
Qed.

Lemma mentions_starts_with s p :
  starts_with s p = true -> mentions s p = true.
Proof. intros H. destruct s; simpl in *; now rewrite H. Qed.

Lemma mentions_app_l s t : mentions (s +:+ t) s = true.
Proof. apply mentions_starts_with, starts_with_app. Qed.

Lemma mentions_app_r s t p :
  mentions t p = true -> mentions (s +:+ t) p = true.
Proof.
  intros H. induction s as [|a s IH]; [exact H |].
  rewrite append_cons. simpl. rewrite IH. apply orb_true_r.
Qed.

Lemma mentions_app_m s t p :
  mentions s p = true -> mentions (s +:+ t) p = true.
Proof.
  revert p. induction s as [|a s IH]; intros p H.
  - simpl in H. rewrite orb_false_r in H.
    destruct p; [| discriminate].
    apply mentions_starts_with, starts_with_nil.
  - rewrite append_cons.
    change (starts_with (String a s) p || mentions s p = true) in H.
    change (starts_with (String a (s +:+ t)) p || mentions (s +:+ t) p
            = true).
    apply orb_true_iff in H as [H | H].
    + rewrite <- append_cons. now rewrite (starts_with_app_m _ t _ H).
    + rewrite (IH _ H). apply orb_true_r.
Qed.

(** The three texts of a message [before name middle shown]. *)
Lemma message_names before name middle shown :
  names_parameter_and_value
    (ValueError (before +:+ name +:+ middle +:+ shown)) name shown.
Proof.
  split; [reflexivity |]. split; simpl.
  - apply mentions_app_r, mentions_app_l.
  - apply mentions_app_r, mentions_app_r, mentions_app_r.
    apply mentions_starts_with, starts_with_app_self.
Qed.

Lemma bound_message_names before name middle bound colon shown :
  names_parameter_and_value
    (ValueError (before +:+ name +:+ middle +:+ bound +:+ colon +:+ shown))
    name shown.
Proof.
  split; [reflexivity |]. split; simpl.
  - apply mentions_app_r, mentions_app_l.
  - do 5 apply mentions_app_r.
    apply mentions_starts_with, starts_with_app_self.
Qed.

(** The next check of [validate_hash_parameter] passes: [tac] proves
    that it returns, and the validation goes on with the check after
    it. *)
Ltac passed tac :=
  match goal with
  | |- context [obind ?m _] =>
      let H := fresh "Hcheck" in
      assert (H : m = Ret tt) by tac;
      rewrite H; cbn [obind]; clear H
  end.

(** C6, as amended.  [validate_hash_parameter] coerces the value, then
    runs the custom validator, then checks the minimum and the maximum
    length, then the minimum and the maximum value, and stops at the
    first check that fails.  A coercion that raises [TypeError] or
    [ValueError] and a violated bound give a [ValueError] that names the
    parameter and the offending value; an exception of the validator is
    raised as it is; a value that passes every check is returned
    coerced. *)
Theorem validate_hash_parameter_checks_in_order
    (p : HashParameter) (name : string) (value : pyval) :
  (forall e,
      type p value = Raise e ->
      isinstance e "TypeError" || isinstance e "ValueError" = true ->
      exists e',
        validate_hash_parameter p name value = Raise e'
        /\ names_parameter_and_value e' name (repr value))
  /\ (forall v,
        type p value = Ret v ->
        (forall validate e,
            validator p = Some validate -> validate v = Raise e ->
            validate_hash_parameter p name value = Raise e)
        /\ (validator_passes p v ->
            (forall n len,
                min_length p = Some n -> py_len v = Some len -> len < n ->
                exists e',
                  validate_hash_parameter p name value = Raise e'
                  /\ names_parameter_and_value e' name (repr v))
            /\ (min_length_passes p v ->
                (forall n len,
                    max_length p = Some n -> py_len v = Some len ->
                    n < len ->
                    exists e',
                      validate_hash_parameter p name value = Raise e'
                      /\ names_parameter_and_value e' name (repr v))
                /\ (max_length_passes p v ->
                    (forall m,
                        min_value p = Some m -> py_lt v m = Some true ->
                        exists e',
                          validate_hash_parameter p name value = Raise e'
                          /\ names_parameter_and_value e' name (repr v))
                    /\ (min_value_passes p v ->
                        (forall m,
                            max_value p = Some m ->
                            py_lt m v = Some true ->
                            exists e',
                              validate_hash_parameter p name value
                              = Raise e'
                              /\ names_parameter_and_value e' name
                                   (repr v))
                        /\ (max_value_passes p v ->
                            validate_hash_parameter p name value
                            = Ret v)))))).
Proof.
  unfold validate_hash_parameter. split.
  - intros e He Hcls. rewrite He, Hcls. simpl.
    eexists. split; [reflexivity | apply message_names].
  - intros v Hv. rewrite Hv. cbn [obind]. split.
    { intros validate e Hval He. now rewrite Hval, He. }
    unfold validator_passes. intros Hpass.
    passed ltac:(destruct (validator p); auto).
    clear Hpass. split.
    { intros n len Hn Hlen Hlt. rewrite Hn, Hlen.
      apply Z.ltb_lt in Hlt. rewrite Hlt. cbn [obind].
      eexists. split; [reflexivity | apply bound_message_names]. }
    unfold min_length_passes. intros Hpass.
    passed ltac:(destruct (min_length p) as [n|]; [| reflexivity];
                 destruct Hpass as (len & -> & Hle);
                 apply Z.ltb_ge in Hle; now rewrite Hle).
    clear Hpass. split.
    { intros n len Hn Hlen Hlt. rewrite Hn, Hlen.
      apply Z.ltb_lt in Hlt. rewrite Hlt. cbn [obind].
      eexists. split; [reflexivity | apply bound_message_names]. }
    unfold max_length_passes. intros Hpass.
    passed ltac:(destruct (max_length p) as [n|]; [| reflexivity];
                 destruct Hpass as (len & -> & Hle);
                 apply Z.ltb_ge in Hle; now rewrite Hle).
    clear Hpass. split.
    { intros m Hm Hlt. rewrite Hm, Hlt. cbn [obind].
      eexists. split; [reflexivity | apply bound_message_names]. }
    unfold min_value_passes. intros Hpass.
    passed ltac:(destruct (min_value p) as [m|]; [| reflexivity];
                 now rewrite Hpass).
    clear Hpass. split.
    { intros m Hm Hlt. rewrite Hm, Hlt. cbn [obind].
      eexists. split; [reflexivity | apply bound_message_names]. }
    unfold max_value_passes. intros Hpass.
    destruct (max_value p) as [m|]; [| reflexivity]. now rewrite Hpass.
Qed.

End HashParameters.

#[global] Hint Resolve ww_handle_plaintext_password_hash_params
  ww_handle_ciphertext_password_hash_params ww_get_hash_algorithm
  ww_parse_parameters ww_reject_unknown_parameters : ww.

(** One step of the execution of a handler on a known store: the
    operation at the head of the computation is replaced by its
    result. *)
Ltac heap_fact := first [eassumption | apply heap_set_dict].

Ltac run_step :=
  match goal with
  | |- context [bind (dict_copy ?l) ?k ?st] =>
      erewrite (bind_ret_run (dict_copy l) k st);
      [| apply dict_copy_run; heap_fact]
  | |- context [bind (dict_contains ?rp ?key) ?k ?st] =>
      erewrite (bind_ret_run (dict_contains rp key) k st);
      [| apply dict_contains_run; heap_fact]
  | |- context [bind (dict_get ?rp ?key ?dflt) ?k ?st] =>
      erewrite (bind_ret_run (dict_get rp key dflt) k st);
      [| apply dict_get_run; heap_fact]
  | |- context [bind (dict_pop_default ?rp ?key ?dflt) ?k ?st] =>
      erewrite (bind_ret_run (dict_pop_default rp key dflt) k st);
      [| apply dict_pop_default_run; heap_fact]
  | |- context [bind (load ?rp) ?k ?st] =>
      erewrite (bind_ret_run (load rp) k st);
      [| apply load_run; heap_fact]
  end; cbv beta.

Ltac run := repeat run_step.

(** ** Custom::HashPassword *)

Section HashPassword.
Context {W builder : Type} {C : Collaborators W builder}.

Local Abbreviation M := (StateExn (state W)).

Lemma read_only_heap {A} (m : M A) st o st' :
  writes_within (fun _ => False) m -> m st = (o, st') -> heap st' = heap st.
Proof.
  intros Hm Hrun. apply map_eq. intros l.
  specialize (Hm st l). rewrite Hrun in Hm. apply Hm. tauto.
Qed.

Lemma create_or_update request_type :
  request_type = "Create" \/ request_type = "Update" ->
  in_create_update request_type = true.
Proof. now intros [-> | ->]. Qed.

Lemma handle_plaintext_consumes rp (st : state W) d pw st1 :
  heap st !! rp = Some d ->
  handle_plaintext_password_hash_params rp st = (Ret pw, st1) ->
  st1 = set_dict st rp (delete "PlaintextPassword" d)
  /\ d !! "PlaintextPassword" = Some pw /\ is_str pw = true.
Proof.
  intros Hd. unfold handle_plaintext_password_hash_params.
  destruct (d !! "PlaintextPassword") as [v|] eqn:Hv.
  - rewrite (bind_ret_run _ _ _ _ _ (dict_pop_run _ _ _ _ _ Hd Hv)).
    destruct (is_str v) eqn:Hstr; simpl; [| discriminate].
    intros [= <- <-]. auto.
  - now rewrite (bind_raise_run _ _ _ _ _ (dict_pop_missing _ _ _ _ Hd Hv)).
Qed.

Lemma handle_ciphertext_consumes rp (st : state W) d pw st1 :
  heap st !! rp = Some d ->
  handle_ciphertext_password_hash_params rp st = (Ret pw, st1) ->
  heap st1
  = <[rp := delete "EncryptionContext"
              (delete "CiphertextBase64Password" d)]> (heap st)
  /\ is_Some (d !! "CiphertextBase64Password").
Proof.
  intros Hd. unfold handle_ciphertext_password_hash_params.
  destruct (d !! "CiphertextBase64Password") as [v|] eqn:Hv.
  - rewrite (bind_ret_run _ _ _ _ _ (dict_pop_run _ _ _ _ _ Hd Hv)).
    run. rewrite set_dict_set_dict.
    destruct v; try discriminate.
    intros Hrun. split; [| eauto].
    apply read_only_heap in Hrun; [exact Hrun |].
    ww.
  - now rewrite (bind_raise_run _ _ _ _ _ (dict_pop_missing _ _ _ _ Hd Hv)).
Qed.


(** C5.  For a Create or Update request, [hash_password] fails with the
    error of mutual exclusion when both [PlaintextPassword] and
    [CiphertextBase64Password] are supplied and with the error of the
    missing input when neither is; it returns only when exactly one of
    the two is supplied. *)
Theorem password_source_exactly_one (event : LifecycleEvent)
    (st : state W) (d : gmap string pyval) :
  RequestType event = "Create" \/ RequestType event = "Update" ->
  heap st !! ResourceProperties event = Some d ->
  (is_Some (d !! "PlaintextPassword") ->
   is_Some (d !! "CiphertextBase64Password") ->
   (hash_password event st).1
   = Raise (ValueError
       "PlaintextPassword and CiphertextBase64Password are mutually exclusive"))
  /\ (d !! "PlaintextPassword" = None ->
      d !! "CiphertextBase64Password" = None ->
      (hash_password event st).1
      = Raise (ValueError
          "Either PlaintextPassword or CiphertextBase64Password must be specified"))
  /\ (forall result,
        (hash_password event st).1 = Ret result ->
        (is_Some (d !! "PlaintextPassword")
         /\ d !! "CiphertextBase64Password" = None)
        \/ (d !! "PlaintextPassword" = None
            /\ is_Some (d !! "CiphertextBase64Password"))).
Proof.
  intros Hreq Hd. apply create_or_update in Hreq.
  unfold hash_password. rewrite Hreq. cbn [negb]. run.
  destruct (d !! "PlaintextPassword") as [p|] eqn:Hp;
    destruct (d !! "CiphertextBase64Password") as [c|] eqn:Hc;
    cbn [andb negb].
  - split; [reflexivity |]. split; [discriminate |].
    intros result Hres. discriminate.
  - split; [intros _ [? [=]] |]. split; [discriminate |]. eauto.
  - split; [intros [? [=]] |]. split; [discriminate |]. eauto.
  - split; [intros [? [=]] |]. split; [reflexivity |].
    intros result Hres. discriminate.
Qed.

Lemma set_dict_id (st : state W) rp d :
  heap st !! rp = Some d -> set_dict st rp d = st.
Proof.
  intros H. unfold set_dict. rewrite insert_id by exact H. now destruct st.
Qed.

Lemma lookup_delete_all ks (d : gmap string pyval) k :
  delete_all ks d !! k = if bool_decide (k ∈ ks) then None else d !! k.
Proof.
  unfold delete_all. revert d.
  induction ks as [|k' ks IH]; intros d; simpl.
  - reflexivity.
  - rewrite IH.
    destruct (decide (k = k')) as [-> | Hne].
    + rewrite (bool_decide_eq_true_2 (k' ∈ k' :: ks)) by constructor.
      rewrite lookup_delete_eq. now destruct (bool_decide _).
    + rewrite lookup_delete_ne by congruence.
      destruct (bool_decide (k ∈ ks)) eqn:E.
      * apply bool_decide_eq_true in E.
        now rewrite bool_decide_eq_true_2 by (now constructor).
      * apply bool_decide_eq_false in E.
        rewrite bool_decide_eq_false_2; [reflexivity |].
        intros Hin. apply elem_of_cons in Hin as [? | ?]; contradiction.
Qed.

(** The password step, when it returns, has popped its keys and nothing
    else. *)
Lemma password_source_consumes rp (st : state W) d pw st1 :
  password_source rp d (set_dict st rp d) = (Ret pw, st1) ->
  heap st1 !! rp = Some (delete_all (password_keys d) d).
Proof.
  unfold password_source, password_keys.
  destruct (has_key d "PlaintextPassword"); intros Hrun.
  - apply handle_plaintext_consumes with (d := d) in Hrun;
      [| apply heap_set_dict].
    destruct Hrun as (-> & _). apply heap_set_dict.
  - apply handle_ciphertext_consumes with (d := d) in Hrun;
      [| apply heap_set_dict].
    destruct Hrun as (-> & _). apply lookup_insert_eq.
Qed.

(** What [hash_password] does with a Create or Update request that
    supplies exactly one password: it copies the properties and takes
    the password from the copy. *)
Lemma hash_password_password_source event (st : state W) d :
  RequestType event = "Create" \/ RequestType event = "Update" ->
  heap st !! ResourceProperties event = Some d ->
  xorb (has_key d "PlaintextPassword")
       (has_key d "CiphertextBase64Password") = true ->
  let rp := fresh (dom (heap st)) in
  hash_password event st
  = (plaintext_password <- password_source rp d ;;
     algo <- get_hash_algorithm rp ;;
     builder_kw <- parse_parameters rp (parameters algo) [] ;;
     reject_unknown_parameters rp ;;;
     builder <- call (builder_using (algorithm algo) builder_kw) ;;
     result <- call (builder_hash builder plaintext_password) ;;
     ret (Some [("Hash", VStr result)])) (set_dict st rp d).
Proof.
  intros Hreq Hd Hone rp. apply create_or_update in Hreq.
  unfold hash_password. rewrite Hreq. cbn [negb]. run. fold rp.
  unfold password_source. unfold has_key in *.
  destruct (d !! "PlaintextPassword");
    destruct (d !! "CiphertextBase64Password");
    try discriminate; reflexivity.
Qed.


End HashPassword.

(** ** Sorting *)

Section SortingFacts.
Context {A K : Type} (ltb : K -> K -> bool) (key : A -> K).

(** The order is a strict weak order: no two keys are each less than
    the other, and not being greater is transitive. *)
Hypothesis ltb_asym : forall a b, ltb a b = true -> ltb b a = false.
Hypothesis ltb_negtrans :
  forall a b c, ltb b a = false -> ltb c b = false -> ltb c a = false.

(** [a] may come before [b] in ascending order. *)
Let ascending (a b : A) : Prop := ltb (key b) (key a) = false.

(** [a] may come before [b] in descending order. *)
Let descending (a b : A) : Prop := ltb (key a) (key b) = false.

Lemma insert_sorted_Permutation x l :
  Permutation (insert_sorted ltb key x l) (x :: l).
Proof.
  induction l as [|y l IH]; simpl; [reflexivity |].
  destruct (ltb (key y) (key x)); [| reflexivity].
  rewrite IH. apply perm_swap.
Qed.

Lemma sort_stable_Permutation l : Permutation (sort_stable ltb key l) l.
Proof.
  induction l as [|x l IH]; simpl; [reflexivity |].
  rewrite insert_sorted_Permutation. now rewrite IH.
Qed.

Lemma insert_sorted_sorted x l :
  StronglySorted ascending l ->
  StronglySorted ascending (insert_sorted ltb key x l).
Proof.
  induction 1 as [|y l Hl IH Hy]; simpl.
  - repeat constructor.
  - destruct (ltb (key y) (key x)) eqn:Hyx.
    + constructor; [exact IH |].
      rewrite insert_sorted_Permutation. constructor; [| exact Hy].
      unfold ascending. now apply ltb_asym.
    + constructor; [now constructor |].
      constructor; [exact Hyx |].
      eapply List.Forall_impl; [| exact Hy].
      intros z Hz. unfold ascending in *. eapply ltb_negtrans; eauto.
Qed.

Lemma sort_stable_sorted l :
  StronglySorted ascending (sort_stable ltb key l).
Proof.
  induction l as [|x l IH]; simpl; [constructor |].
  now apply insert_sorted_sorted.
Qed.

(** Elements that a predicate picks out, none of which is less than
    another, keep their order. *)
Lemma insert_sorted_stable (P : A -> bool) x l :
  (forall a b, P a = true -> P b = true -> ltb (key a) (key b) = false) ->
  List.filter P (insert_sorted ltb key x l) = List.filter P (x :: l).
Proof.
  intros HP. induction l as [|y l IH]; simpl; [reflexivity |].
  destruct (ltb (key y) (key x)) eqn:Hyx; [| reflexivity].
  simpl. rewrite IH. simpl.
  destruct (P x) eqn:Hx; [| reflexivity].
  destruct (P y) eqn:Hy; [| reflexivity].
  rewrite (HP y x Hy Hx) in Hyx. discriminate.
Qed.

Lemma sort_stable_stable (P : A -> bool) l :
  (forall a b, P a = true -> P b = true -> ltb (key a) (key b) = false) ->
  List.filter P (sort_stable ltb key l) = List.filter P l.
Proof.
  intros HP. induction l as [|x l IH]; simpl; [reflexivity |].
  rewrite insert_sorted_stable by exact HP. simpl. now rewrite IH.
Qed.

Lemma StronglySorted_snoc (R : A -> A -> Prop) l x :
  StronglySorted R l -> Forall (fun y => R y x) l ->
  StronglySorted R (l ++ [x]).
Proof.
  induction 1 as [|y l Hl IH Hy]; intros Hx; simpl.
  - repeat constructor.
  - apply List.Forall_cons_iff in Hx as [Hyx Hx].
    constructor; [now apply IH |].
    apply List.Forall_app. split; [exact Hy | now constructor].
Qed.

Lemma StronglySorted_rev (R : A -> A -> Prop) l :
  StronglySorted R l -> StronglySorted (fun a b => R b a) (rev l).
Proof.
  induction 1 as [|y l Hl IH Hy]; simpl; [constructor |].
  apply StronglySorted_snoc; [exact IH |].
  apply List.Forall_rev. exact Hy.
Qed.

(** [list.sort(key=key, reverse=True)] permutes the list, puts no
    element before one of greater key, and keeps the order of the
    elements of any class of mutually not-less keys. *)
Lemma list_sort_reverse_Permutation l :
  Permutation (list_sort ltb key true l) l.
Proof.
  unfold list_sort. rewrite <- Permutation_rev.
  rewrite sort_stable_Permutation. now rewrite <- Permutation_rev.
Qed.

Lemma list_sort_reverse_sorted l :
  StronglySorted descending (list_sort ltb key true l).
Proof.
  unfold list_sort.
  apply (StronglySorted_rev ascending). apply sort_stable_sorted.
Qed.

Lemma list_sort_reverse_stable (P : A -> bool) l :
  (forall a b, P a = true -> P b = true -> ltb (key a) (key b) = false) ->
  List.filter P (list_sort ltb key true l) = List.filter P l.
Proof.
  intros HP. unfold list_sort.
  rewrite List.filter_rev, sort_stable_stable by exact HP.
  now rewrite List.filter_rev, List.rev_involutive.
Qed.

Lemma list_sort_forward_Permutation l :
  Permutation (list_sort ltb key false l) l.
Proof. apply sort_stable_Permutation. Qed.

Lemma list_sort_forward_sorted l :
  StronglySorted ascending (list_sort ltb key false l).
Proof. apply sort_stable_sorted. Qed.

End SortingFacts.

(** ** Custom::FindImage *)

Section FindImage.
Context {W builder : Type} {C : Collaborators W builder}.

Local Abbreviation M := (StateExn (state W)).

Lemma key_ltb_asym a b : key_ltb a b = true -> key_ltb b a = false.
Proof.
  destruct a as [[[] []] a3], b as [[[] []] b3]; simpl;
    try discriminate; try reflexivity.
  all: intros H; apply Z.ltb_lt in H; apply Z.ltb_ge; lia.
Qed.

Lemma key_ltb_negtrans a b c :
  key_ltb b a = false -> key_ltb c b = false -> key_ltb c a = false.
Proof.
  destruct a as [[[] []] a3], b as [[[] []] b3], c as [[[] []] c3]; simpl;
    try discriminate; try reflexivity.
  all: intros H1 H2; apply Z.ltb_ge in H1, H2; apply Z.ltb_ge; lia.
Qed.

Lemma key_eqb_not_less a b k :
  key_eqb a k = true -> key_eqb b k = true -> key_ltb a b = false.
Proof.
  destruct a as [[[] []] a3], b as [[[] []] b3], k as [[[] []] k3]; simpl;
    try discriminate.
  all: intros H1 H2; apply Z.eqb_eq in H1, H2; apply Z.ltb_ge; lia.
Qed.

(** Sorting the pairs of a key and an element by the key, and dropping
    the keys, is sorting the elements by their key. *)
Lemma insert_sorted_decorated {A K} (ltb : K -> K -> bool) (key : A -> K)
    x l :
  insert_sorted ltb fst (key x, x) (map (fun a => (key a, a)) l)
  = map (fun a => (key a, a)) (insert_sorted ltb key x l).
Proof.
  induction l as [|y l IH]; simpl; [reflexivity |].
  destruct (ltb (key y) (key x)); simpl; [now rewrite IH | reflexivity].
Qed.

Lemma sort_stable_decorated {A K} (ltb : K -> K -> bool) (key : A -> K) l :
  sort_stable ltb fst (map (fun a => (key a, a)) l)
  = map (fun a => (key a, a)) (sort_stable ltb key l).
Proof.
  induction l as [|x l IH]; simpl; [reflexivity |].
  rewrite IH. apply insert_sorted_decorated.
Qed.

Lemma list_sort_decorated {A K} (ltb : K -> K -> bool) (key : A -> K)
    reverse l :
  map snd (list_sort ltb fst reverse (map (fun a => (key a, a)) l))
  = list_sort ltb key reverse l.
Proof.
  assert (Hsnd : forall l : list A,
             map snd (map (fun a => (key a, a)) l) = l).
  { intros l'. rewrite List.map_map. simpl. apply List.map_id. }
  unfold list_sort. destruct reverse.
  - rewrite <- List.map_rev, sort_stable_decorated, <- List.map_rev.
    apply Hsnd.
  - rewrite sort_stable_decorated. apply Hsnd.
Qed.

Lemma call_run {A} (op : W -> outcome A * W) (st : state W) o w :
  op (world st) = (o, w) -> call op st = (o, State (heap st) w (sent st)).
Proof. intros H. unfold call. now rewrite H. Qed.

(** The keys of [images.sort] when every creation date parses. *)
Lemma sort_keys_run pvt prdt (date : image -> Z) images (st : state W) :
  (forall i, In i images -> parse_date (CreationDate i) = Ret (date i)) ->
  mapM (fun image =>
          k <- lift (sort_key pvt prdt image) ;; ret (k, image)) images st
  = (Ret (map (fun i =>
                 ((is_preferred pvt (VirtualizationType i),
                   is_preferred prdt (RootDeviceType i),
                   date i), i)) images), st).
Proof.
  intros Hdates.
  set (f := fun image =>
              k <- lift (sort_key pvt prdt image) ;; ret (k, image)).
  set (g := fun i =>
              ((is_preferred pvt (VirtualizationType i),
                is_preferred prdt (RootDeviceType i),
                date i), i)).
  assert (Hf : forall i (s : state W),
             In i images -> f i s = (Ret (g i), s)).
  { intros i s Hi. unfold f, g, bind, lift, sort_key.
    now rewrite (Hdates i Hi). }
  clearbody f g. clear Hdates.
  induction images as [|i images IH]; cbn [mapM map]; [reflexivity |].
  rewrite (bind_ret_run _ _ _ _ _ (Hf i st ltac:(now left))).
  rewrite (bind_ret_run _ _ _ _ _
             (IH ltac:(intros; apply Hf; now right))).
  reflexivity.
Qed.

Lemma rank_images_run rp (st : state W) d (date : image -> Z) images :
  heap st !! rp = Some d ->
  (forall i, In i images -> parse_date (CreationDate i) = Ret (date i)) ->
  rank_images rp images st
  = (match list_sort key_ltb (image_key d date) true images with
     | [] => Raise (IndexError "list index out of range")
     | first :: _ =>
         Ret (Some
           [("ImageId", VStr (ImageId first));
            ("MatchingImageIds",
             VList (map VStr
                      (map ImageId
                         (list_sort key_ltb (image_key d date) true
                            images))))])
     end, st).
Proof.
  intros Hd Hdates. unfold rank_images. run. unfold sort_images.
  rewrite (bind_ret_run _ _ _ _ _
             (bind_ret_run _ _ _ _ _
                (sort_keys_run _ _ date _ _ Hdates))).
  unfold ret at 1.
  rewrite (list_sort_decorated key_ltb
             (fun i =>
                (is_preferred
                   (default VNone (d !! "PreferredVirtualizationType"))
                   (VirtualizationType i),
                 is_preferred
                   (default VNone (d !! "PreferredRootDeviceType"))
                   (RootDeviceType i),
                 date i))).
  fold (image_key d date).
  now destruct (list_sort key_ltb (image_key d date) true images).
Qed.

Lemma try_except_returns {A} (m : M A) catches h (st : state W) a st' :
  m st = (Ret a, st') -> try_except m catches h st = (Ret a, st').
Proof. intros H. unfold try_except. now rewrite H. Qed.

Lemma add_filters_call_run rp (st : state W) d filters o d' filters' :
  heap st !! rp = Some d ->
  add_filters d filters = (o, d', filters') ->
  add_filters_call rp filters st
  = (match o with Ret _ => Ret filters' | Raise e => Raise e end,
     set_dict st rp d').
Proof.
  intros Hd Hadd. unfold add_filters_call. run. rewrite Hadd.
  unfold bind, store. now destruct o.
Qed.

Lemma filter_names_and_descriptions_call_run rp (st : state W) d images
    o d' :
  heap st !! rp = Some d ->
  filter_names_and_descriptions images d = (o, d') ->
  filter_names_and_descriptions_call images rp st = (o, set_dict st rp d').
Proof.
  intros Hd Hfilter. unfold filter_names_and_descriptions_call. run.
  now rewrite Hfilter.
Qed.

(** [find_image] up to the ranking: the properties are copied, the
    owner is read, the filters are built, the images are looked up and
    filtered by name and description. *)
Lemma find_image_run event (st : state W) d0 d1 d owner filters w1 w2
    found o :
  RequestType event = "Create" \/ RequestType event = "Update" ->
  heap st !! ResourceProperties event = Some d0 ->
  d0 !! "Owner" = Some owner ->
  add_filters d0 [] = (Ret tt, d1, filters) ->
  boto3_client "ec2" (world st) = (Ret tt, w1) ->
  describe_images [owner] (to_ec2_filters filters) w1
  = (Ret (Some found), w2) ->
  found <> [] ->
  filter_names_and_descriptions found d1 = (o, d) ->
  let rp := fresh (dom (heap st)) in
  let st' := State (<[rp := d]> (heap st)) w2 (sent st) in
  find_image event st
  = match o with
    | Ret images => rank_images rp images st'
    | Raise e => (Raise e, st')
    end.
Proof.
  intros Hreq Hd0 Howner Hadd Hclient Hdescribe Hfound Hfilter rp st'.
  apply create_or_update in Hreq.
  unfold find_image. rewrite Hreq. cbn [negb]. run. fold rp.
  rewrite (bind_ret_run _ _ _ _ _
             (try_except_returns _ _ _ _ _ _
                (dict_getitem_run _ _ _ _ _ (heap_set_dict _ _ _) Howner))).
  rewrite (bind_ret_run _ _ _ _ _
             (add_filters_call_run _ _ _ _ _ _ _ (heap_set_dict _ _ _) Hadd)).
  rewrite set_dict_set_dict.
  rewrite (bind_ret_run _ _ _ _ _
             (call_run (boto3_client "ec2") (set_dict st rp d1) _ _
                Hclient)).
  rewrite (bind_ret_run _ _ _ _ _
             (call_run (describe_images [owner] (to_ec2_filters filters))
                (State (heap (set_dict st rp d1)) w1 (sent st)) _ _
                Hdescribe)).
  destruct found as [|i found]; [contradiction |].
  assert (Hcall :
            filter_names_and_descriptions_call (i :: found) rp
              (State (heap (set_dict st rp d1)) w2 (sent st))
            = (o, st')).
  { erewrite filter_names_and_descriptions_call_run;
      [| apply lookup_insert_eq | exact Hfilter].
    unfold set_dict, st'. simpl. now rewrite insert_insert_eq. }
  simpl in Hcall |- *. unfold bind. rewrite Hcall. now destruct o.
Qed.

(** The lookup finds nothing: the error of no match. *)
Lemma find_image_nothing_found event (st : state W) d0 d1 owner filters
    w1 w2 found :
  RequestType event = "Create" \/ RequestType event = "Update" ->
  heap st !! ResourceProperties event = Some d0 ->
  d0 !! "Owner" = Some owner ->
  add_filters d0 [] = (Ret tt, d1, filters) ->
  boto3_client "ec2" (world st) = (Ret tt, w1) ->
  describe_images [owner] (to_ec2_filters filters) w1 = (Ret found, w2) ->
  found = None \/ found = Some [] ->
  (find_image event st).1
  = Raise (ValueError "No AMIs found that match the filters applied.").
Proof.
  intros Hreq Hd0 Howner Hadd Hclient Hdescribe Hfound.
  apply create_or_update in Hreq.
  unfold find_image. rewrite Hreq. cbn [negb]. run.
  set (rp := fresh (dom (heap st))).
  rewrite (bind_ret_run _ _ _ _ _
             (try_except_returns _ _ _ _ _ _
                (dict_getitem_run _ _ _ _ _ (heap_set_dict _ _ _) Howner))).
  rewrite (bind_ret_run _ _ _ _ _
             (add_filters_call_run _ _ _ _ _ _ _ (heap_set_dict _ _ _) Hadd)).
  rewrite set_dict_set_dict.
  rewrite (bind_ret_run _ _ _ _ _
             (call_run (boto3_client "ec2") (set_dict st rp d1) _ _
                Hclient)).
  rewrite (bind_ret_run _ _ _ _ _
             (call_run (describe_images [owner] (to_ec2_filters filters))
                (State (heap (set_dict st rp d1)) w1 (sent st)) _ _
                Hdescribe)).
  now destruct Hfound as [-> | ->].
Qed.

(** The filter by name and description leaves nothing: the ranking
    indexes an empty list. *)
Lemma find_image_nothing_left event (st : state W) d0 d1 d owner filters
    w1 w2 found :
  RequestType event = "Create" \/ RequestType event = "Update" ->
  heap st !! ResourceProperties event = Some d0 ->
  d0 !! "Owner" = Some owner ->
  add_filters d0 [] = (Ret tt, d1, filters) ->
  boto3_client "ec2" (world st) = (Ret tt, w1) ->
  describe_images [owner] (to_ec2_filters filters) w1
  = (Ret (Some found), w2) ->
  found <> [] ->
  filter_names_and_descriptions found d1 = (Ret [], d) ->
  (find_image event st).1 = Raise (IndexError "list index out of range").
Proof.
  intros Hreq Hd0 Howner Hadd Hclient Hdescribe Hfound Hfilter.
  rewrite (find_image_run _ _ _ _ _ _ _ _ _ _ _ Hreq Hd0 Howner Hadd
             Hclient Hdescribe Hfound Hfilter).
  rewrite (rank_images_run _ _ d (fun _ => 0)).
  - reflexivity.
  - apply lookup_insert_eq.
  - intros i [].
Qed.

Lemma is_preferred_matches (preference : option pyval) attribute :
  is_preferred (default VNone preference) attribute = true
  <-> matches_preference preference attribute.
Proof.
  unfold matches_preference.
  destruct preference as [[| | |s| | |]|]; cbn [default from_option id];
    simpl; try (split; [discriminate | intros [? | [? | ?]]; discriminate]);
    try (split; auto; fail).
  rewrite String.eqb_eq. split.
  - intros ->. auto.
  - intros [? | [? | [= ->]]]; try discriminate. reflexivity.
Qed.

Lemma StronglySorted_comes_before {A} (R : A -> A -> Prop) l x y :
  StronglySorted R l -> comes_before l x y -> R x y.
Proof.
  intros Hsorted (l1 & l2 & l3 & ->).
  induction l1 as [|a l1 IH]; simpl in Hsorted.
  - apply StronglySorted_inv in Hsorted as [_ Hall].
    rewrite List.Forall_forall in Hall. apply Hall.
    apply in_or_app. right. now left.
  - apply StronglySorted_inv in Hsorted as [Hsorted _]. now apply IH.
Qed.

Lemma comes_before_total {A} (l : list A) x y :
  In x l -> In y l -> x <> y -> comes_before l x y \/ comes_before l y x.
Proof.
  intros Hx Hy Hne.
  apply in_split in Hx as (l1 & l2 & ->).
  apply in_app_or in Hy as [Hy | [Hy | Hy]].
  - right. apply in_split in Hy as (a & b & ->).
    exists a, b, l2. now rewrite <- List.app_assoc.
  - contradiction.
  - left. apply in_split in Hy as (a & b & ->). now exists l1, a, b.
Qed.

(** What it means for the keys that [x] may stand before [y]. *)
Lemma key_order d (date : image -> Z) x y :
  key_ltb (image_key d date x) (image_key d date y) = false ->
  (matches_virtualization d y -> matches_virtualization d x)
  /\ ((matches_virtualization d x -> matches_virtualization d y) ->
      matches_root_device d y -> matches_root_device d x)
  /\ ((matches_virtualization d x -> matches_virtualization d y) ->
      (matches_root_device d x -> matches_root_device d y) ->
      date y <= date x).
Proof.
  unfold matches_virtualization, matches_root_device, image_key, key_ltb.
  rewrite <- !is_preferred_matches.
  destruct (is_preferred _ (VirtualizationType x)),
    (is_preferred _ (VirtualizationType y)),
    (is_preferred _ (RootDeviceType x)),
    (is_preferred _ (RootDeviceType y));
    cbn [Bool.eqb negb bool_ltb andb]; intros H;
    try discriminate;
    try apply Z.ltb_ge in H;
    (split; [| split]); intros; try reflexivity; try assumption;
    repeat match goal with
           | Himp : true = true -> _ |- _ => specialize (Himp eq_refl)
           end;
    discriminate.
Qed.



(** C2.  When the lookup and the filters leave a non-empty list of
    candidates whose creation dates parse, [find_image] returns the
    candidates in descending order of the key (matches the preferred
    virtualization type, matches the preferred root device type,
    creation date): [MatchingImageIds] lists the identifiers of a
    permutation of the candidates and [ImageId] is the first of them.
    In that order an image that matches the preferred virtualization
    type stands before one that does not; of two that agree on it, one
    that matches the preferred root device type stands before one that
    does not; of two that agree on both, the newer stands before the
    older; and images of equal key keep their order.  A preference that
    is not specified matches every image, and a preference no candidate
    matches removes none.  In particular, of two candidates and no
    preferences, the newer comes first. *)
Theorem find_image_ranks_candidates (event : LifecycleEvent)
    (st : state W) (d0 d1 d : gmap string pyval) (owner : pyval)
    (filters : odict) (w1 w2 : W) (found images : list image)
    (date : image -> Z) :
  RequestType event = "Create" \/ RequestType event = "Update" ->
  heap st !! ResourceProperties event = Some d0 ->
  d0 !! "Owner" = Some owner ->
  add_filters d0 [] = (Ret tt, d1, filters) ->
  boto3_client "ec2" (world st) = (Ret tt, w1) ->
  describe_images [owner] (to_ec2_filters filters) w1
  = (Ret (Some found), w2) ->
  found <> [] ->
  filter_names_and_descriptions found d1 = (Ret images, d) ->
  images <> [] ->
  (forall i, In i images -> parse_date (CreationDate i) = Ret (date i)) ->
  exists ranked first,
    (find_image event st).1
    = Ret (Some [("ImageId", VStr (ImageId first));
                 ("MatchingImageIds",
                  VList (map VStr (map ImageId ranked)))])
    /\ head ranked = Some first
    /\ Permutation ranked images
    /\ StronglySorted
         (fun a b => key_ltb (image_key d date a) (image_key d date b)
                     = false) ranked
    /\ (forall k,
          List.filter (fun i => key_eqb (image_key d date i) k) ranked
          = List.filter (fun i => key_eqb (image_key d date i) k) images)
    /\ (forall x y,
          comes_before ranked x y ->
          (matches_virtualization d y -> matches_virtualization d x)
          /\ ((matches_virtualization d x -> matches_virtualization d y) ->
              matches_root_device d y -> matches_root_device d x)
          /\ ((matches_virtualization d x -> matches_virtualization d y) ->
              (matches_root_device d x -> matches_root_device d y) ->
              date y <= date x))
    /\ (forall x y,
          In x images -> In y images ->
          matches_virtualization d x -> ~ matches_virtualization d y ->
          comes_before ranked x y)
    /\ (forall x y,
          In x images -> In y images ->
          (matches_virtualization d x <-> matches_virtualization d y) ->
          matches_root_device d x -> ~ matches_root_device d y ->
          comes_before ranked x y)
    /\ (forall x y,
          In x images -> In y images ->
          (matches_virtualization d x <-> matches_virtualization d y) ->
          (matches_root_device d x <-> matches_root_device d y) ->
          date y < date x ->
          comes_before ranked x y)
    /\ (d !! "PreferredVirtualizationType" = None ->
        forall i, (image_key d date i).1.1 = true)
    /\ (d !! "PreferredRootDeviceType" = None ->
        forall i, (image_key d date i).1.2 = true)
    /\ (forall a b,
          images = [a; b] ->
          d !! "PreferredVirtualizationType" = None ->
          d !! "PreferredRootDeviceType" = None ->
          date a < date b ->
          ranked = [b; a] /\ first = b).
Proof.
  intros Hreq Hd0 Howner Hadd Hclient Hdescribe Hfound Hfilter Himages
    Hdates.
  rewrite (find_image_run _ _ _ _ _ _ _ _ _ _ _ Hreq Hd0 Howner Hadd
             Hclient Hdescribe Hfound Hfilter).
  rewrite (rank_images_run _ _ d date) by
    (try apply lookup_insert_eq; exact Hdates).
  assert (Hperm : Permutation
                    (list_sort key_ltb (image_key d date) true images)
                    images)
    by apply list_sort_reverse_Permutation.
  assert (Hsorted :
            StronglySorted
              (fun a b => key_ltb (image_key d date a) (image_key d date b)
                          = false)
              (list_sort key_ltb (image_key d date) true images)).
  { apply (list_sort_reverse_sorted key_ltb (image_key d date)).
    - apply key_ltb_asym.
    - apply key_ltb_negtrans. }
  assert (Hstable : forall k,
             List.filter (fun i => key_eqb (image_key d date i) k)
               (list_sort key_ltb (image_key d date) true images)
             = List.filter (fun i => key_eqb (image_key d date i) k)
                 images).
  { intros k. apply list_sort_reverse_stable.
    intros a b Ha Hb. now apply (key_eqb_not_less _ _ k). }
  assert (Htwo : forall a b,
             images = [a; b] ->
             d !! "PreferredVirtualizationType" = None ->
             d !! "PreferredRootDeviceType" = None ->
             date a < date b ->
             list_sort key_ltb (image_key d date) true images = [b; a]).
  { intros a b -> Hv Hr Hlt. unfold list_sort, image_key. simpl.
    rewrite Hv, Hr. simpl. apply Z.ltb_lt in Hlt. now rewrite Hlt. }
  assert (Horder : forall x y,
             comes_before
               (list_sort key_ltb (image_key d date) true images) x y ->
             (matches_virtualization d y -> matches_virtualization d x)
             /\ ((matches_virtualization d x ->
                  matches_virtualization d y) ->
                 matches_root_device d y -> matches_root_device d x)
             /\ ((matches_virtualization d x ->
                  matches_virtualization d y) ->
                 (matches_root_device d x -> matches_root_device d y) ->
                 date y <= date x)).
  { intros x y Hbefore. apply key_order.
    exact (StronglySorted_comes_before _ _ _ _ Hsorted Hbefore). }
  assert (Hplace : forall x y,
             In x images -> In y images -> x <> y ->
             ~ comes_before
                 (list_sort key_ltb (image_key d date) true images) y x ->
             comes_before
               (list_sort key_ltb (image_key d date) true images) x y).
  { intros x y Hx Hy Hne Hnot.
    destruct (comes_before_total
                (list_sort key_ltb (image_key d date) true images) x y)
      as [Hxy | Hyx]; try assumption.
    - eapply Permutation_in; [symmetry; exact Hperm | exact Hx].
    - eapply Permutation_in; [symmetry; exact Hperm | exact Hy].
    - contradiction. }
  destruct (list_sort key_ltb (image_key d date) true images)
    as [|first ranked] eqn:Hranked.
  { apply Permutation_nil in Hperm. contradiction. }
  exists (first :: ranked), first. simpl.
  split; [reflexivity |]. split; [reflexivity |].
  split; [exact Hperm |]. split; [exact Hsorted |].
  split; [exact Hstable |]. split; [exact Horder |].
  split.
  { intros x y Hx Hy Hmx Hmy. apply Hplace; try assumption.
    - intros ->. contradiction.
    - intros Hyx. destruct (Horder y x Hyx) as (H1 & _). auto. }
  split.
  { intros x y Hx Hy Hv Hmx Hmy. apply Hplace; try assumption.
    - intros ->. contradiction.
    - intros Hyx. destruct (Horder y x Hyx) as (_ & H2 & _).
      apply Hmy, H2; [apply Hv | exact Hmx]. }
  split.
  { intros x y Hx Hy Hv Hr Hlt. apply Hplace; try assumption.
    - intros ->. lia.
    - intros Hyx. destruct (Horder y x Hyx) as (_ & _ & H3).
      specialize (H3 (proj2 Hv) (proj2 Hr)). lia. }
  split.
  { intros Hnone i. unfold image_key. now rewrite Hnone. }
  split.
  { intros Hnone i. unfold image_key. now rewrite Hnone. }
  intros a b Himg Hv Hr Hlt.
  specialize (Htwo a b Himg Hv Hr Hlt). now inversion Htwo.
Qed.

End FindImage.

(** ** Unknown parameters of Custom::HashPassword *)

Section UnknownParameters.
Context {W builder : Type} {C : Collaborators W builder}.

Local Abbreviation M := (StateExn (state W)).

Lemma str_ltb_asym a b : str_ltb a b = true -> str_ltb b a = false.
Proof.
  revert b. induction a as [|x a IH]; intros [|y b]; simpl;
    try reflexivity; try discriminate.
  destruct (Nat.ltb_spec (nat_of_ascii x) (nat_of_ascii y)),
    (Nat.ltb_spec (nat_of_ascii y) (nat_of_ascii x));
    try reflexivity; try discriminate; try lia.
  apply IH.
Qed.

Lemma str_ltb_negtrans a b c :
  str_ltb b a = false -> str_ltb c b = false -> str_ltb c a = false.
Proof.
  revert b c. induction a as [|x a IH]; intros [|y b] [|z c]; simpl;
    try reflexivity; try discriminate.
  destruct (Nat.ltb_spec (nat_of_ascii y) (nat_of_ascii x)),
    (Nat.ltb_spec (nat_of_ascii x) (nat_of_ascii y)),
    (Nat.ltb_spec (nat_of_ascii z) (nat_of_ascii y)),
    (Nat.ltb_spec (nat_of_ascii y) (nat_of_ascii z)),
    (Nat.ltb_spec (nat_of_ascii z) (nat_of_ascii x)),
    (Nat.ltb_spec (nat_of_ascii x) (nat_of_ascii z));
    try reflexivity; try discriminate; try lia.
  apply IH.
Qed.

Lemma str_ltb_total a b :
  str_ltb a b = false -> str_ltb b a = false -> a = b.
Proof.
  revert b. induction a as [|x a IH]; intros [|y b]; simpl;
    try reflexivity; try discriminate.
  destruct (Nat.ltb_spec (nat_of_ascii x) (nat_of_ascii y)),
    (Nat.ltb_spec (nat_of_ascii y) (nat_of_ascii x));
    try discriminate; try lia.
  intros Hab Hba. f_equal; [| now apply IH].
  rewrite <- (ascii_nat_embedding x), <- (ascii_nat_embedding y).
  f_equal. lia.
Qed.

(** [sorted] of a list without duplicates is the list in strictly
    increasing order. *)
Lemma sorted_Permutation l : Permutation (sorted l) l.
Proof. apply list_sort_forward_Permutation. Qed.

Lemma sorted_strictly l :
  List.NoDup l -> StronglySorted (fun a b => str_ltb a b = true) (sorted l).
Proof.
  intros Hnd.
  assert (Hnd' : List.NoDup (sorted l)).
  { eapply Permutation_NoDup; [| exact Hnd].
    symmetry. apply sorted_Permutation. }
  pose proof (list_sort_forward_sorted str_ltb (fun s => s)
                str_ltb_asym str_ltb_negtrans l) as Hs.
  fold (sorted l) in Hs. revert Hnd' Hs.
  generalize (sorted l). intros l'.
  induction l' as [|a l' IH]; intros Hnd' Hs; [constructor |].
  apply StronglySorted_inv in Hs as [Hs Ha].
  apply List.NoDup_cons_iff in Hnd' as [Hnot Hnd'].
  constructor; [now apply IH |].
  rewrite List.Forall_forall in Ha |- *. intros b Hb.
  specialize (Ha b Hb). simpl in Ha.
  destruct (str_ltb a b) eqn:Hab; [reflexivity |].
  rewrite (str_ltb_total a b Hab Ha) in Hnot. contradiction.
Qed.

Lemma delete_all_app ks1 ks2 (d : gmap string pyval) :
  delete_all (ks1 ++ ks2) d = delete_all ks2 (delete_all ks1 d).
Proof. unfold delete_all. apply foldl_app. Qed.

Lemma dict_sorted_keys_run (st : state W) rp d :
  heap st !! rp = Some d ->
  dict_sorted_keys rp st = (Ret (sorted (elements (dom d))), st).
Proof.
  intros H. unfold dict_sorted_keys.
  now rewrite (bind_ret_run _ _ _ _ _ (load_run _ _ _ H)).
Qed.

Lemma reject_unknown_parameters_run rp (st : state W) d :
  heap st !! rp = Some d ->
  reject_unknown_parameters rp st
  = (if bool_decide (dom (delete "ServiceToken" d) = ∅) then Ret tt
     else Raise (ValueError
            ("Unknown parameters: "
             +:+ join ", "
                   (sorted (elements (dom (delete "ServiceToken" d)))))),
     set_dict st rp (delete "ServiceToken" d)).
Proof.
  intros Hd. unfold reject_unknown_parameters. run.
  destruct (bool_decide (dom (delete "ServiceToken" d) = ∅));
    cbn [negb]; [reflexivity |].
  now rewrite (bind_ret_run _ _ _ _ _
                 (dict_sorted_keys_run _ _ _ (heap_set_dict _ _ _))).
Qed.

(** The resolution of the scheme, when it returns, has popped [Scheme]
    and [AllowInsecure] and nothing else. *)
Lemma get_hash_algorithm_consumes rp (st : state W) d algo st1 :
  heap st !! rp = Some d ->
  get_hash_algorithm rp st = (Ret algo, st1) ->
  st1 = set_dict st rp (delete "AllowInsecure" (delete "Scheme" d)).
Proof.
  intros Hd. unfold get_hash_algorithm. run. rewrite set_dict_set_dict.
  unfold bind, lift, raise, ret.
  repeat match goal with
         | |- context [match ?x with _ => _ end] => destruct x
         end;
    intros H; inversion H; reflexivity.
Qed.

(** The loop over the declared parameters, when it returns, has popped
    the declared parameters and nothing else. *)
Lemma parse_parameters_consumes rp declared (st : state W) d kw kw' st1 :
  heap st !! rp = Some d ->
  parse_parameters rp declared kw st = (Ret kw', st1) ->
  st1 = set_dict st rp (delete_all (map fst declared) d).
Proof.
  revert st d kw.
  induction declared as [|[name p] declared IH]; intros st d kw Hd;
    cbn [parse_parameters map fst].
  - intros [= <- <-]. symmetry. now apply set_dict_id.
  - run. change (delete_all (name :: map fst declared) d)
      with (delete_all (map fst declared) (delete name d)).
    destruct (d !! name) as [v|] eqn:Hv; cbn [negb].
    + rewrite (bind_ret_run _ _ _ _ _ (dict_pop_run _ _ _ _ _ Hd Hv)).
      unfold bind at 1. unfold lift.
      destruct (validate_hash_parameter p name v) as [v'|e];
        [| discriminate].
      intros Hrun.
      apply IH with (d := delete name d) in Hrun;
        [| apply heap_set_dict].
      now rewrite set_dict_set_dict in Hrun.
    + rewrite delete_id by exact Hv. now apply IH.
Qed.

(** C7.  A Create or Update request whose password step, scheme
    resolution and declared parameters have all gone through: the keys
    left are the properties other than the password keys, [Scheme],
    [AllowInsecure], the declared parameters and [ServiceToken].  When
    some are left, [hash_password] fails with the error
    [Unknown parameters:] followed by all of them in increasing order,
    separated by commas; when none is left, it goes on to hash the
    password. *)
Theorem unknown_parameters_rejected (event : LifecycleEvent)
    (st st1 st2 st3 : state W) (d : gmap string pyval) (pw : pyval)
    (algo : HashAlgorithm builder) (kw : odict) :
  RequestType event = "Create" \/ RequestType event = "Update" ->
  heap st !! ResourceProperties event = Some d ->
  xorb (has_key d "PlaintextPassword")
       (has_key d "CiphertextBase64Password") = true ->
  let rp := fresh (dom (heap st)) in
  password_source rp d (set_dict st rp d) = (Ret pw, st1) ->
  get_hash_algorithm rp st1 = (Ret algo, st2) ->
  parse_parameters rp (parameters algo) [] st2 = (Ret kw, st3) ->
  let consumed :=
    (password_keys d ++ ["Scheme"; "AllowInsecure"]
     ++ map fst (parameters algo) ++ ["ServiceToken"])%list in
  let remaining := delete_all consumed d in
  let keys := sorted (elements (dom remaining)) in
  (remaining <> ∅ ->
   hash_password event st
   = (Raise (ValueError ("Unknown parameters: " +:+ join ", " keys)),
      set_dict st3 rp remaining))
  /\ (remaining = ∅ ->
      hash_password event st
      = (builder <- call (builder_using (algorithm algo) kw) ;;
         result <- call (builder_hash builder pw) ;;
         ret (Some [("Hash", VStr result)])) (set_dict st3 rp remaining))
  /\ StronglySorted (fun a b => str_ltb a b = true) keys
  /\ (forall k, In k keys <-> is_Some (d !! k) /\ k ∉ consumed).
Proof.
  intros Hreq Hd Hone rp Hpw Halg Hparse consumed remaining keys.
  pose proof (password_source_consumes _ _ _ _ _ Hpw) as Hd1.
  pose proof (get_hash_algorithm_consumes _ _ _ _ _ Hd1 Halg) as ->.
  pose proof (parse_parameters_consumes _ _ _ _ _ _ _
                (heap_set_dict _ _ _) Hparse) as Hst3.
  assert (Hd3 : heap st3 !! rp
                = Some (delete_all
                          (password_keys d ++ ["Scheme"; "AllowInsecure"]
                           ++ map fst (parameters algo)) d)).
  { rewrite Hst3, heap_set_dict. f_equal.
    now rewrite !delete_all_app. }
  assert (Hremaining :
            delete "ServiceToken"
              (delete_all
                 (password_keys d ++ ["Scheme"; "AllowInsecure"]
                  ++ map fst (parameters algo)) d)
            = remaining).
  { unfold remaining, consumed.
    rewrite !(List.app_assoc _ _ ["ServiceToken"]).
    now rewrite (delete_all_app _ ["ServiceToken"]). }
  assert (Hhash :
            hash_password event st
            = (reject_unknown_parameters rp ;;;
               builder <- call (builder_using (algorithm algo) kw) ;;
               result <- call (builder_hash builder pw) ;;
               ret (Some [("Hash", VStr result)])) st3).
  { rewrite (hash_password_password_source _ _ _ Hreq Hd Hone). fold rp.
    rewrite (bind_ret_run _ _ _ _ _ Hpw).
    rewrite (bind_ret_run _ _ _ _ _ Halg).
    now rewrite (bind_ret_run _ _ _ _ _ Hparse). }
  pose proof (reject_unknown_parameters_run _ _ _ Hd3) as Hreject.
  rewrite Hremaining in Hreject.
  split; [| split; [| split]].
  - intros Hne. rewrite Hhash.
    rewrite bool_decide_eq_false_2 in Hreject
      by (now rewrite dom_empty_iff_L).
    now rewrite (bind_raise_run _ _ _ _ _ Hreject).
  - intros Hempty. rewrite Hhash.
    rewrite bool_decide_eq_true_2 in Hreject
      by (now rewrite dom_empty_iff_L).
    now rewrite (bind_ret_run _ _ _ _ _ Hreject).
  - apply sorted_strictly. apply NoDup_ListNoDup, NoDup_elements.
  - intros k. unfold keys.
    rewrite (Permutation_in' (eq_refl k) (sorted_Permutation _)).
    rewrite <- list_elem_of_In, elem_of_elements, elem_of_dom.
    unfold remaining. rewrite lookup_delete_all.
    destruct (bool_decide (k ∈ consumed)) eqn:E.
    + apply bool_decide_eq_true in E. split.
      * intros [? [=]].
      * intros [_ Hnot]. contradiction.
    + apply bool_decide_eq_false in E. tauto.
Qed.

End UnknownParameters.

(** ** Custom::SecureRandom *)

Section Encodings.

Lemma forall_ascii_spec (P : ascii -> bool) :
  forall_ascii P = true -> forall a, P a = true.
Proof.
  intros H a. unfold forall_ascii in H.
  rewrite List.forallb_forall in H. apply H.
  unfold all_ascii. rewrite <- (ascii_nat_embedding a).
  apply List.in_map, List.in_seq.
  pose proof (nat_ascii_bounded a). lia.
Qed.

Lemma forall_ascii2_spec (P : ascii -> ascii -> bool) :
  forall_ascii (fun a => forall_ascii (P a)) = true ->
  forall a b, P a b = true.
Proof.
  intros H a b.
  apply (forall_ascii_spec (P a)).
  apply (forall_ascii_spec (fun a => forall_ascii (P a)) H).
Qed.

(** *** Base16 *)

Lemma hex_pair_decodes a :
  let n := N_of_ascii a in
  let h := lower_char (hex_digit (N.shiftr n 4)) in
  let l := lower_char (hex_digit (N.land n 15)) in
  match hex_value h, hex_value l with
  | Some x, Some y => ascii_of_N (N.lor (N.shiftl x 4) y) = a
  | _, _ => False
  end
  /\ is_lower_hex h = true /\ is_lower_hex l = true.
Proof.
  set (check := fun a =>
    let n := N_of_ascii a in
    let h := lower_char (hex_digit (N.shiftr n 4)) in
    let l := lower_char (hex_digit (N.land n 15)) in
    match hex_value h, hex_value l with
    | Some x, Some y =>
        Ascii.eqb (ascii_of_N (N.lor (N.shiftl x 4) y)) a
    | _, _ => false
    end && is_lower_hex h && is_lower_hex l).
  assert (Hall : forall_ascii check = true) by (vm_compute; reflexivity).
  pose proof (forall_ascii_spec check Hall a) as H.
  unfold check in H. cbv zeta in *.
  apply andb_true_iff in H as [H Hl]. apply andb_true_iff in H as [H Hh].
  repeat split; try assumption.
  destruct (hex_value _); [| discriminate].
  destruct (hex_value _); [| discriminate].
  now apply Ascii.eqb_eq.
Qed.

Lemma b16_round_trip b : b16decode (lower (b16encode b)) = Some b.
Proof.
  induction b as [|a b IH]; [reflexivity |].
  cbn [b16encode lower b16decode]. rewrite IH.
  destruct (hex_pair_decodes a) as (H & _). cbv zeta in H.
  destruct (hex_value _); [| contradiction].
  destruct (hex_value _); [| contradiction].
  now rewrite H.
Qed.

Lemma b16_length b :
  String.length (lower (b16encode b)) = (2 * String.length b)%nat.
Proof.
  induction b as [|a b IH]; [reflexivity |].
  cbn [b16encode lower String.length]. rewrite IH. lia.
Qed.

Lemma b16_lower_hex b :
  string_forall is_lower_hex (lower (b16encode b)) = true.
Proof.
  induction b as [|a b IH]; [reflexivity |].
  cbn [b16encode lower string_forall]. rewrite IH.
  destruct (hex_pair_decodes a) as (_ & Hh & Hl). cbv zeta in Hh, Hl.
  now rewrite Hh, Hl.
Qed.

(** *** Base64 *)

Lemma sextet_round_trips_spec s :
  sextet_round_trips s = true ->
  b64_value (b64_char s) = Some s /\ Ascii.eqb (b64_char s) "=" = false.
Proof.
  unfold sextet_round_trips. intros H.
  apply andb_true_iff in H as [H1 H2].
  destruct (b64_value (b64_char s)); [| discriminate].
  apply N.eqb_eq in H1. subst. split; [reflexivity |].
  now apply negb_true_iff.
Qed.

Lemma one_octet_facts x :
  let a := N_of_ascii x in
  sextet_round_trips (sextet1 a) = true
  /\ sextet_round_trips (sextet4 a) = true
  /\ N.lor (N.shiftl (N.shiftr a 4) 4) (N.land a 15) = a
  /\ N.lor (N.shiftl (N.shiftr a 6) 6) (N.land a 63) = a.
Proof.
  set (check := fun x =>
    let a := N_of_ascii x in
    sextet_round_trips (sextet1 a) && sextet_round_trips (sextet4 a)
    && (N.lor (N.shiftl (N.shiftr a 4) 4) (N.land a 15) =? a)%N
    && (N.lor (N.shiftl (N.shiftr a 6) 6) (N.land a 63) =? a)%N).
  assert (Hall : forall_ascii check = true) by (vm_compute; reflexivity).
  pose proof (forall_ascii_spec check Hall x) as H.
  unfold check in H. cbv zeta in *.
  apply andb_true_iff in H as [H H4]. apply andb_true_iff in H as [H H3].
  apply andb_true_iff in H as [H1 H2].
  apply N.eqb_eq in H3, H4. now repeat split.
Qed.

Lemma two_octets_facts x y :
  let a := N_of_ascii x in
  let b := N_of_ascii y in
  sextet_round_trips (sextet2 a b) = true
  /\ sextet_round_trips (sextet3 a b) = true
  /\ octet1 (sextet1 a) (sextet2 a b) = a
  /\ N.land (sextet2 a b) 15 = N.shiftr b 4
  /\ N.shiftr (sextet3 a b) 2 = N.land a 15
  /\ N.land (sextet3 a b) 3 = N.shiftr b 6.
Proof.
  set (check := fun x y =>
    let a := N_of_ascii x in
    let b := N_of_ascii y in
    sextet_round_trips (sextet2 a b) && sextet_round_trips (sextet3 a b)
    && (octet1 (sextet1 a) (sextet2 a b) =? a)%N
    && (N.land (sextet2 a b) 15 =? N.shiftr b 4)%N
    && (N.shiftr (sextet3 a b) 2 =? N.land a 15)%N
    && (N.land (sextet3 a b) 3 =? N.shiftr b 6)%N).
  assert (Hall : forall_ascii (fun x => forall_ascii (check x)) = true)
    by (vm_compute; reflexivity).
  pose proof (forall_ascii2_spec check Hall x y) as H.
  unfold check in H. cbv zeta in *.
  apply andb_true_iff in H as [H H6]. apply andb_true_iff in H as [H H5].
  apply andb_true_iff in H as [H H4]. apply andb_true_iff in H as [H H3].
  apply andb_true_iff in H as [H1 H2].
  apply N.eqb_eq in H3, H4, H5, H6. now repeat split.
Qed.

Lemma octet2_sextets x y z :
  octet2 (sextet2 (N_of_ascii x) (N_of_ascii y))
    (sextet3 (N_of_ascii y) (N_of_ascii z)) = N_of_ascii y.
Proof.
  unfold octet2.
  destruct (two_octets_facts x y) as (_ & _ & _ & -> & _).
  destruct (two_octets_facts y z) as (_ & _ & _ & _ & -> & _).
  now destruct (one_octet_facts y) as (_ & _ & -> & _).
Qed.

Lemma octet3_sextets y z :
  octet3 (sextet3 (N_of_ascii y) (N_of_ascii z)) (sextet4 (N_of_ascii z))
  = N_of_ascii z.
Proof.
  unfold octet3, sextet4.
  destruct (two_octets_facts y z) as (_ & _ & _ & _ & _ & ->).
  now destruct (one_octet_facts z) as (_ & _ & _ & ->).
Qed.

Lemma N_of_ascii_zero : N_of_ascii zero = 0%N.
Proof. reflexivity. Qed.

Lemma b64_round_trip_bounded n b :
  (String.length b < n)%nat -> b64decode_validate (b64encode b) = Some b.
Proof.
  revert b. induction n as [|n IH]; intros b Hlen; [lia |].
  destruct b as [|x [|y [|z b]]].
  - reflexivity.
  - cbn [b64encode b64decode_validate].
    destruct (one_octet_facts x) as (H1 & _).
    apply sextet_round_trips_spec in H1 as [-> _].
    pose proof (two_octets_facts x zero) as (H2 & _ & Ho & _).
    rewrite N_of_ascii_zero in H2, Ho.
    apply sextet_round_trips_spec in H2 as [-> _].
    rewrite Ho. cbn. now rewrite ascii_N_embedding.
  - cbn [b64encode b64decode_validate].
    destruct (one_octet_facts x) as (H1 & _).
    apply sextet_round_trips_spec in H1 as [-> _].
    pose proof (two_octets_facts x y) as (H2 & _ & Ho & _).
    apply sextet_round_trips_spec in H2 as [-> _].
    pose proof (two_octets_facts y zero) as (_ & H3 & _).
    rewrite N_of_ascii_zero in H3.
    apply sextet_round_trips_spec in H3 as [-> ->].
    pose proof (octet2_sextets x y zero) as Ho2.
    rewrite N_of_ascii_zero in Ho2. rewrite Ho, Ho2. cbn.
    now rewrite !ascii_N_embedding.
  - cbn [b64encode b64decode_validate].
    destruct (one_octet_facts x) as (H1 & _).
    apply sextet_round_trips_spec in H1 as [-> _].
    pose proof (two_octets_facts x y) as (H2 & _ & Ho & _).
    apply sextet_round_trips_spec in H2 as [-> _].
    pose proof (two_octets_facts y z) as (_ & H3 & _).
    apply sextet_round_trips_spec in H3 as [-> ->].
    destruct (one_octet_facts z) as (_ & H4 & _).
    apply sextet_round_trips_spec in H4 as [-> ->].
    rewrite IH by (simpl in Hlen; lia).
    rewrite Ho, octet2_sextets, octet3_sextets.
    now rewrite !ascii_N_embedding.
Qed.

Lemma b64_round_trip b : b64decode_validate (b64encode b) = Some b.
Proof. apply (b64_round_trip_bounded (S (String.length b))). lia. Qed.

End Encodings.

Section SecureRandom.
Context {W builder : Type} {C : Collaborators W builder}.

Local Abbreviation M := (StateExn (state W)).

Lemma urandom_run (st : state W) n o w :
  0 < n -> n <= ssize_t_max ->
  os_urandom n (world st) = (o, w) ->
  urandom n st = (o, State (heap st) w (sent st)).
Proof.
  intros Hpos Hfits Hrun. unfold urandom.
  rewrite (proj2 (Z.ltb_ge n 0)) by lia.
  rewrite (proj2 (Z.ltb_ge ssize_t_max n)) by lia.
  unfold call. now rewrite Hrun.
Qed.

(** C8.  For a Create or Update request whose [Size] coerces to a
    positive integer [n], [secure_random] asks [os.urandom] for [n]
    bytes.  When [n] fits a [ssize_t] and the operating system returns
    [n] bytes, they are returned three times: [Raw] has one character
    per byte and encodes in ISO-8859-1 to the bytes, [Hex] is their
    lower-case hexadecimal text of length [2n] and decodes to them, and
    [Base64] is their Base64 text and decodes to them.  When the request
    for the bytes fails, its error is that of [secure_random], and an
    [n] that does not fit a [ssize_t] is an [OverflowError].  A [Size]
    that does not coerce to a positive integer, or no [Size], makes it
    fail. *)
Theorem secure_random_three_encodings (event : LifecycleEvent)
    (st : state W) (d : gmap string pyval) :
  RequestType event = "Create" \/ RequestType event = "Update" ->
  heap st !! ResourceProperties event = Some d ->
  (forall size n bytes w,
      d !! "Size" = Some size -> py_int size = Ret n -> 0 < n ->
      n <= ssize_t_max ->
      os_urandom n (world st) = (Ret bytes, w) ->
      Z.of_nat (String.length bytes) = n ->
      exists raw hex b64,
        secure_random event st
        = (Ret (Some [("Raw", VStr raw); ("Hex", VStr hex);
                      ("Base64", VStr b64)]),
           State (heap st) w (sent st))
        /\ raw = decode_iso8859_1 bytes
        /\ Z.of_nat (String.length raw) = n
        /\ encode_iso8859_1 raw = bytes
        /\ hex = lower (b16encode bytes)
        /\ Z.of_nat (String.length hex) = 2 * n
        /\ string_forall is_lower_hex hex = true
        /\ b16decode hex = Some bytes
        /\ b64 = b64encode bytes
        /\ b64decode_validate b64 = Some bytes)
  /\ (forall size n e w,
        d !! "Size" = Some size -> py_int size = Ret n -> 0 < n ->
        n <= ssize_t_max ->
        os_urandom n (world st) = (Raise e, w) ->
        secure_random event st = (Raise e, State (heap st) w (sent st)))
  /\ (forall size n,
        d !! "Size" = Some size -> py_int size = Ret n ->
        ssize_t_max < n ->
        secure_random event st
        = (Raise (OverflowError
                    "Python int too large to convert to C ssize_t"), st))
  /\ (forall size,
        d !! "Size" = Some size ->
        ~ (exists n, py_int size = Ret n /\ 0 < n) ->
        exists e, (secure_random event st).1 = Raise e)
  /\ (d !! "Size" = None ->
      exists e, (secure_random event st).1 = Raise e).
Proof.
  intros Hreq Hd. apply create_or_update in Hreq.
  unfold secure_random. rewrite Hreq. cbn [negb].
  assert (Hsize_run : forall size n,
             d !! "Size" = Some size -> py_int size = Ret n -> 0 < n ->
             forall k : Z -> M (option odict),
               (size <- dict_getitem (ResourceProperties event) "Size" ;;
                size <- lift (parse_size size) ;; k size) st
               = k n st).
  { intros size n Hsize Hint Hpos k.
    rewrite (bind_ret_run _ _ _ _ _ (dict_getitem_run _ _ _ _ _ Hd Hsize)).
    unfold parse_size. rewrite Hint.
    rewrite (proj2 (Z.leb_gt n 0)) by lia. reflexivity. }
  split; [| split; [| split; [| split]]].
  - intros size n bytes w Hsize Hint Hpos Hfits Hrun Hlen.
    rewrite (Hsize_run size n Hsize Hint Hpos).
    rewrite (bind_ret_run _ _ _ _ _ (urandom_run _ _ _ _ Hpos Hfits Hrun)).
    exists (decode_iso8859_1 bytes), (lower (b16encode bytes)),
      (b64encode bytes).
    repeat split; try assumption.
    + rewrite b16_length. lia.
    + apply b16_lower_hex.
    + apply b16_round_trip.
    + apply b64_round_trip.
  - intros size n e w Hsize Hint Hpos Hfits Hrun.
    rewrite (Hsize_run size n Hsize Hint Hpos).
    now rewrite (bind_raise_run _ _ _ _ _
                   (urandom_run _ _ _ _ Hpos Hfits Hrun)).
  - intros size n Hsize Hint Hbig.
    assert (Hpos : 0 < n) by (unfold ssize_t_max in Hbig; lia).
    rewrite (Hsize_run size n Hsize Hint Hpos).
    apply bind_raise_run. unfold urandom.
    rewrite (proj2 (Z.ltb_ge n 0)) by lia.
    now rewrite (proj2 (Z.ltb_lt ssize_t_max n)) by lia.
  - intros size Hsize Hnot.
    rewrite (bind_ret_run _ _ _ _ _ (dict_getitem_run _ _ _ _ _ Hd Hsize)).
    unfold parse_size, bind, lift.
    destruct (py_int size) as [n|e].
    + destruct (Z.leb_spec n 0); [eauto |].
      exfalso. apply Hnot. eauto.
    + destruct (isinstance e "ValueError"); eauto.
  - intros Hnone.
    rewrite (bind_raise_run _ _ _ _ _
               (dict_getitem_missing _ _ _ _ Hd Hnone)).
    eauto.
Qed.

End SecureRandom.

(** * Further properties *)

(** ** What a computation sends *)

Create HintDb sn.

Section SendsBasics.
Context {W builder : Type} {C : Collaborators W builder}.

Local Abbreviation M := (StateExn (state W)).

Lemma sn_ret {A} (a : A) : sends_nothing (W:=W) (ret a).
Proof. now intros st. Qed.

Lemma sn_raise {A} e : sends_nothing (W:=W) (A:=A) (raise e).
Proof. now intros st. Qed.

Lemma sn_lift {A} (o : outcome A) : sends_nothing (W:=W) (lift o).
Proof. now intros st. Qed.

Lemma sn_bind {A B} (m : M A) (f : A -> M B) :
  sends_nothing m -> (forall a, sends_nothing (f a)) ->
  sends_nothing (bind m f).
Proof.
  intros Hm Hf st. unfold bind.
  specialize (Hm st). destruct (m st) as [[a|e] st1]; simpl in *.
  - now rewrite (Hf a st1).
  - exact Hm.
Qed.

Lemma sn_try_except {A} (m : M A) catches h :
  sends_nothing m -> (forall e, sends_nothing (h e)) ->
  sends_nothing (try_except m catches h).
Proof.
  intros Hm Hh st. unfold try_except.
  specialize (Hm st). destruct (m st) as [[a|e] st1]; simpl in *.
  - exact Hm.
  - destruct (catches e); simpl; [now rewrite (Hh e st1) | exact Hm].
Qed.

Lemma sn_call {A} (op : W -> outcome A * W) : sends_nothing (call op).
Proof. intros st. unfold call. now destruct (op (world st)). Qed.

Lemma sn_call_total {A} (op : W -> A * W) : sends_nothing (call_total op).
Proof. intros st. unfold call_total. now destruct (op (world st)). Qed.

Lemma sn_load l : sends_nothing (W:=W) (load l).
Proof. intros st. unfold load. now destruct (heap st !! l). Qed.

Lemma sn_store rp d : sends_nothing (W:=W) (store rp d).
Proof. now intros st. Qed.

Lemma sn_alloc d : sends_nothing (W:=W) (alloc d).
Proof. now intros st. Qed.

End SendsBasics.

#[global] Hint Resolve sn_ret sn_raise sn_lift sn_call sn_call_total
  sn_load sn_store sn_alloc : sn.

(** One step of a proof that a computation sends nothing. *)
Ltac sn_step :=
  match goal with
  | |- sends_nothing (bind _ _) => apply sn_bind; [| intros]
  | |- sends_nothing (try_except _ _ _) => apply sn_try_except; [| intros]
  | |- sends_nothing (match ?x with _ => _ end) => destruct x
  | |- sends_nothing _ => solve [eauto with sn]
  end.

Ltac sn := repeat sn_step.

Section SendsOperations.
Context {W builder : Type} {C : Collaborators W builder}.

Local Abbreviation M := (StateExn (state W)).

Lemma sn_dict_copy l : sends_nothing (W:=W) (dict_copy l).
Proof. unfold dict_copy. sn. Qed.

Lemma sn_dict_contains rp k : sends_nothing (W:=W) (dict_contains rp k).
Proof. unfold dict_contains. sn. Qed.

Lemma sn_dict_getitem rp k : sends_nothing (dict_getitem rp k).
Proof. unfold dict_getitem. sn. Qed.

Lemma sn_dict_get rp k dflt : sends_nothing (W:=W) (dict_get rp k dflt).
Proof. unfold dict_get. sn. Qed.

Lemma sn_dict_pop rp k : sends_nothing (dict_pop rp k).
Proof. unfold dict_pop. sn. Qed.

Lemma sn_dict_pop_default rp k dflt :
  sends_nothing (W:=W) (dict_pop_default rp k dflt).
Proof. unfold dict_pop_default. sn. Qed.

Lemma sn_dict_sorted_keys rp : sends_nothing (W:=W) (dict_sorted_keys rp).
Proof. unfold dict_sorted_keys. sn. Qed.

Lemma sn_urandom size : sends_nothing (urandom size).
Proof. unfold urandom. sn. Qed.

Lemma sn_add_filters_call rp filters :
  sends_nothing (add_filters_call rp filters).
Proof.
  unfold add_filters_call. apply sn_bind; [sn | intros d].
  destruct (add_filters d filters) as [[o d'] filters']. sn.
Qed.

Lemma sn_filter_names_and_descriptions_call images rp :
  sends_nothing (filter_names_and_descriptions_call images rp).
Proof.
  unfold filter_names_and_descriptions_call.
  apply sn_bind; [sn | intros d].
  destruct (filter_names_and_descriptions images d) as [o d']. sn.
Qed.

Lemma sn_mapM {A B} (f : A -> M B) l :
  (forall a, sends_nothing (f a)) -> sends_nothing (mapM f l).
Proof. intros Hf. induction l as [|a l IH]; simpl; sn. Qed.

End SendsOperations.

#[global] Hint Resolve sn_dict_copy sn_dict_contains sn_dict_getitem
  sn_dict_get sn_dict_pop sn_dict_pop_default sn_dict_sorted_keys
  sn_urandom sn_add_filters_call sn_filter_names_and_descriptions_call
  : sn.

Section SendsHandlers.
Context {W builder : Type} {C : Collaborators W builder}.

Local Abbreviation M := (StateExn (state W)).

Lemma sn_sort_images pvt prdt images :
  sends_nothing (sort_images pvt prdt images).
Proof.
  unfold sort_images. apply sn_bind; [| intros; sn].
  apply sn_mapM. intros. sn.
Qed.

#[local] Hint Resolve sn_sort_images : sn.

Lemma sn_rank_images rp images : sends_nothing (rank_images rp images).
Proof. unfold rank_images. sn. Qed.

Lemma sn_handle_genphrase_properties rp kw :
  sends_nothing (handle_genphrase_properties rp kw).
Proof. unfold handle_genphrase_properties. sn. Qed.

Lemma sn_handle_genword_properties rp kw :
  sends_nothing (handle_genword_properties rp kw).
Proof. unfold handle_genword_properties. sn. Qed.

Lemma sn_handle_plaintext_password_hash_params rp :
  sends_nothing (handle_plaintext_password_hash_params rp).
Proof. unfold handle_plaintext_password_hash_params. sn. Qed.

Lemma sn_handle_ciphertext_password_hash_params rp :
  sends_nothing (handle_ciphertext_password_hash_params rp).
Proof. unfold handle_ciphertext_password_hash_params. sn. Qed.

Lemma sn_get_hash_algorithm rp : sends_nothing (get_hash_algorithm rp).
Proof. unfold get_hash_algorithm. sn. Qed.

Lemma sn_parse_parameters rp declared kw :
  sends_nothing (parse_parameters rp declared kw).
Proof.
  revert kw.
  induction declared as [|[name p] declared IH]; intros kw; simpl; sn.
Qed.

Lemma sn_reject_unknown_parameters rp :
  sends_nothing (reject_unknown_parameters rp).
Proof. unfold reject_unknown_parameters. sn. Qed.

#[local] Hint Resolve sn_rank_images sn_handle_genphrase_properties
  sn_handle_genword_properties sn_handle_plaintext_password_hash_params
  sn_handle_ciphertext_password_hash_params sn_get_hash_algorithm
  sn_parse_parameters sn_reject_unknown_parameters : sn.

Lemma sn_api_gateway_binary event : sends_nothing (api_gateway_binary event).
Proof. unfold api_gateway_binary. sn. Qed.

Lemma sn_find_image event : sends_nothing (find_image event).
Proof. unfold find_image. sn. Qed.

Lemma sn_generate_password event : sends_nothing (generate_password event).
Proof. unfold generate_password. sn. Qed.

Lemma sn_hash_password event : sends_nothing (hash_password event).
Proof. unfold hash_password. sn. Qed.

Lemma sn_secure_random event : sends_nothing (secure_random event).
Proof. unfold secure_random. sn. Qed.

Lemma sn_registered name handler event :
  handlers_get name handlers = Some handler ->
  sends_nothing (W:=W) (handler event).
Proof.
  unfold handlers. cbn [handlers_get].
  repeat (destruct (String.eqb name _);
          [intros [= <-];
           first [ apply sn_api_gateway_binary | apply sn_find_image
                 | apply sn_generate_password | apply sn_hash_password
                 | apply sn_secure_random ] |]).
  discriminate.
Qed.

Lemma sn_make_body event : sends_nothing (make_body event).
Proof.
  unfold make_body. apply sn_bind; [| intros; sn].
  destruct (handlers_get _ _) as [handler|] eqn:Hget; [| sn].
  unfold handler_body. apply sn_try_except; [| intros; sn].
  apply sn_bind; [now apply (sn_registered _ _ _ Hget) |].
  intros data. destruct (od_get _ _); sn.
Qed.

Lemma make_body_unknown event (st : state W) :
  handlers_get (ResourceType event) handlers = None ->
  make_body event st
  = with_physical_resource_id
      (failure_body
         (Exn [] ("Unknown resource type " +:+ ResourceType event))
         (initial_body event)) st.
Proof. intros Hget. unfold make_body. now rewrite Hget. Qed.

(** X1.  Whatever the event and the state, [lambda_handler] makes an
    envelope and sends exactly one request: to the event's
    [ResponseURL], with the serialised envelope as data, an empty
    [Content-Type] and the length of the data as [Content-Length]; no
    handler sends anything. *)
Theorem lambda_handler_sends_exactly_one_response
    (event : LifecycleEvent) (st : state W) :
  exists body,
    (make_body event st).1 = Ret body
    /\ sent (lambda_handler event st).2
       = (sent st ++ [delivery event body])%list
    /\ put_url (delivery event body) = ResponseURL event
    /\ put_data (delivery event body) = json_dumps body
    /\ put_headers (delivery event body)
       = [("Content-Type", VStr "");
          ("Content-Length",
           VStr (str_of_Z
                   (Z.of_nat (String.length (json_dumps body)))))]
    /\ od_mem "PhysicalResourceId" body = true.
Proof.
  assert (Hbody : exists body st1,
             make_body event st = (Ret body, st1)
             /\ od_mem "PhysicalResourceId" body = true).
  { destruct (handlers_get (ResourceType event) handlers) as [handler|]
      eqn:Hget.
    - destruct (handler event st) as [o st1] eqn:Hrun.
      rewrite (make_body_run _ _ _ _ _ Hget Hrun).
      match goal with
      | |- context [with_physical_resource_id ?b ?s] =>
          destruct (with_physical_resource_id_run b s)
            as (body & st2 & -> & _ & _ & _ & Hid)
      end.
      now exists body, st2.
    - rewrite (make_body_unknown _ _ Hget).
      match goal with
      | |- context [with_physical_resource_id ?b ?s] =>
          destruct (with_physical_resource_id_run b s)
            as (body & st2 & -> & _ & _ & _ & Hid)
      end.
      now exists body, st2. }
  destruct Hbody as (body & st1 & Hmake & Hid).
  exists body. split; [now rewrite Hmake |].
  split; [| now repeat split].
  pose proof (sn_make_body event st) as Hsent.
  rewrite Hmake in Hsent. simpl in Hsent.
  rewrite (lambda_handler_run _ _ _ _ Hmake). unfold deliver.
  destruct (requests_put (delivery event body) (world st1)) as [o w].
  simpl. now rewrite Hsent.
Qed.

End SendsHandlers.

(** ** The envelope *)

Section Envelope.
Context {W builder : Type} {C : Collaborators W builder}.

Local Abbreviation M := (StateExn (state W)).

Lemma handlers_get_resource_types resource_type :
  handlers_get resource_type (handlers (W:=W)) = None
  <-> ~ In resource_type resource_types.
Proof.
  unfold handlers, resource_types. cbn [handlers_get In].
  repeat match goal with
         | |- context [String.eqb resource_type ?s] =>
             destruct (String.eqb_spec resource_type s)
         end;
    intuition congruence.
Qed.

Lemma od_get_del_ne k k' d :
  k <> k' -> od_get k (od_del k' d) = od_get k d.
Proof.
  intros Hne. induction d as [|[k2 v2] d IH]; simpl; [reflexivity |].
  destruct (String.eqb k' k2) eqn:E; simpl.
  - apply String.eqb_eq in E. subst k2.
    now apply String.eqb_neq in Hne as ->.
  - now rewrite IH.
Qed.

Lemma with_physical_resource_id_present body v (st : state W) :
  od_get "PhysicalResourceId" body = Some v ->
  with_physical_resource_id body st = (Ret body, st).
Proof.
  intros H. unfold with_physical_resource_id, od_mem. now rewrite H.
Qed.

Lemma with_physical_resource_id_absent body (st : state W) :
  od_get "PhysicalResourceId" body = None ->
  with_physical_resource_id body st
  = (Ret (od_set "PhysicalResourceId" (VStr (uuid4 (world st)).1) body),
     State (heap st) (uuid4 (world st)).2 (sent st)).
Proof.
  intros H. unfold with_physical_resource_id, od_mem. rewrite H.
  unfold bind, call_total, ret. simpl.
  now destruct (uuid4 (world st)).
Qed.

(** The identifier of the envelope before the last step: that of the
    handler's data, else that of the event. *)
Lemma success_body_physical_resource_id data event :
  od_get "PhysicalResourceId" (success_body data (initial_body event))
  = match od_get "PhysicalResourceId" (default [] data) with
    | Some p => Some p
    | None => option_map VStr (PhysicalResourceId event)
    end.
Proof.
  unfold success_body, initial_body.
  destruct (od_get "PhysicalResourceId" (default [] data));
    destruct (PhysicalResourceId event); reflexivity.
Qed.

Lemma failure_body_physical_resource_id e event :
  od_get "PhysicalResourceId" (failure_body e (initial_body event))
  = option_map VStr (PhysicalResourceId event).
Proof.
  unfold failure_body, initial_body.
  destruct (PhysicalResourceId event); reflexivity.
Qed.

(** X2.  An event whose [ResourceType] is none of the five registered
    types runs no handler: the envelope has [Status] [FAILED], the
    [Reason] [Unknown resource type] followed by the type, and no
    [Data]; the store is as it was, and the envelope is sent. *)
Theorem unknown_resource_type_reported
    (event : LifecycleEvent) (st : state W) :
  ~ In (ResourceType event) resource_types ->
  exists body st1,
    make_body event st = (Ret body, st1)
    /\ heap st1 = heap st
    /\ od_get "Status" body = Some (VStr "FAILED")
    /\ od_get "Reason" body
       = Some (VStr ("Unknown resource type " +:+ ResourceType event))
    /\ od_get "Data" body = None
    /\ od_get "StackId" body = Some (VStr (StackId event))
    /\ od_get "RequestId" body = Some (VStr (RequestId event))
    /\ od_get "LogicalResourceId" body
       = Some (VStr (LogicalResourceId event))
    /\ lambda_handler event st = deliver event body st1
    /\ sent (lambda_handler event st).2
       = (sent st ++ [delivery event body])%list.
Proof.
  intros Hunknown. apply handlers_get_resource_types in Hunknown.
  pose proof (make_body_unknown event st Hunknown) as Hmake.
  set (e := Exn [] ("Unknown resource type " +:+ ResourceType event))
    in Hmake.
  destruct (with_physical_resource_id_run
              (failure_body e (initial_body event)) st)
    as (body & st1 & Hwith & Hheap & Hsent & Hkeep & _).
  rewrite Hwith in Hmake.
  destruct (failure_body_fields e event)
    as (Hstatus & Hreason & Hdata & Hstack & Hrequest & Hlogical).
  pose proof (lambda_handler_run _ _ _ _ Hmake) as Hlam.
  exists body, st1.
  split; [exact Hmake |]. split; [exact Hheap |].
  split; [rewrite Hkeep by discriminate; exact Hstatus |].
  split; [rewrite Hkeep by discriminate; exact Hreason |].
  split; [rewrite Hkeep by discriminate; exact Hdata |].
  split; [rewrite Hkeep by discriminate; exact Hstack |].
  split; [rewrite Hkeep by discriminate; exact Hrequest |].
  split; [rewrite Hkeep by discriminate; exact Hlogical |].
  split; [exact Hlam |].
  rewrite Hlam. unfold deliver.
  destruct (requests_put (delivery event body) (world st1)) as [o w].
  simpl. now rewrite Hsent.
Qed.

(** X3.  When the handler registered for the event's resource type
    returns [data], the envelope has [Status] [SUCCESS] and no [Reason],
    it carries the event's [StackId], [RequestId] and
    [LogicalResourceId], and its [Data] is the handler's mapping ([{}]
    for [None]) from which a [PhysicalResourceId] has been taken out. *)
Theorem handler_result_becomes_success_envelope
    (event : LifecycleEvent)
    (handler : LifecycleEvent -> StateExn (state W) (option odict))
    (st st1 : state W) (data : option odict) :
  handlers_get (ResourceType event) handlers = Some handler ->
  handler event st = (Ret data, st1) ->
  exists body st2,
    make_body event st = (Ret body, st2)
    /\ heap st2 = heap st1
    /\ od_get "Status" body = Some (VStr "SUCCESS")
    /\ od_get "Reason" body = None
    /\ od_get "StackId" body = Some (VStr (StackId event))
    /\ od_get "RequestId" body = Some (VStr (RequestId event))
    /\ od_get "LogicalResourceId" body
       = Some (VStr (LogicalResourceId event))
    /\ (exists kept,
          od_get "Data" body = Some (VDict kept)
          /\ (forall k, k <> "PhysicalResourceId" ->
                        od_get k kept = od_get k (default [] data))
          /\ (od_get "PhysicalResourceId" (default [] data) = None ->
              kept = default [] data)
          /\ (forall p,
                od_get "PhysicalResourceId" (default [] data) = Some p ->
                kept = od_del "PhysicalResourceId" (default [] data)
                /\ od_get "PhysicalResourceId" body = Some p))
    /\ lambda_handler event st = deliver event body st2.
Proof.
  intros Hget Hrun.
  pose proof (make_body_run _ _ _ _ _ Hget Hrun) as Hmake. simpl in Hmake.
  destruct (with_physical_resource_id_run
              (success_body data (initial_body event)) st1)
    as (body & st2 & Hwith & Hheap & _ & Hkeep & _).
  pose proof Hwith as Hwith'.
  rewrite Hwith in Hmake.
  exists body, st2.
  split; [exact Hmake |]. split; [exact Hheap |].
  assert (Hfields :
            od_get "Status" (success_body data (initial_body event))
            = Some (VStr "SUCCESS")
            /\ od_get "Reason" (success_body data (initial_body event))
               = None
            /\ od_get "StackId" (success_body data (initial_body event))
               = Some (VStr (StackId event))
            /\ od_get "RequestId" (success_body data (initial_body event))
               = Some (VStr (RequestId event))
            /\ od_get "LogicalResourceId"
                 (success_body data (initial_body event))
               = Some (VStr (LogicalResourceId event))).
  { unfold success_body, initial_body.
    destruct (od_get "PhysicalResourceId" (default [] data));
      destruct (PhysicalResourceId event); now repeat split. }
  destruct Hfields as (Hstatus & Hreason & Hstack & Hrequest & Hlogical).
  split; [rewrite Hkeep by discriminate; exact Hstatus |].
  split; [rewrite Hkeep by discriminate; exact Hreason |].
  split; [rewrite Hkeep by discriminate; exact Hstack |].
  split; [rewrite Hkeep by discriminate; exact Hrequest |].
  split; [rewrite Hkeep by discriminate; exact Hlogical |].
  split; [| now apply lambda_handler_run].
  destruct (od_get "PhysicalResourceId" (default [] data)) as [p|] eqn:Hp.
  - exists (od_del "PhysicalResourceId" (default [] data)).
    split.
    + rewrite Hkeep by discriminate. unfold success_body, initial_body.
      rewrite Hp. now destruct (PhysicalResourceId event).
    + split; [intros k Hk; now apply od_get_del_ne |].
      split; [discriminate |].
      intros p' [= <-]. split; [reflexivity |].
      assert (Hid : od_get "PhysicalResourceId"
                      (success_body data (initial_body event)) = Some p).
      { rewrite success_body_physical_resource_id. now rewrite Hp. }
      rewrite (with_physical_resource_id_present _ _ _ Hid) in Hwith'.
      now inversion Hwith'; subst.
  - exists (default [] data).
    split.
    + rewrite Hkeep by discriminate. unfold success_body, initial_body.
      rewrite Hp. now destruct (PhysicalResourceId event).
    + split; [reflexivity |]. split; [reflexivity |]. discriminate.
Qed.

(** X4.  The [PhysicalResourceId] of the envelope is the one in the
    handler's data when there is one, else the one of the event when it
    has one, else a new identifier from [uuid4]; [uuid4] is called in the
    last case only. *)
Theorem physical_resource_id_precedence
    (event : LifecycleEvent)
    (handler : LifecycleEvent -> StateExn (state W) (option odict))
    (st st1 : state W) (o : outcome (option odict)) :
  handlers_get (ResourceType event) handlers = Some handler ->
  handler event st = (o, st1) ->
  exists body st2,
    make_body event st = (Ret body, st2)
    /\ match match o with
             | Ret data => od_get "PhysicalResourceId" (default [] data)
             | Raise _ => None
             end, PhysicalResourceId event with
       | Some p, _ =>
           od_get "PhysicalResourceId" body = Some p /\ st2 = st1
       | None, Some p =>
           od_get "PhysicalResourceId" body = Some (VStr p) /\ st2 = st1
       | None, None =>
           od_get "PhysicalResourceId" body
           = Some (VStr (uuid4 (world st1)).1)
           /\ st2 = State (heap st1) (uuid4 (world st1)).2 (sent st1)
       end.
Proof.
  intros Hget Hrun.
  rewrite (make_body_run _ _ _ _ _ Hget Hrun).
  set (b := match o with
            | Ret data => success_body data (initial_body event)
            | Raise e => failure_body e (initial_body event)
            end).
  assert (Hb : od_get "PhysicalResourceId" b
               = match match o with
                       | Ret data =>
                           od_get "PhysicalResourceId" (default [] data)
                       | Raise _ => None
                       end with
                 | Some p => Some p
                 | None => option_map VStr (PhysicalResourceId event)
                 end).
  { unfold b. destruct o as [data|e].
    - apply success_body_physical_resource_id.
    - apply failure_body_physical_resource_id. }
  destruct (match o with
            | Ret data => od_get "PhysicalResourceId" (default [] data)
            | Raise _ => None
            end) as [p|].
  - rewrite (with_physical_resource_id_present _ _ _ Hb). eauto.
  - destruct (PhysicalResourceId event) as [p|]; simpl in Hb.
    + rewrite (with_physical_resource_id_present _ _ _ Hb). eauto.
    + rewrite (with_physical_resource_id_absent _ _ Hb).
      eexists _, _. split; [reflexivity |].
      split; [apply od_get_set_eq | reflexivity].
Qed.

End Envelope.

(** ** Custom::ApiGatewayBinary *)

Section ApiGatewayBinary.
Context {W builder : Type} {C : Collaborators W builder}.

Local Abbreviation M := (StateExn (state W)).

Lemma call_step {A B} (op : W -> outcome A * W) (k : A -> M B)
    (st : state W) a w :
  op (world st) = (Ret a, w) ->
  bind (call op) k st = k a (State (heap st) w (sent st)).
Proof.
  intros H. apply bind_ret_run. unfold call. now rewrite H.
Qed.

(** [api_gateway_binary] once the client is made and the REST API
    looked up. *)
Lemma api_gateway_binary_run event (st : state W) d rest_api_id w1 info
    w2 :
  boto3_client "apigateway" (world st) = (Ret tt, w1) ->
  heap st !! ResourceProperties event = Some d ->
  d !! "RestApiId" = Some rest_api_id ->
  get_rest_api rest_api_id w1 = (Ret info, w2) ->
  api_gateway_binary event st
  = ((if in_create_update (RequestType event) then
        if negb (binary_enabled info) then
          call (update_rest_api rest_api_id "add"
                  "/binaryMediaTypes/*~1*")
        else ret tt
      else if String.eqb (RequestType event) "Delete" then
        if binary_enabled info then
          call (update_rest_api rest_api_id "remove"
                  "/binaryMediaTypes/*~1*")
        else ret tt
      else ret tt) ;;;
     ret None) (State (heap st) w2 (sent st)).
Proof.
  intros Hclient Hd Hid Hinfo. unfold api_gateway_binary.
  rewrite (call_step _ _ _ _ _ Hclient).
  erewrite (bind_ret_run (dict_getitem _ _));
    [| apply (dict_getitem_run _ _ d); [exact Hd | exact Hid]].
  now rewrite (call_step _ _ (State (heap st) w1 (sent st)) _ _ Hinfo).
Qed.

(** X5.  [api_gateway_binary] changes nothing that is already as asked:
    for a Create or Update request on a REST API whose binary media types
    include [*/*], for a Delete request on one whose types do not, and
    for any other request type, it returns [None] after the lookup
    without a call of [update_rest_api]. *)
Theorem api_gateway_binary_is_idempotent
    (event : LifecycleEvent) (st : state W) (d : gmap string pyval)
    (rest_api_id : pyval) (w1 w2 : W) (info : option (list string)) :
  boto3_client "apigateway" (world st) = (Ret tt, w1) ->
  heap st !! ResourceProperties event = Some d ->
  d !! "RestApiId" = Some rest_api_id ->
  get_rest_api rest_api_id w1 = (Ret info, w2) ->
  (in_create_update (RequestType event) = true
   /\ binary_enabled info = true)
  \/ (RequestType event = "Delete" /\ binary_enabled info = false)
  \/ (in_create_update (RequestType event) = false
      /\ RequestType event <> "Delete") ->
  api_gateway_binary event st = (Ret None, State (heap st) w2 (sent st)).
Proof.
  intros Hclient Hd Hid Hinfo Hcase.
  rewrite (api_gateway_binary_run _ _ _ _ _ _ _ Hclient Hd Hid Hinfo).
  destruct Hcase as [[Hreq Hon] | [[Hreq Hoff] | [Hreq Hne]]].
  - now rewrite Hreq, Hon.
  - now rewrite Hreq, Hoff.
  - rewrite Hreq. apply String.eqb_neq in Hne. now rewrite Hne.
Qed.

(** X6.  When the REST API is not as asked, [api_gateway_binary] sends
    one patch of the path [/binaryMediaTypes/*~1*]: the operation [add]
    for a Create or Update request on an API without [*/*], the
    operation [remove] for a Delete request on an API with it.  It
    returns [None] when the patch is accepted and raises what
    [update_rest_api] raises. *)
Theorem api_gateway_binary_patches_media_types
    (event : LifecycleEvent) (st : state W) (d : gmap string pyval)
    (rest_api_id : pyval) (w1 w2 w3 : W) (info : option (list string))
    (op : string) (o : outcome unit) :
  boto3_client "apigateway" (world st) = (Ret tt, w1) ->
  heap st !! ResourceProperties event = Some d ->
  d !! "RestApiId" = Some rest_api_id ->
  get_rest_api rest_api_id w1 = (Ret info, w2) ->
  (in_create_update (RequestType event) = true
   /\ binary_enabled info = false /\ op = "add")
  \/ (RequestType event = "Delete"
      /\ binary_enabled info = true /\ op = "remove") ->
  update_rest_api rest_api_id op "/binaryMediaTypes/*~1*" w2 = (o, w3) ->
  api_gateway_binary event st
  = (match o with Ret _ => Ret None | Raise e => Raise e end,
     State (heap st) w3 (sent st)).
Proof.
  intros Hclient Hd Hid Hinfo Hcase Hpatch.
  rewrite (api_gateway_binary_run _ _ _ _ _ _ _ Hclient Hd Hid Hinfo).
  destruct Hcase as [(Hreq & Hoff & ->) | (Hreq & Hon & ->)].
  - rewrite Hreq, Hoff. cbn [negb]. unfold bind, call. simpl.
    rewrite Hpatch. now destruct o.
  - rewrite Hreq, Hon. cbn [in_create_update String.eqb]. simpl.
    unfold bind, call. simpl. rewrite Hpatch. now destruct o.
Qed.

(** X7.  Whatever the request type, [api_gateway_binary] needs the
    property [RestApiId]: without it the handler raises the [KeyError] of
    the missing key once the client is made, before any REST API is
    looked up. *)
Theorem api_gateway_binary_requires_rest_api_id
    (event : LifecycleEvent) (st : state W) (d : gmap string pyval)
    (w1 : W) :
  boto3_client "apigateway" (world st) = (Ret tt, w1) ->
  heap st !! ResourceProperties event = Some d ->
  d !! "RestApiId" = None ->
  api_gateway_binary event st
  = (Raise (KeyError (repr (VStr "RestApiId"))),
     State (heap st) w1 (sent st)).
Proof.
  intros Hclient Hd Hid. unfold api_gateway_binary.
  rewrite (call_step _ _ _ _ _ Hclient).
  apply bind_raise_run.
  now apply (dict_getitem_missing _ _ d).
Qed.

End ApiGatewayBinary.

(** ** Custom::GeneratePassword *)

(** The read of a key that is there, at the head of a computation. *)
Ltac getitem H :=
  erewrite (bind_ret_run (dict_getitem _ _));
  [| eapply dict_getitem_run; [heap_fact | exact H]].

Section GeneratePassword.
Context {W builder : Type} {C : Collaborators W builder}.

Local Abbreviation M := (StateExn (state W)).

Lemma bind_bind {A B D} (m : M A) (f : A -> M B) (g : B -> M D) st :
  bind (bind m f) g st = bind m (fun a => bind (f a) g) st.
Proof. unfold bind. now destruct (m st) as [[a|e] st1]. Qed.

Lemma bind_ret_l {A B} (a : A) (f : A -> M B) st :
  bind (ret a) f st = f a st.
Proof. reflexivity. Qed.

Lemma cn_ret {A} (a : A) : changes_nothing (W:=W) (ret a).
Proof. now intros st. Qed.

Lemma cn_raise {A} e : changes_nothing (W:=W) (A:=A) (raise e).
Proof. now intros st. Qed.

Lemma cn_bind {A B} (m : M A) (f : A -> M B) :
  changes_nothing m -> (forall a, changes_nothing (f a)) ->
  changes_nothing (bind m f).
Proof.
  intros Hm Hf st. unfold bind.
  specialize (Hm st). destruct (m st) as [[a|e] st1]; simpl in *; subst.
  - apply Hf.
  - reflexivity.
Qed.

Lemma cn_load l : changes_nothing (W:=W) (load l).
Proof. intros st. unfold load. now destruct (heap st !! l). Qed.

Lemma cn_dict_contains rp k : changes_nothing (W:=W) (dict_contains rp k).
Proof.
  unfold dict_contains. apply cn_bind; [apply cn_load | intros; apply cn_ret].
Qed.

Lemma cn_dict_getitem rp k : changes_nothing (dict_getitem rp k).
Proof.
  unfold dict_getitem. apply cn_bind; [apply cn_load | intros d].
  destruct (d !! k); [apply cn_ret | apply cn_raise].
Qed.

(** One step of a proof that a computation changes nothing. *)
Local Ltac cn_step :=
  match goal with
  | |- changes_nothing (bind _ _) => apply cn_bind; [| intros]
  | |- changes_nothing (match ?x with _ => _ end) => destruct x
  | |- changes_nothing _ =>
      first [ apply cn_ret | apply cn_raise | apply cn_dict_contains
            | apply cn_dict_getitem ]
  end.

Lemma handle_genphrase_properties_read_only rp kw :
  changes_nothing (handle_genphrase_properties rp kw).
Proof. unfold handle_genphrase_properties. repeat cn_step. Qed.

Lemma handle_genword_properties_read_only rp kw :
  changes_nothing (handle_genword_properties rp kw).
Proof. unfold handle_genword_properties. repeat cn_step. Qed.

(** X8.  [handle_genphrase_properties] refuses the properties of the
    other generator and an ambiguous word list: [Chars], then [Charset],
    then [Words] together with [Wordset], in this order of
    precedence. *)
Theorem genphrase_rejects_word_properties
    (rp : loc) (kw : odict) (st : state W) (d : gmap string pyval) :
  heap st !! rp = Some d ->
  (is_Some (d !! "Chars") ->
   handle_genphrase_properties rp kw st
   = (Raise (ValueError
        ("Chars cannot be specified when PasswordType is "
         +:+ dq +:+ "phrase" +:+ dq)), st))
  /\ (d !! "Chars" = None -> is_Some (d !! "Charset") ->
      handle_genphrase_properties rp kw st
      = (Raise (ValueError
           ("Charset cannot be specified when PasswordType is "
            +:+ dq +:+ "phrase" +:+ dq)), st))
  /\ (d !! "Chars" = None -> d !! "Charset" = None ->
      is_Some (d !! "Wordset") -> is_Some (d !! "Words") ->
      handle_genphrase_properties rp kw st
      = (Raise (ValueError "Words and Wordset are mutually exclusive"),
         st)).
Proof.
  intros Hd. unfold handle_genphrase_properties. run.
  split; [| split].
  - intros [v ->]. reflexivity.
  - intros -> [v Hv]. run. now rewrite Hv.
  - intros -> Hcharset [v Hv] [v' Hv']. run. rewrite Hcharset. run.
    now rewrite Hv, Hv'.
Qed.

(** X9.  When [handle_genphrase_properties] refuses nothing, the
    keywords it adds to an empty dictionary are the properties
    [Wordset], [Words] and [Separator] under the names [wordset],
    [words] and [sep], each present exactly when the property is, and
    nothing else; the properties are only read. *)
Theorem genphrase_keywords
    (rp : loc) (st : state W) (d : gmap string pyval) :
  heap st !! rp = Some d ->
  d !! "Chars" = None ->
  d !! "Charset" = None ->
  d !! "Wordset" = None \/ d !! "Words" = None ->
  exists kw,
    handle_genphrase_properties rp [] st = (Ret kw, st)
    /\ od_get "wordset" kw = d !! "Wordset"
    /\ od_get "words" kw = d !! "Words"
    /\ od_get "sep" kw = d !! "Separator"
    /\ (forall k, k <> "wordset" -> k <> "words" -> k <> "sep" ->
                  od_get k kw = None).
Proof.
  intros Hd Hchars Hcharset Hone.
  unfold handle_genphrase_properties. run. rewrite Hchars. run.
  rewrite Hcharset. run.
  destruct (d !! "Wordset") as [wordset|] eqn:Hwordset;
    destruct (d !! "Words") as [words|] eqn:Hwords;
    try (destruct Hone; discriminate);
    rewrite ?bind_bind; try getitem Hwordset; try getitem Hwords;
    rewrite ?bind_ret_l; run;
    (destruct (d !! "Separator") as [sep|] eqn:Hsep;
     [getitem Hsep |]);
    (eexists; split; [reflexivity |]);
    (split; [reflexivity |]); (split; [reflexivity |]);
    (split; [reflexivity |]);
    intros k H1 H2 H3; apply String.eqb_neq in H1, H2, H3;
    simpl; now rewrite ?H1, ?H2, ?H3.
Qed.

(** X10.  [handle_genword_properties] refuses the properties of the
    other generator and an ambiguous character set: [Words], then
    [Wordset], then [Chars] together with [Charset], then [Separator],
    in this order of precedence. *)
Theorem genword_rejects_phrase_properties
    (rp : loc) (kw : odict) (st : state W) (d : gmap string pyval) :
  heap st !! rp = Some d ->
  (is_Some (d !! "Words") ->
   handle_genword_properties rp kw st
   = (Raise (ValueError
        ("Words cannot be specified when PasswordType is "
         +:+ dq +:+ "word" +:+ dq)), st))
  /\ (d !! "Words" = None -> is_Some (d !! "Wordset") ->
      handle_genword_properties rp kw st
      = (Raise (ValueError
           ("Wordset cannot be specified when PasswordType is "
            +:+ dq +:+ "word" +:+ dq)), st))
  /\ (d !! "Words" = None -> d !! "Wordset" = None ->
      is_Some (d !! "Charset") -> is_Some (d !! "Chars") ->
      handle_genword_properties rp kw st
      = (Raise (ValueError "Chars and Charset are mutually exclusive"),
         st))
  /\ (d !! "Words" = None -> d !! "Wordset" = None ->
      d !! "Charset" = None \/ d !! "Chars" = None ->
      is_Some (d !! "Separator") ->
      handle_genword_properties rp kw st
      = (Raise (ValueError
           ("Separator cannot be specified when PasswordType is "
            +:+ dq +:+ "word" +:+ dq)), st)).
Proof.
  intros Hd. unfold handle_genword_properties. run.
  split; [| split; [| split]].
  - intros [v ->]. reflexivity.
  - intros -> [v Hv]. run. now rewrite Hv.
  - intros -> Hwordset [v Hv] [v' Hv']. run. rewrite Hwordset. run.
    now rewrite Hv, Hv'.
  - intros -> Hwordset Hone [sep Hsep]. run. rewrite Hwordset. run.
    destruct (d !! "Charset") as [charset|] eqn:Hcharset;
      destruct (d !! "Chars") as [chars|] eqn:Hchars;
      try (destruct Hone; discriminate);
      rewrite ?bind_bind; try getitem Hcharset; try getitem Hchars;
      rewrite ?bind_ret_l; run; now rewrite Hsep.
Qed.

(** X11.  When [handle_genword_properties] refuses nothing, the keywords
    it adds to an empty dictionary are the properties [Charset] and
    [Chars] under the names [charset] and [chars], each present exactly
    when the property is, and nothing else; the properties are only
    read. *)
Theorem genword_keywords
    (rp : loc) (st : state W) (d : gmap string pyval) :
  heap st !! rp = Some d ->
  d !! "Words" = None ->
  d !! "Wordset" = None ->
  d !! "Separator" = None ->
  d !! "Charset" = None \/ d !! "Chars" = None ->
  exists kw,
    handle_genword_properties rp [] st = (Ret kw, st)
    /\ od_get "charset" kw = d !! "Charset"
    /\ od_get "chars" kw = d !! "Chars"
    /\ (forall k, k <> "charset" -> k <> "chars" -> od_get k kw = None).
Proof.
  intros Hd Hwords Hwordset Hsep Hone.
  unfold handle_genword_properties. run. rewrite Hwords. run.
  rewrite Hwordset. run.
  destruct (d !! "Charset") as [charset|] eqn:Hcharset;
    destruct (d !! "Chars") as [chars|] eqn:Hchars;
    try (destruct Hone; discriminate);
    rewrite ?bind_bind; try getitem Hcharset; try getitem Hchars;
    rewrite ?bind_ret_l; run; rewrite Hsep;
    (eexists; split; [reflexivity |]);
    (split; [reflexivity |]); (split; [reflexivity |]);
    intros k H1 H2; apply String.eqb_neq in H1, H2;
    simpl; now rewrite ?H1, ?H2.
Qed.

(** X12.  A [PasswordType] other than the strings [word] and [phrase] is
    refused by [generate_password] with an error that shows it; no
    generator is called. *)
Theorem generate_password_rejects_other_types
    (event : LifecycleEvent) (st : state W) (d : gmap string pyval)
    (password_type : pyval) :
  RequestType event = "Create" \/ RequestType event = "Update" ->
  heap st !! ResourceProperties event = Some d ->
  d !! "PasswordType" = Some password_type ->
  password_type <> VStr "word" ->
  password_type <> VStr "phrase" ->
  generate_password event st
  = (Raise (ValueError
       ("PasswordType must be " +:+ dq +:+ "word" +:+ dq +:+ " or "
        +:+ dq +:+ "phrase" +:+ dq +:+ ": " +:+ repr password_type)),
     set_dict st (fresh (dom (heap st))) d).
Proof.
  intros Hreq Hd Htype Hword Hphrase. apply create_or_update in Hreq.
  unfold generate_password. rewrite Hreq. cbn [negb]. run.
  rewrite Htype. cbn [default from_option id].
  assert (H1 : str_eq "phrase" password_type = false).
  { destruct password_type; try reflexivity. unfold str_eq.
    apply String.eqb_neq. congruence. }
  assert (H2 : str_eq "word" password_type = false).
  { destruct password_type; try reflexivity. unfold str_eq.
    apply String.eqb_neq. congruence. }
  now rewrite H1, H2.
Qed.

(** [generate_password] once the keywords of the generator are known. *)
Lemma generate_password_run event (st : state W) d (phrase : bool) kw :
  RequestType event = "Create" \/ RequestType event = "Update" ->
  heap st !! ResourceProperties event = Some d ->
  default (VStr "word") (d !! "PasswordType")
  = VStr (if phrase then "phrase" else "word") ->
  let rp := fresh (dom (heap st)) in
  ((if phrase then handle_genphrase_properties rp []
    else handle_genword_properties rp []) (set_dict st rp d)).1
  = Ret kw ->
  generate_password event st
  = (let generator := if phrase then genphrase else genword in
     entropy <- dict_get rp "Entropy" VNone ;;
     kw <-
       (match entropy with
        | VNone => ret kw
        | _ =>
            if negb (is_int entropy) then
              raise (ValueError
                ("Entropy must be an integer: " +:+ repr entropy))
            else ret (od_set "entropy" entropy kw)
        end) ;;
     password <- call (generator kw) ;;
     encryption_key <- dict_get rp "EncryptionKey" VNone ;;
     match encryption_key with
     | VNone => ret (Some [("PlaintextPassword", VStr password)])
     | _ =>
         encryption_context <-
           dict_get rp "EncryptionContext" (VDict []) ;;
         call (boto3_client "kms") ;;;
         blob <- call (kms_encrypt encryption_key encryption_context
                         (encode_utf8 password)) ;;
         ret (Some [("CiphertextBase64Password", VStr (b64encode blob))])
     end) (set_dict st rp d).
Proof.
  intros Hreq Hd Htype rp Hkw. apply create_or_update in Hreq.
  unfold generate_password. rewrite Hreq. cbn [negb]. run. fold rp.
  rewrite Htype.
  destruct phrase.
  - pose proof (handle_genphrase_properties_read_only rp []
                  (set_dict st rp d)) as Hst.
    destruct (handle_genphrase_properties rp [] (set_dict st rp d))
      as [o st1] eqn:Hrun.
    simpl in Hkw, Hst. subst o st1.
    cbn [str_eq String.eqb Ascii.eqb Bool.eqb].
    unfold bind at 1. unfold bind at 1. rewrite Hrun.
    unfold ret at 1. cbv beta iota. run. reflexivity.
  - pose proof (handle_genword_properties_read_only rp []
                  (set_dict st rp d)) as Hst.
    destruct (handle_genword_properties rp [] (set_dict st rp d))
      as [o st1] eqn:Hrun.
    simpl in Hkw, Hst. subst o st1.
    cbn [str_eq String.eqb Ascii.eqb Bool.eqb].
    unfold bind at 1. unfold bind at 1. rewrite Hrun.
    unfold ret at 1. cbv beta iota. run. reflexivity.
Qed.

(** X13.  An [Entropy] that is not an integer (and not [None]) is
    refused by [generate_password] with an error that shows it, after
    the properties of the generator have been accepted and before the
    generator is called. *)
Theorem entropy_must_be_an_integer
    (event : LifecycleEvent) (st : state W) (d : gmap string pyval)
    (phrase : bool) (kw : odict) (entropy : pyval) :
  RequestType event = "Create" \/ RequestType event = "Update" ->
  heap st !! ResourceProperties event = Some d ->
  default (VStr "word") (d !! "PasswordType")
  = VStr (if phrase then "phrase" else "word") ->
  let rp := fresh (dom (heap st)) in
  ((if phrase then handle_genphrase_properties rp []
    else handle_genword_properties rp []) (set_dict st rp d)).1
  = Ret kw ->
  d !! "Entropy" = Some entropy ->
  entropy <> VNone ->
  is_int entropy = false ->
  generate_password event st
  = (Raise (ValueError ("Entropy must be an integer: " +:+ repr entropy)),
     set_dict st rp d).
Proof.
  intros Hreq Hd Htype rp Hkw Hentropy Hnone Hint.
  rewrite (generate_password_run _ _ _ phrase kw Hreq Hd Htype Hkw).
  fold rp. cbv zeta. run. rewrite Hentropy. cbn [default from_option id].
  destruct entropy; try contradiction; try discriminate; reflexivity.
Qed.

(** X14.  Without an [EncryptionKey], [generate_password] returns the
    password the generator made as [PlaintextPassword] and nothing else;
    the generator is called with the keywords of the properties and,
    when [Entropy] is given, with it as [entropy]; KMS is not called. *)
Theorem generate_password_returns_plaintext
    (event : LifecycleEvent) (st : state W) (d : gmap string pyval)
    (phrase : bool) (kw : odict) (password : string) (w1 : W) :
  RequestType event = "Create" \/ RequestType event = "Update" ->
  heap st !! ResourceProperties event = Some d ->
  default (VStr "word") (d !! "PasswordType")
  = VStr (if phrase then "phrase" else "word") ->
  let rp := fresh (dom (heap st)) in
  ((if phrase then handle_genphrase_properties rp []
    else handle_genword_properties rp []) (set_dict st rp d)).1
  = Ret kw ->
  is_int (default (VInt 0) (d !! "Entropy")) = true
  \/ d !! "Entropy" = Some VNone ->
  (if phrase then genphrase else genword)
    (match d !! "Entropy" with
     | None | Some VNone => kw
     | Some entropy => od_set "entropy" entropy kw
     end) (world st) = (Ret password, w1) ->
  default VNone (d !! "EncryptionKey") = VNone ->
  generate_password event st
  = (Ret (Some [("PlaintextPassword", VStr password)]),
     State (<[rp := d]> (heap st)) w1 (sent st)).
Proof.
  intros Hreq Hd Htype rp Hkw Hentropy Hgen Hkey.
  rewrite (generate_password_run _ _ _ phrase kw Hreq Hd Htype Hkw).
  fold rp. cbv zeta. run.
  assert (Hkw' :
            (match default VNone (d !! "Entropy") with
             | VNone => ret kw
             | _ =>
                 if negb (is_int (default VNone (d !! "Entropy"))) then
                   raise (ValueError
                     ("Entropy must be an integer: "
                      +:+ repr (default VNone (d !! "Entropy"))))
                 else ret (od_set "entropy"
                             (default VNone (d !! "Entropy")) kw)
             end) (set_dict st rp d)
            = (Ret (match d !! "Entropy" with
                    | None | Some VNone => kw
                    | Some entropy => od_set "entropy" entropy kw
                    end), set_dict st rp d)).
  { destruct (d !! "Entropy") as [entropy|]; [| reflexivity].
    destruct Hentropy as [Hint | [= ->]]; [| reflexivity].
    cbn [default from_option id] in *. destruct entropy; try discriminate; reflexivity. }
  rewrite (bind_ret_run _ _ _ _ _ Hkw').
  rewrite (call_step _ _ (set_dict st rp d) _ _ Hgen).
  erewrite (bind_ret_run (dict_get _ _ _));
    [| apply (dict_get_run _ _ d); apply lookup_insert_eq].
  now rewrite Hkey.
Qed.


End GeneratePassword.

(** ** The scheme of Custom::HashPassword *)

Section Scheme.
Context {W builder : Type} {C : Collaborators W builder}.

Local Abbreviation M := (StateExn (state W)).

(** [get_hash_algorithm] once its two properties are popped. *)
Lemma get_hash_algorithm_run rp (st : state W) d :
  heap st !! rp = Some d ->
  get_hash_algorithm rp st
  = (allow_insecure <-
       lift (coerce_allow_insecure
               (default (VBool false) (d !! "AllowInsecure"))) ;;
     match default VNone (d !! "Scheme") with
     | VNone => raise (ValueError "Scheme must be specified")
     | VStr scheme =>
         if String.eqb scheme "" then
           raise (ValueError "Scheme cannot be empty")
         else
           match algorithms (replace_char "-" "_" scheme) with
           | None =>
               raise (ValueError
                        ("Unknown scheme " +:+ repr (VStr scheme)))
           | Some algo =>
               if negb (is_secure algo) && negb (truthy allow_insecure)
               then
                 raise (ValueError
                   ("Scheme " +:+ scheme
                    +:+ " is insecure and AllowInsecure was not specified"))
               else ret algo
           end
     | _ => raise (TypeError "Scheme must be a string")
     end)
      (set_dict st rp (delete "AllowInsecure" (delete "Scheme" d))).
Proof.
  intros Hd. unfold get_hash_algorithm. run. rewrite set_dict_set_dict.
  now rewrite lookup_delete_ne by discriminate.
Qed.

(** X16.  With an [AllowInsecure] that coerces to a truth value,
    [get_hash_algorithm] refuses a [Scheme] that is missing or [None], one
    that is not a string, the empty string, and a name that is not
    registered once its hyphens are made underscores, each with an error
    of its own; the last one shows the name as it was given. *)
Theorem get_hash_algorithm_rejects_bad_scheme
    (rp : loc) (st : state W) (d : gmap string pyval) (allow : pyval) :
  heap st !! rp = Some d ->
  coerce_allow_insecure (default (VBool false) (d !! "AllowInsecure"))
  = Ret allow ->
  (default VNone (d !! "Scheme") = VNone ->
   (get_hash_algorithm rp st).1
   = Raise (ValueError "Scheme must be specified"))
  /\ (forall v,
        d !! "Scheme" = Some v -> v <> VNone -> is_str v = false ->
        (get_hash_algorithm rp st).1
        = Raise (TypeError "Scheme must be a string"))
  /\ (d !! "Scheme" = Some (VStr "") ->
      (get_hash_algorithm rp st).1
      = Raise (ValueError "Scheme cannot be empty"))
  /\ (forall scheme,
        d !! "Scheme" = Some (VStr scheme) -> scheme <> "" ->
        algorithms (replace_char "-" "_" scheme) = None ->
        (get_hash_algorithm rp st).1
        = Raise (ValueError ("Unknown scheme " +:+ repr (VStr scheme)))).
Proof.
  intros Hd Hallow. rewrite (get_hash_algorithm_run _ _ _ Hd).
  rewrite Hallow. unfold bind, lift. cbv beta iota.
  split; [| split; [| split]].
  - now intros ->.
  - intros v -> Hnone Hstr. cbn [default from_option id].
    destruct v; try contradiction; try discriminate; reflexivity.
  - now intros ->.
  - intros scheme -> Hne Hnone. cbn [default from_option id].
    apply String.eqb_neq in Hne. now rewrite Hne, Hnone.
Qed.

(** X17.  [AllowInsecure] is coerced before [Scheme] is looked at: a
    list or a mapping is refused with a [TypeError] and a string that is
    no truth value with the error of [strtobool], whatever [Scheme] is,
    even a missing one. *)
Theorem allow_insecure_checked_before_scheme
    (rp : loc) (st : state W) (d : gmap string pyval) (v : pyval) :
  heap st !! rp = Some d ->
  d !! "AllowInsecure" = Some v ->
  (is_list_tuple_dict v = true ->
   (get_hash_algorithm rp st).1
   = Raise (TypeError "AllowInsecure must be true or false"))
  /\ (forall s e,
        v = VStr s -> strtobool s = Raise e ->
        (get_hash_algorithm rp st).1 = Raise e).
Proof.
  intros Hd Hv. rewrite (get_hash_algorithm_run _ _ _ Hd).
  rewrite Hv. cbn [default from_option id]. unfold bind, lift.
  split.
  - intros Hlist. unfold coerce_allow_insecure.
    destruct v; try discriminate; reflexivity.
  - intros s e -> Hbool. unfold coerce_allow_insecure. now rewrite Hbool.
Qed.

Lemma replace_char_empty a b s :
  replace_char a b s = "" <-> s = "".
Proof. destruct s; simpl; split; intros H; try discriminate; auto. Qed.

(** X18.  A scheme is looked up under its name with hyphens made
    underscores, so that two requests whose [Scheme]s differ in that
    only, and whose [AllowInsecure] is the same, resolve to the same
    descriptor or both fail; and a registered scheme marked secure is
    resolved whatever truth value [AllowInsecure] coerces to. *)
Theorem scheme_hyphens_are_underscores
    (rp : loc) (st1 st2 : state W) (d1 d2 : gmap string pyval)
    (scheme1 scheme2 : string) :
  heap st1 !! rp = Some d1 ->
  heap st2 !! rp = Some d2 ->
  d1 !! "Scheme" = Some (VStr scheme1) ->
  d2 !! "Scheme" = Some (VStr scheme2) ->
  replace_char "-" "_" scheme1 = replace_char "-" "_" scheme2 ->
  d1 !! "AllowInsecure" = d2 !! "AllowInsecure" ->
  (forall algo,
     (get_hash_algorithm rp st1).1 = Ret algo
     <-> (get_hash_algorithm rp st2).1 = Ret algo)
  /\ (forall algo allow,
        scheme1 <> "" ->
        algorithms (replace_char "-" "_" scheme1) = Some algo ->
        is_secure algo = true ->
        coerce_allow_insecure
          (default (VBool false) (d1 !! "AllowInsecure")) = Ret allow ->
        (get_hash_algorithm rp st1).1 = Ret algo
        /\ (get_hash_algorithm rp st2).1 = Ret algo).
Proof.
  intros Hd1 Hd2 Hs1 Hs2 Hsame Hallow.
  rewrite (get_hash_algorithm_run _ _ _ Hd1).
  rewrite (get_hash_algorithm_run _ _ _ Hd2).
  rewrite Hs1, Hs2, <- Hallow. cbn [default from_option id].
  rewrite <- Hsame.
  assert (Hempty : String.eqb scheme2 "" = String.eqb scheme1 "").
  { destruct (String.eqb_spec scheme1 "") as [-> | Hne].
    - symmetry in Hsame. apply replace_char_empty in Hsame. now subst.
    - apply String.eqb_neq. intros ->.
      apply replace_char_empty in Hsame. contradiction. }
  unfold bind, lift. rewrite Hempty.
  split.
  - intros algo.
    destruct (coerce_allow_insecure _) as [allow|e]; [| reflexivity].
    destruct (String.eqb scheme1 ""); [reflexivity |].
    destruct (algorithms _) as [algo'|]; [| split; discriminate].
    destruct (negb (is_secure algo') && negb (truthy allow));
      [split; discriminate | reflexivity].
  - intros algo allow Hne Halg Hsec Hcoerce. rewrite Hcoerce.
    apply String.eqb_neq in Hne. rewrite Hne, Halg, Hsec. now split.
Qed.

End Scheme.

(** ** The password of Custom::HashPassword *)

Section PasswordSource.
Context {W builder : Type} {C : Collaborators W builder}.

Local Abbreviation M := (StateExn (state W)).

(** [hash_password] fails as its password step fails. *)
Lemma hash_password_password_fails event (st : state W) d e st1 :
  RequestType event = "Create" \/ RequestType event = "Update" ->
  heap st !! ResourceProperties event = Some d ->
  xorb (has_key d "PlaintextPassword")
       (has_key d "CiphertextBase64Password") = true ->
  password_source (fresh (dom (heap st))) d
    (set_dict st (fresh (dom (heap st))) d) = (Raise e, st1) ->
  hash_password event st = (Raise e, st1).
Proof.
  intros Hreq Hd Hone Hpw.
  rewrite (hash_password_password_source _ _ _ Hreq Hd Hone).
  now apply bind_raise_run.
Qed.

(** X19.  A [PlaintextPassword] that is not a string is refused by
    [hash_password] with a [TypeError], before the scheme is resolved:
    whatever the other properties are. *)
Theorem plaintext_password_must_be_a_string
    (event : LifecycleEvent) (st : state W) (d : gmap string pyval)
    (v : pyval) :
  RequestType event = "Create" \/ RequestType event = "Update" ->
  heap st !! ResourceProperties event = Some d ->
  d !! "PlaintextPassword" = Some v ->
  d !! "CiphertextBase64Password" = None ->
  is_str v = false ->
  hash_password event st
  = (Raise (TypeError "PlaintextPassword must be a string"),
     set_dict st (fresh (dom (heap st))) (delete "PlaintextPassword" d)).
Proof.
  intros Hreq Hd Hv Hc Hstr.
  apply (hash_password_password_fails _ _ d); try assumption.
  - unfold has_key. now rewrite Hv, Hc.
  - unfold password_source, has_key. rewrite Hv.
    unfold handle_plaintext_password_hash_params.
    rewrite (bind_ret_run _ _ _ _ _
               (dict_pop_run _ _ _ _ _ (heap_set_dict _ _ _) Hv)).
    rewrite set_dict_set_dict. now rewrite Hstr.
Qed.

(** [handle_ciphertext_password_hash_params] once its two properties are
    popped. *)
Lemma handle_ciphertext_run rp (st : state W) d v :
  heap st !! rp = Some d ->
  d !! "CiphertextBase64Password" = Some v ->
  handle_ciphertext_password_hash_params rp st
  = (match v with
     | VStr ciphertext_b64 =>
         encryption_context <-
           (match default VNone (d !! "EncryptionContext") with
            | VNone => ret (VDict [])
            | _ =>
                if negb (is_dict
                           (default VNone (d !! "EncryptionContext")))
                then
                  raise (TypeError "EncryptionContext must be a mapping")
                else ret (default VNone (d !! "EncryptionContext"))
            end) ;;
         ciphertext <-
           try_except (lift (b64decode ciphertext_b64))
             (fun e => isinstance e "ValueError")
             (fun _ => raise (ValueError
                "Invalid base64 encoding in CiphertextBase64Password")) ;;
         try_except
           (call (boto3_client "kms") ;;;
            call (kms_decrypt ciphertext encryption_context))
           (fun _ => true)
           (fun _ => raise (ValueError
              "Unable to decrypt CiphertextBase64Password"))
     | _ => raise (TypeError "CiphertextBase64Password must be a string")
     end)
      (set_dict st rp
         (delete "EncryptionContext"
            (delete "CiphertextBase64Password" d))).
Proof.
  intros Hd Hv. unfold handle_ciphertext_password_hash_params.
  rewrite (bind_ret_run _ _ _ _ _ (dict_pop_run _ _ _ _ _ Hd Hv)).
  run. rewrite set_dict_set_dict.
  rewrite lookup_delete_ne by discriminate.
  now destruct v.
Qed.

(** X20.  The errors of the ciphertext step, in their order: a
    [CiphertextBase64Password] that is not a string, an
    [EncryptionContext] that is neither [None] nor a mapping, a text
    whose Base64 decoding raises a [ValueError], and a decryption that
    raises anything at all; the last two are replaced by errors that say
    where the failure is and nothing of its cause.  No service is called
    in the first three cases. *)
Theorem ciphertext_password_errors
    (rp : loc) (st : state W) (d : gmap string pyval) (v : pyval) :
  heap st !! rp = Some d ->
  d !! "CiphertextBase64Password" = Some v ->
  let st' := set_dict st rp
               (delete "EncryptionContext"
                  (delete "CiphertextBase64Password" d)) in
  let context := default VNone (d !! "EncryptionContext") in
  (is_str v = false ->
   handle_ciphertext_password_hash_params rp st
   = (Raise (TypeError "CiphertextBase64Password must be a string"), st'))
  /\ (forall text,
        v = VStr text ->
        (context <> VNone -> is_dict context = false ->
         handle_ciphertext_password_hash_params rp st
         = (Raise (TypeError "EncryptionContext must be a mapping"), st'))
        /\ (forall e,
              context = VNone \/ is_dict context = true ->
              b64decode text = Raise e ->
              isinstance e "ValueError" = true ->
              handle_ciphertext_password_hash_params rp st
              = (Raise (ValueError
                   "Invalid base64 encoding in CiphertextBase64Password"),
                 st'))
        /\ (forall ciphertext e w1 w2,
              context = VNone \/ is_dict context = true ->
              b64decode text = Ret ciphertext ->
              boto3_client "kms" (world st) = (Ret tt, w1) ->
              kms_decrypt ciphertext
                (if is_dict context then context else VDict []) w1
              = (Raise e, w2) ->
              handle_ciphertext_password_hash_params rp st
              = (Raise (ValueError
                   "Unable to decrypt CiphertextBase64Password"),
                 State (heap st') w2 (sent st)))).
Proof.
  intros Hd Hv st' context.
  rewrite (handle_ciphertext_run _ _ _ _ Hd Hv). fold st' context.
  split.
  - intros Hstr. destruct v; try discriminate; reflexivity.
  - intros text ->.
    assert (Hcontext :
              context = VNone \/ is_dict context = true ->
              (match context with
               | VNone => ret (VDict [])
               | _ =>
                   if negb (is_dict context) then
                     raise (TypeError
                              "EncryptionContext must be a mapping")
                   else ret context
               end) st'
              = (Ret (if is_dict context then context else VDict []),
                 st')).
    { intros [-> | Hdict]; [reflexivity |].
      destruct context; try discriminate; reflexivity. }
    split; [| split].
    + intros Hnone Hdict.
      apply bind_raise_run.
      destruct context; try contradiction; try discriminate; reflexivity.
    + intros e Hok Hdecode Hvalue.
      rewrite (bind_ret_run _ _ _ _ _ (Hcontext Hok)).
      apply bind_raise_run. unfold try_except, lift.
      now rewrite Hdecode, Hvalue.
    + intros ciphertext e w1 w2 Hok Hdecode Hclient Hdecrypt.
      rewrite (bind_ret_run _ _ _ _ _ (Hcontext Hok)).
      erewrite bind_ret_run;
        [| unfold try_except, lift; now rewrite Hdecode].
      unfold try_except, bind, call. simpl.
      rewrite Hclient. simpl. now rewrite Hdecrypt.
Qed.

(** X21.  When the text decodes and KMS decrypts the bytes under the
    [EncryptionContext] of the properties ([{}] when it is missing or
    [None]), the password of the ciphertext step is the plaintext KMS
    returns, and the step has taken [CiphertextBase64Password] and
    [EncryptionContext] out of the properties. *)
Theorem ciphertext_password_is_decrypted
    (rp : loc) (st : state W) (d : gmap string pyval)
    (text ciphertext : string) (plaintext : pyval) (w1 w2 : W) :
  heap st !! rp = Some d ->
  d !! "CiphertextBase64Password" = Some (VStr text) ->
  let context := default VNone (d !! "EncryptionContext") in
  context = VNone \/ is_dict context = true ->
  b64decode text = Ret ciphertext ->
  boto3_client "kms" (world st) = (Ret tt, w1) ->
  kms_decrypt ciphertext (if is_dict context then context else VDict [])
    w1 = (Ret plaintext, w2) ->
  handle_ciphertext_password_hash_params rp st
  = (Ret plaintext,
     State (<[rp := delete "EncryptionContext"
                      (delete "CiphertextBase64Password" d)]> (heap st))
       w2 (sent st)).
Proof.
  intros Hd Hv context Hok Hdecode Hclient Hdecrypt.
  rewrite (handle_ciphertext_run _ _ _ _ Hd Hv). fold context.
  assert (Hcontext :
            (match context with
             | VNone => ret (VDict [])
             | _ =>
                 if negb (is_dict context) then
                   raise (TypeError "EncryptionContext must be a mapping")
                 else ret context
             end)
              (set_dict st rp
                 (delete "EncryptionContext"
                    (delete "CiphertextBase64Password" d)))
            = (Ret (if is_dict context then context else VDict []),
               set_dict st rp
                 (delete "EncryptionContext"
                    (delete "CiphertextBase64Password" d)))).
  { destruct Hok as [-> | Hdict]; [reflexivity |].
    destruct context; try discriminate; reflexivity. }
  rewrite (bind_ret_run _ _ _ _ _ Hcontext).
  erewrite bind_ret_run;
    [| unfold try_except, lift; now rewrite Hdecode].
  unfold try_except, bind, call. simpl.
  rewrite Hclient. simpl. now rewrite Hdecrypt.
Qed.

(** X22.  The loop over the declared parameters of a scheme leaves alone
    what the request does not give: when none of the declared parameters
    is among the properties, no keyword is added, nothing is validated
    and the properties are as they were. *)
Theorem parse_parameters_skips_absent
    (rp : loc) (declared : list (string * HashParameter)) (kw : odict)
    (st : state W) (d : gmap string pyval) :
  heap st !! rp = Some d ->
  (forall name, In name (map fst declared) -> d !! name = None) ->
  parse_parameters rp declared kw st = (Ret kw, st).
Proof.
  intros Hd Habsent.
  induction declared as [|[name p] declared IH]; cbn [parse_parameters].
  - reflexivity.
  - run. rewrite (Habsent name) by now left. cbn [negb].
    apply IH. intros name' Hin. apply Habsent. now right.
Qed.

End PasswordSource.

(** ** The candidates of Custom::FindImage *)

Section SortingExtensionality.
Context {A K K' : Type} (ltb : K -> K -> bool) (key : A -> K)
  (ltb' : K' -> K' -> bool) (key' : A -> K').

Lemma insert_sorted_ext x l :
  (forall y, In y l -> ltb (key y) (key x) = ltb' (key' y) (key' x)) ->
  insert_sorted ltb key x l = insert_sorted ltb' key' x l.
Proof.
  induction l as [|y l IH]; intros H; simpl; [reflexivity |].
  rewrite (H y) by now left.
  destruct (ltb' (key' y) (key' x)); [| reflexivity].
  f_equal. apply IH. intros z Hz. apply H. now right.
Qed.

Lemma sort_stable_ext l :
  (forall a b, In a l -> In b l ->
               ltb (key a) (key b) = ltb' (key' a) (key' b)) ->
  sort_stable ltb key l = sort_stable ltb' key' l.
Proof.
  induction l as [|x l IH]; intros H; simpl; [reflexivity |].
  rewrite IH by (intros a b Ha Hb; apply H; now right).
  apply insert_sorted_ext. intros y Hy. apply H; [right | now left].
  eapply Permutation_in; [apply (sort_stable_Permutation ltb' key') | exact Hy].
Qed.

Lemma list_sort_ext reverse l :
  (forall a b, In a l -> In b l ->
               ltb (key a) (key b) = ltb' (key' a) (key' b)) ->
  list_sort ltb key reverse l = list_sort ltb' key' reverse l.
Proof.
  intros H. unfold list_sort. destruct reverse.
  - f_equal. apply sort_stable_ext.
    intros a b Ha Hb. apply H; now apply in_rev.
  - now apply sort_stable_ext.
Qed.

End SortingExtensionality.

Section Candidates.
Context {W builder : Type} {C : Collaborators W builder}.

Local Abbreviation M := (StateExn (state W)).

(** X23.  [find_image] needs the property [Owner]: without it a Create
    or Update request fails with an error that says so, before the
    filters are built and before EC2 is asked. *)
Theorem find_image_requires_owner
    (event : LifecycleEvent) (st : state W) (d : gmap string pyval) :
  RequestType event = "Create" \/ RequestType event = "Update" ->
  heap st !! ResourceProperties event = Some d ->
  d !! "Owner" = None ->
  find_image event st
  = (Raise (ValueError "Owner must be specified"),
     set_dict st (fresh (dom (heap st))) d).
Proof.
  intros Hreq Hd Howner. apply create_or_update in Hreq.
  unfold find_image. rewrite Hreq. cbn [negb]. run.
  apply bind_raise_run. unfold try_except.
  now rewrite (dict_getitem_missing _ _ d _ (heap_set_dict _ _ _) Howner).
Qed.

(** X24.  When EC2 answers without images, or with an empty list of
    them, [find_image] fails with the error that no image matches; the
    filter by name and description is not run. *)
Theorem find_image_no_candidates
    (event : LifecycleEvent) (st : state W) (d0 d1 : gmap string pyval)
    (owner : pyval) (filters : odict) (w1 w2 : W)
    (found : option (list image)) :
  RequestType event = "Create" \/ RequestType event = "Update" ->
  heap st !! ResourceProperties event = Some d0 ->
  d0 !! "Owner" = Some owner ->
  add_filters d0 [] = (Ret tt, d1, filters) ->
  boto3_client "ec2" (world st) = (Ret tt, w1) ->
  describe_images [owner] (to_ec2_filters filters) w1 = (Ret found, w2) ->
  found = None \/ found = Some [] ->
  find_image event st
  = (Raise (ValueError "No AMIs found that match the filters applied."),
     State (<[fresh (dom (heap st)) := d1]> (heap st)) w2 (sent st)).
Proof.
  intros Hreq Hd0 Howner Hadd Hclient Hdescribe Hfound.
  apply create_or_update in Hreq.
  unfold find_image. rewrite Hreq. cbn [negb]. run.
  set (rp := fresh (dom (heap st))).
  rewrite (bind_ret_run _ _ _ _ _
             (try_except_returns _ _ _ _ _ _
                (dict_getitem_run _ _ _ _ _ (heap_set_dict _ _ _) Howner))).
  rewrite (bind_ret_run _ _ _ _ _
             (add_filters_call_run _ _ _ _ _ _ _ (heap_set_dict _ _ _) Hadd)).
  rewrite set_dict_set_dict.
  rewrite (bind_ret_run _ _ _ _ _
             (call_run (boto3_client "ec2") (set_dict st rp d1) _ _
                Hclient)).
  rewrite (bind_ret_run _ _ _ _ _
             (call_run (describe_images [owner] (to_ec2_filters filters))
                (State (heap (set_dict st rp d1)) w1 (sent st)) _ _
                Hdescribe)).
  now destruct Hfound as [-> | ->].
Qed.

(** The keys of [images.sort] when a creation date does not parse. *)
Lemma sort_keys_fail pvt prdt (date : image -> Z) before undated after e
    (st : state W) :
  (forall i, In i before -> parse_date (CreationDate i) = Ret (date i)) ->
  parse_date (CreationDate undated) = Raise e ->
  mapM (fun image =>
          k <- lift (sort_key pvt prdt image) ;; ret (k, image))
    (before ++ undated :: after)%list st
  = (Raise e, st).
Proof.
  intros Hdates Hfail.
  induction before as [|i before IH]; cbn [mapM app].
  - apply bind_raise_run. apply bind_raise_run.
    unfold lift, sort_key. now rewrite Hfail.
  - erewrite bind_ret_run;
      [| unfold bind, lift, sort_key;
         rewrite (Hdates i) by (now left); reflexivity].
    apply bind_raise_run. apply IH.
    intros j Hj. apply Hdates. now right.
Qed.

(** X25.  A candidate whose creation date does not parse makes
    [find_image] fail with the error of [parse_date]: that of the first
    such candidate in the order of the list, wherever it would rank. *)
Theorem find_image_unparsable_date
    (event : LifecycleEvent) (st : state W)
    (d0 d1 d : gmap string pyval) (owner : pyval) (filters : odict)
    (w1 w2 : W) (found before after : list image) (undated : image)
    (date : image -> Z) (e : exn) :
  RequestType event = "Create" \/ RequestType event = "Update" ->
  heap st !! ResourceProperties event = Some d0 ->
  d0 !! "Owner" = Some owner ->
  add_filters d0 [] = (Ret tt, d1, filters) ->
  boto3_client "ec2" (world st) = (Ret tt, w1) ->
  describe_images [owner] (to_ec2_filters filters) w1
  = (Ret (Some found), w2) ->
  found <> [] ->
  filter_names_and_descriptions found d1
  = (Ret (before ++ undated :: after)%list, d) ->
  (forall i, In i before -> parse_date (CreationDate i) = Ret (date i)) ->
  parse_date (CreationDate undated) = Raise e ->
  (find_image event st).1 = Raise e.
Proof.
  intros Hreq Hd0 Howner Hadd Hclient Hdescribe Hfound Hfilter Hdates
    Hfail.
  rewrite (find_image_run _ _ _ _ _ _ _ _ _ _ _ Hreq Hd0 Howner Hadd
             Hclient Hdescribe Hfound Hfilter).
  unfold rank_images.
  erewrite (bind_ret_run (dict_get _ _ _));
    [| apply (dict_get_run _ _ d); apply lookup_insert_eq].
  erewrite (bind_ret_run (dict_get _ _ _));
    [| apply (dict_get_run _ _ d); apply lookup_insert_eq].
  erewrite bind_raise_run; [reflexivity |].
  unfold sort_images. apply bind_raise_run.
  now apply (sort_keys_fail _ _ date).
Qed.

(** X26.  A preference that no candidate matches changes nothing: when
    no candidate has the preferred virtualization type, the ranking is
    the one of the same request without
    [PreferredVirtualizationType], and likewise for
    [PreferredRootDeviceType]. *)
Theorem unmatched_preference_changes_nothing
    (rp : loc) (st : state W) (d : gmap string pyval)
    (images : list image) (date : image -> Z) (preference : string) :
  heap st !! rp = Some d ->
  (forall i, In i images -> parse_date (CreationDate i) = Ret (date i)) ->
  (preference = "PreferredVirtualizationType"
   /\ forall i, In i images ->
        is_preferred (default VNone (d !! "PreferredVirtualizationType"))
          (VirtualizationType i) = false)
  \/ (preference = "PreferredRootDeviceType"
      /\ forall i, In i images ->
           is_preferred (default VNone (d !! "PreferredRootDeviceType"))
             (RootDeviceType i) = false) ->
  (rank_images rp images st).1
  = (rank_images rp images (set_dict st rp (delete preference d))).1.
Proof.
  intros Hd Hdates Hcase.
  rewrite (rank_images_run _ _ d date _ Hd Hdates).
  rewrite (rank_images_run _ _ (delete preference d) date _
             (heap_set_dict _ _ _) Hdates).
  assert (Hsort :
            list_sort key_ltb (image_key d date) true images
            = list_sort key_ltb (image_key (delete preference d) date)
                true images).
  { apply list_sort_ext. intros a b Ha Hb. unfold image_key.
    destruct Hcase as [[-> Hnone] | [-> Hnone]].
    - rewrite (Hnone a Ha), (Hnone b Hb).
      rewrite lookup_delete_eq.
      rewrite lookup_delete_ne by discriminate. reflexivity.
    - rewrite (Hnone a Ha), (Hnone b Hb).
      rewrite lookup_delete_eq.
      rewrite lookup_delete_ne by discriminate.
      unfold key_ltb. cbn [default from_option id is_preferred].
      now destruct (is_preferred _ (VirtualizationType a)),
        (is_preferred _ (VirtualizationType b)). }
  now rewrite Hsort.
Qed.

End Candidates.

(** ** The size of Custom::SecureRandom *)

Section RandomSize.
Context {W builder : Type} {C : Collaborators W builder}.

Local Abbreviation M := (StateExn (state W)).

(** X27.  The errors of [secure_random] for a [Size] that is no positive
    integer: an integer that is zero or negative is refused with a
    message that shows the integer, a value whose conversion raises a
    [ValueError] with a message that shows the value as it was given,
    and any other error of the conversion is raised as it is.  No random
    byte is drawn. *)
Theorem secure_random_invalid_size
    (event : LifecycleEvent) (st : state W) (d : gmap string pyval)
    (size : pyval) :
  RequestType event = "Create" \/ RequestType event = "Update" ->
  heap st !! ResourceProperties event = Some d ->
  d !! "Size" = Some size ->
  (forall n,
     py_int size = Ret n -> n <= 0 ->
     secure_random event st
     = (Raise (ValueError
          ("Invalid size parameter: " +:+ repr (VInt n))), st))
  /\ (forall e,
        py_int size = Raise e ->
        secure_random event st
        = (Raise (if isinstance e "ValueError"
                  then ValueError
                         ("Invalid size parameter: " +:+ repr size)
                  else e), st)).
Proof.
  intros Hreq Hd Hsize. apply create_or_update in Hreq.
  unfold secure_random. rewrite Hreq. cbn [negb].
  rewrite (bind_ret_run _ _ _ _ _ (dict_getitem_run _ _ _ _ _ Hd Hsize)).
  unfold parse_size, bind, lift. split.
  - intros n -> Hn. apply Z.leb_le in Hn. now rewrite Hn.
  - intros e ->. now destruct (isinstance e "ValueError").
Qed.

End RandomSize.

(** * Examples *)

(** The theorems above, applied in the world of [Example]. *)

#[local] Existing Instance Example.collaborators.

(** A request for random bytes without [Size]: the handler's [KeyError]
    becomes the [Reason] of a [FAILED] envelope, which is sent. *)
Lemma handler_exception_becomes_failed_envelope_example :
  exists body st2,
    make_body (Example.event "Create" "Custom::SecureRandom")
      (Example.initial []) = (Ret body, st2)
    /\ od_get "Status" body = Some (VStr "FAILED")
    /\ od_get "Reason" body = Some (VStr "'Size'")
    /\ od_get "Data" body = None
    /\ sent (lambda_handler (Example.event "Create" "Custom::SecureRandom")
               (Example.initial [])).2
       = [delivery (Example.event "Create" "Custom::SecureRandom") body].
Proof.
  destruct (handler_exception_becomes_failed_envelope
              (Example.event "Create" "Custom::SecureRandom")
              secure_random (Example.initial []) (Example.initial [])
              (KeyError "'Size'"))
    as (body & st2 & Hmake & Hstatus & Hreason & Hdata & _ & _ & _ & _
        & _ & Hsent & _).
  - reflexivity.
  - vm_compute. reflexivity.
  - exists body, st2. repeat split; assumption.
Defined.

(** A Delete request for a hashed password: nothing is read, and the
    envelope reports success with empty data. *)
Lemma delete_returns_none_example :
  hash_password (Example.event "Delete" "Custom::HashPassword")
    (Example.initial [("Scheme", VInt 7)])
  = (Ret None, Example.initial [("Scheme", VInt 7)])
  /\ exists body st1,
       make_body (Example.event "Delete" "Custom::HashPassword")
         (Example.initial [("Scheme", VInt 7)]) = (Ret body, st1)
       /\ od_get "Status" body = Some (VStr "SUCCESS")
       /\ od_get "Data" body = Some (VDict []).
Proof.
  destruct (delete_returns_none_without_reading_properties
              (Example.event "Delete" "Custom::HashPassword")
              (Example.initial [("Scheme", VInt 7)]))
    as (_ & _ & Hhash & _ & Hbody).
  - discriminate.
  - discriminate.
  - split; [exact Hhash |].
    destruct Hbody as (body & st1 & Hmake & _ & Hstatus & _ & Hdata & _).
    + simpl. auto.
    + exists body, st1. auto.
Defined.

(** Both a plaintext and a ciphertext password: the error of mutual
    exclusion. *)
Lemma password_source_exactly_one_example :
  (hash_password (Example.event "Create" "Custom::HashPassword")
     (Example.initial
        [("PlaintextPassword", VStr "secret");
         ("CiphertextBase64Password", VStr "c2VjcmV0");
         ("Scheme", VStr "sha256-crypt")])).1
  = Raise (ValueError
      "PlaintextPassword and CiphertextBase64Password are mutually exclusive").
Proof.
  destruct (password_source_exactly_one
              (Example.event "Create" "Custom::HashPassword")
              (Example.initial
                 [("PlaintextPassword", VStr "secret");
                  ("CiphertextBase64Password", VStr "c2VjcmV0");
                  ("Scheme", VStr "sha256-crypt")])
              (list_to_map
                 [("PlaintextPassword", VStr "secret");
                  ("CiphertextBase64Password", VStr "c2VjcmV0");
                  ("Scheme", VStr "sha256-crypt")]))
    as (Hboth & _).
  - now left.
  - vm_compute. reflexivity.
  - apply Hboth; vm_compute; eauto.
Defined.


(** Two properties that no scheme declares: both are listed, in
    increasing order. *)
Lemma unknown_parameters_rejected_example :
  (hash_password (Example.event "Create" "Custom::HashPassword")
     (Example.initial
        [("PlaintextPassword", VStr "secret");
         ("Scheme", VStr "sha256-crypt");
         ("Rounds", VStr "5000");
         ("Extra", VInt 1);
         ("Another", VInt 2);
         ("ServiceToken", VStr "arn:aws:lambda:function")])).1
  = Raise (ValueError "Unknown parameters: Another, Extra").
Proof.
  pose (ev := Example.event "Create" "Custom::HashPassword").
  pose (rp := [("PlaintextPassword", VStr "secret");
               ("Scheme", VStr "sha256-crypt");
               ("Rounds", VStr "5000");
               ("Extra", VInt 1);
               ("Another", VInt 2);
               ("ServiceToken", VStr "arn:aws:lambda:function")]).
  pose (st := Example.initial rp).
  pose (d := list_to_map rp : gmap string pyval).
  pose (l := fresh (dom (heap st))).
  pose (st1 := (password_source l d (set_dict st l d)).2).
  pose (st2 := (get_hash_algorithm l st1).2).
  pose (algo := {| algorithm := "sha256_crypt"; is_secure := true;
                   parameters := [("Rounds", Example.rounds);
                                  ("Salt", Example.salt)] |}).
  pose (st3 := (parse_parameters l (parameters algo) [] st2).2).
  destruct (unknown_parameters_rejected ev st st1 st2 st3 d
              (VStr "secret") algo [("rounds", VInt 5000)])
    as (Hunknown & _).
  - now left.
  - vm_compute. reflexivity.
  - vm_compute. reflexivity.
  - vm_compute. reflexivity.
  - vm_compute. reflexivity.
  - vm_compute. reflexivity.
  - assert (Hleft :
              delete_all
                (password_keys d ++ ["Scheme"; "AllowInsecure"]
                 ++ map fst (parameters algo) ++ ["ServiceToken"])%list d
              <> ∅).
    { intros Hempty.
      apply (f_equal (fun m : gmap string pyval => m !! "Extra")) in Hempty.
      vm_compute in Hempty. discriminate. }
    apply Hunknown, (f_equal fst) in Hleft.
    etransitivity; [exact Hleft |]. vm_compute. reflexivity.
Defined.

(** Four random bytes: the hexadecimal text has eight characters, and it
    and the Base64 text decode to the bytes of [Raw]. *)
Lemma secure_random_three_encodings_example :
  exists bytes hex b64,
    (secure_random (Example.event "Create" "Custom::SecureRandom")
       (Example.initial [("Size", VStr "4")])).1
    = Ret (Some [("Raw", VStr bytes); ("Hex", VStr hex);
                 ("Base64", VStr b64)])
    /\ Z.of_nat (String.length bytes) = 4
    /\ Z.of_nat (String.length hex) = 8
    /\ b16decode hex = Some bytes
    /\ b64decode_validate b64 = Some bytes.
Proof.
  destruct (secure_random_three_encodings
              (Example.event "Create" "Custom::SecureRandom")
              (Example.initial [("Size", VStr "4")])
              (list_to_map [("Size", VStr "4")]))
    as (Hsome & _).
  - now left.
  - reflexivity.
  - destruct (Hsome (VStr "4") 4 (Example.urandom_bytes 4 0).1
                (Example.urandom_bytes 4 0).2)
      as (raw & hex & b64 & Hrun & Hraw & _ & _ & _ & Hhexlen & _ & Hhex
          & _ & Hb64).
    + reflexivity.
    + reflexivity.
    + lia.
    + unfold ssize_t_max. lia.
    + reflexivity.
    + reflexivity.
    + exists (Example.urandom_bytes 4 0).1, hex, b64. rewrite Hrun.
      subst raw. repeat split; assumption.
Defined.

(** A size of [2^63], given as a string: it is a positive integer, and
    [os.urandom] refuses it. *)
Lemma secure_random_size_does_not_fit :
  py_int (VStr "9223372036854775808") = Ret (2 ^ 63)
  /\ 0 < 2 ^ 63
  /\ (secure_random (Example.event "Create" "Custom::SecureRandom")
        (Example.initial [("Size", VStr "9223372036854775808")])).1
     = Raise (OverflowError
                "Python int too large to convert to C ssize_t").
Proof. split; [reflexivity |]. split; [lia |]. reflexivity. Qed.

(** Four images that differ in type and date, with a preference for
    [hvm] and for [ebs]: the older images of the preferred
    virtualization type stand before the newer ones of the other, and
    among them the one on the preferred root device stands first.  And
    the images A of 2020 and B of 2021 with no preferences: B is the
    image found, and the matching images are B, A. *)
Lemma find_image_ranks_candidates_example :
  (exists ranked first,
    (find_image (C:=Scenario.collaborators)
       (Example.event "Create" "Custom::FindImage")
       (Scenario.initial
          [("Owner", VStr "mixed");
           ("PreferredVirtualizationType", VStr "hvm");
           ("PreferredRootDeviceType", VStr "ebs")])).1
    = Ret (Some [("ImageId", VStr (ImageId first));
                 ("MatchingImageIds",
                  VList (map VStr (map ImageId ranked)))])
    /\ map VStr (map ImageId ranked)
       = [VStr "A"; VStr "E"; VStr "B"; VStr "F"]
    /\ comes_before ranked
         (Image "A" "2020-01-01" "hvm" "ebs" "base-2020" "")
         (Image "B" "2021-01-01" "paravirtual" "ebs" "base-2021" "")
    /\ comes_before ranked
         (Image "E" "2019-06-01" "hvm" "instance-store" "base-2019" "")
         (Image "B" "2021-01-01" "paravirtual" "ebs" "base-2021" "")
    /\ comes_before ranked
         (Image "A" "2020-01-01" "hvm" "ebs" "base-2020" "")
         (Image "E" "2019-06-01" "hvm" "instance-store" "base-2019" ""))
  /\ (find_image (Example.event "Create" "Custom::FindImage")
        (Example.initial [("Owner", VStr "amazon")])).1
     = Ret (Some [("ImageId", VStr "B");
                  ("MatchingImageIds", VList [VStr "B"; VStr "A"])]).
Proof.
  split.
  { pose (rp := [("Owner", VStr "mixed");
                 ("PreferredVirtualizationType", VStr "hvm");
                 ("PreferredRootDeviceType", VStr "ebs")]).
    pose (d := list_to_map rp : gmap string pyval).
    pose (date := fun i : image =>
                    match Example.parse_date (CreationDate i) with
                    | Ret z => z
                    | Raise _ => 0
                    end).
    destruct (find_image_ranks_candidates (C:=Scenario.collaborators)
                (Example.event "Create" "Custom::FindImage")
                (Scenario.initial rp)
                d d d (VStr "mixed") [] 0%nat 0%nat
                Scenario.mixed Scenario.mixed date)
      as (ranked & first & Hrun & _ & _ & _ & _ & _ & Hvirt & Hroot & _).
    - now left.
    - reflexivity.
    - reflexivity.
    - reflexivity.
    - reflexivity.
    - reflexivity.
    - discriminate.
    - reflexivity.
    - discriminate.
    - intros i [<- | [<- | [<- | [<- | []]]]]; reflexivity.
    - exists ranked, first. split; [exact Hrun |].
      split.
      { assert (Hvalue :
                  (find_image (C:=Scenario.collaborators)
                     (Example.event "Create" "Custom::FindImage")
                     (Scenario.initial rp)).1
                  = Ret (Some [("ImageId", VStr "A");
                               ("MatchingImageIds",
                                VList [VStr "A"; VStr "E"; VStr "B";
                                       VStr "F"])]))
          by reflexivity.
        rewrite Hvalue in Hrun. now injection Hrun as _ <-. }
      split; [| split].
      + apply Hvirt.
        * simpl. auto.
        * simpl. auto.
        * right. right. reflexivity.
        * intros [H | [H | H]]; discriminate.
      + apply Hvirt.
        * simpl. auto.
        * simpl. auto.
        * right. right. reflexivity.
        * intros [H | [H | H]]; discriminate.
      + apply Hroot.
        * simpl. auto.
        * simpl. auto.
        * split; intros _; right; right; reflexivity.
        * right. right. reflexivity.
        * intros [H | [H | H]]; discriminate.
  }
  pose (d := list_to_map [("Owner", VStr "amazon")] : gmap string pyval).
  pose (date := fun i : image =>
                  match Example.parse_date (CreationDate i) with
                  | Ret z => z
                  | Raise _ => 0
                  end).
  destruct (find_image_ranks_candidates
              (Example.event "Create" "Custom::FindImage")
              (Example.initial [("Owner", VStr "amazon")])
              d d d (VStr "amazon") [] 0%nat 0%nat
              Example.images Example.images date)
    as (ranked & first & Hrun & _ & _ & _ & _ & _ & _ & _ & _ & _ & _
        & Htwo).
  - now left.
  - vm_compute. reflexivity.
  - vm_compute. reflexivity.
  - vm_compute. reflexivity.
  - reflexivity.
  - reflexivity.
  - discriminate.
  - vm_compute. reflexivity.
  - discriminate.
  - intros i [<- | [<- | []]]; reflexivity.
  - destruct (Htwo (Image "A" "2020-01-01" "hvm" "ebs" "base-2020" "")
                (Image "B" "2021-01-01" "hvm" "ebs" "base-2021" ""))
      as [Hranked Hfirst].
    + reflexivity.
    + vm_compute. reflexivity.
    + vm_compute. reflexivity.
    + vm_compute. reflexivity.
    + rewrite Hrun, Hranked, Hfirst. reflexivity.
Defined.


(** The validator of the example parameter [Ident] rejects the value
    [2y] with a message of its own, which mentions neither the name of
    the parameter nor the value. *)
Lemma validator_error_names_nothing :
  validate_hash_parameter Example.ident "Ident" (VStr "2y")
  = Raise (ValueError "unsupported variant")
  /\ mentions "unsupported variant" "Ident" = false
  /\ mentions "unsupported variant" (repr (VStr "2y")) = false.
Proof. vm_compute. auto. Qed.

(** The further properties, applied in the worlds of [Example] and
    [Scenario]. *)

(** The resource type [Custom::DynamoDB::Item] is not in the table: the
    envelope says so. *)
Lemma unknown_resource_type_reported_example :
  exists body st1,
    make_body (Example.event "Create" "Custom::DynamoDB::Item")
      (Example.initial []) = (Ret body, st1)
    /\ od_get "Status" body = Some (VStr "FAILED")
    /\ od_get "Reason" body
       = Some (VStr "Unknown resource type Custom::DynamoDB::Item").
Proof.
  destruct (unknown_resource_type_reported
              (Example.event "Create" "Custom::DynamoDB::Item")
              (Example.initial []))
    as (body & st1 & Hmake & _ & Hstatus & Hreason & _).
  - simpl. intuition discriminate.
  - exists body, st1. repeat split; assumption.
Defined.

(** The result of [find_image] for the two example images becomes the
    [Data] of a [SUCCESS] envelope. *)
Lemma handler_result_becomes_success_envelope_example :
  exists body st2,
    make_body (Example.event "Create" "Custom::FindImage")
      (Example.initial [("Owner", VStr "amazon")]) = (Ret body, st2)
    /\ od_get "Status" body = Some (VStr "SUCCESS")
    /\ od_get "Reason" body = None
    /\ od_get "Data" body
       = Some (VDict [("ImageId", VStr "B");
                      ("MatchingImageIds", VList [VStr "B"; VStr "A"])]).
Proof.
  pose (ev := Example.event "Create" "Custom::FindImage").
  pose (st := Example.initial [("Owner", VStr "amazon")]).
  destruct (handler_result_becomes_success_envelope ev find_image st
              (find_image ev st).2
              (Some [("ImageId", VStr "B");
                     ("MatchingImageIds", VList [VStr "B"; VStr "A"])]))
    as (body & st2 & Hmake & _ & Hstatus & Hreason & _ & _ & _ & Hdata & _).
  - reflexivity.
  - reflexivity.
  - destruct Hdata as (kept & Hdata & _ & Hkept & _).
    exists body, st2. rewrite Hdata, (Hkept eq_refl).
    repeat split; assumption.
Defined.

(** An Update of a resource that has the identifier [resource-7]: the
    handler fails, and the envelope keeps the identifier. *)
Lemma physical_resource_id_precedence_example :
  let event := {|
    RequestType := "Update";
    ResourceType := "Custom::SecureRandom";
    ResourceProperties := 1%positive;
    StackId := "arn:aws:cloudformation:stack/example";
    RequestId := "request-2";
    LogicalResourceId := "Resource";
    ResponseURL := "https://cloudformation.example/response";
    PhysicalResourceId := Some "resource-7"
  |} in
  exists body,
    make_body event (Example.initial []) = (Ret body, Example.initial [])
    /\ od_get "PhysicalResourceId" body = Some (VStr "resource-7").
Proof.
  intros event.
  destruct (physical_resource_id_precedence event secure_random
              (Example.initial []) (Example.initial [])
              (Raise (KeyError "'Size'")))
    as (body & st2 & Hmake & Hid & ->).
  - reflexivity.
  - reflexivity.
  - exists body. split; assumption.
Defined.

(** A REST API that already has the binary media type [*/*]: a Create
    request looks it up and patches nothing. *)
Lemma api_gateway_binary_is_idempotent_example :
  api_gateway_binary (C:=Scenario.collaborators)
    (Example.event "Create" "Custom::ApiGatewayBinary")
    (Scenario.initial [("RestApiId", VStr "api-binary")])
  = (Ret None,
     State {[ 1%positive :=
                list_to_map [("RestApiId", VStr "api-binary")] ]}
       1%nat []).
Proof.
  apply (api_gateway_binary_is_idempotent (C:=Scenario.collaborators)
           (Example.event "Create" "Custom::ApiGatewayBinary")
           (Scenario.initial [("RestApiId", VStr "api-binary")])
           (list_to_map [("RestApiId", VStr "api-binary")])
           (VStr "api-binary") 0%nat 1%nat
           (Some ["application/json"; "*/*"])).
  - reflexivity.
  - reflexivity.
  - reflexivity.
  - reflexivity.
  - left. split; reflexivity.
Defined.

(** A REST API without [*/*]: a Create request sends the patch [add]. *)
Lemma api_gateway_binary_patches_media_types_example :
  api_gateway_binary (C:=Scenario.collaborators)
    (Example.event "Create" "Custom::ApiGatewayBinary")
    (Scenario.initial [("RestApiId", VStr "api-plain")])
  = (Ret None,
     State {[ 1%positive :=
                list_to_map [("RestApiId", VStr "api-plain")] ]}
       11%nat []).
Proof.
  apply (api_gateway_binary_patches_media_types
           (C:=Scenario.collaborators)
           (Example.event "Create" "Custom::ApiGatewayBinary")
           (Scenario.initial [("RestApiId", VStr "api-plain")])
           (list_to_map [("RestApiId", VStr "api-plain")])
           (VStr "api-plain") 0%nat 1%nat 11%nat
           (Some ["application/json"]) "add" (Ret tt)).
  - reflexivity.
  - reflexivity.
  - reflexivity.
  - reflexivity.
  - left. repeat split; reflexivity.
  - reflexivity.
Defined.

(** A Delete request without [RestApiId] fails all the same. *)
Lemma api_gateway_binary_requires_rest_api_id_example :
  api_gateway_binary (Example.event "Delete" "Custom::ApiGatewayBinary")
    (Example.initial [])
  = (Raise (KeyError "'RestApiId'"), Example.initial []).
Proof.
  rewrite (api_gateway_binary_requires_rest_api_id
             (Example.event "Delete" "Custom::ApiGatewayBinary")
             (Example.initial []) ∅ 0%nat).
  - reflexivity.
  - reflexivity.
  - reflexivity.
  - reflexivity.
Defined.

(** [Chars] with a pass phrase. *)
Lemma genphrase_rejects_word_properties_example :
  (handle_genphrase_properties 1%positive []
     (Example.initial [("Chars", VStr "abc"); ("Words", VList [])])).1
  = Raise (ValueError
      ("Chars cannot be specified when PasswordType is "
       +:+ dq +:+ "phrase" +:+ dq)).
Proof.
  destruct (genphrase_rejects_word_properties 1%positive []
              (Example.initial [("Chars", VStr "abc"); ("Words", VList [])])
              (list_to_map [("Chars", VStr "abc"); ("Words", VList [])]))
    as (Hchars & _).
  - reflexivity.
  - rewrite Hchars; [reflexivity |]. vm_compute. eauto.
Defined.

(** A word set and a separator. *)
Lemma genphrase_keywords_example :
  exists kw,
    (handle_genphrase_properties 1%positive []
       (Example.initial
          [("Wordset", VStr "bip39"); ("Separator", VStr "-")])).1
    = Ret kw
    /\ od_get "wordset" kw = Some (VStr "bip39")
    /\ od_get "words" kw = None
    /\ od_get "sep" kw = Some (VStr "-").
Proof.
  destruct (genphrase_keywords 1%positive
              (Example.initial
                 [("Wordset", VStr "bip39"); ("Separator", VStr "-")])
              (list_to_map
                 [("Wordset", VStr "bip39"); ("Separator", VStr "-")]))
    as (kw & Hrun & Hwordset & Hwords & Hsep & _).
  - reflexivity.
  - reflexivity.
  - reflexivity.
  - right. reflexivity.
  - exists kw. rewrite Hrun, Hwordset, Hwords, Hsep.
    repeat split; reflexivity.
Defined.

(** A separator with a password of characters. *)
Lemma genword_rejects_phrase_properties_example :
  (handle_genword_properties 1%positive []
     (Example.initial [("Chars", VStr "abc"); ("Separator", VStr "-")])).1
  = Raise (ValueError
      ("Separator cannot be specified when PasswordType is "
       +:+ dq +:+ "word" +:+ dq)).
Proof.
  destruct (genword_rejects_phrase_properties 1%positive []
              (Example.initial
                 [("Chars", VStr "abc"); ("Separator", VStr "-")])
              (list_to_map
                 [("Chars", VStr "abc"); ("Separator", VStr "-")]))
    as (_ & _ & _ & Hsep).
  - reflexivity.
  - rewrite Hsep; [reflexivity | | | |]; vm_compute; eauto.
Defined.

(** The characters to draw from. *)
Lemma genword_keywords_example :
  exists kw,
    (handle_genword_properties 1%positive []
       (Example.initial [("Chars", VStr "abc")])).1 = Ret kw
    /\ od_get "chars" kw = Some (VStr "abc")
    /\ od_get "charset" kw = None.
Proof.
  destruct (genword_keywords 1%positive
              (Example.initial [("Chars", VStr "abc")])
              (list_to_map [("Chars", VStr "abc")]))
    as (kw & Hrun & Hcharset & Hchars & _).
  - reflexivity.
  - reflexivity.
  - reflexivity.
  - reflexivity.
  - left. reflexivity.
  - exists kw. rewrite Hrun, Hcharset, Hchars.
    repeat split; reflexivity.
Defined.

(** The password type [pin]. *)
Lemma generate_password_rejects_other_types_example :
  (generate_password (Example.event "Create" "Custom::GeneratePassword")
     (Example.initial [("PasswordType", VStr "pin")])).1
  = Raise (ValueError
      ("PasswordType must be " +:+ dq +:+ "word" +:+ dq +:+ " or "
       +:+ dq +:+ "phrase" +:+ dq +:+ ": 'pin'")).
Proof.
  rewrite (generate_password_rejects_other_types
             (Example.event "Create" "Custom::GeneratePassword")
             (Example.initial [("PasswordType", VStr "pin")])
             (list_to_map [("PasswordType", VStr "pin")])
             (VStr "pin")).
  - reflexivity.
  - now left.
  - reflexivity.
  - reflexivity.
  - discriminate.
  - discriminate.
Defined.

(** An entropy given as the string [64], as CloudFormation passes
    numbers, is refused. *)
Lemma entropy_must_be_an_integer_example :
  (generate_password (Example.event "Create" "Custom::GeneratePassword")
     (Example.initial [("Entropy", VStr "64")])).1
  = Raise (ValueError "Entropy must be an integer: '64'").
Proof.
  rewrite (entropy_must_be_an_integer
             (Example.event "Create" "Custom::GeneratePassword")
             (Example.initial [("Entropy", VStr "64")])
             (list_to_map [("Entropy", VStr "64")])
             false [] (VStr "64")).
  - reflexivity.
  - now left.
  - reflexivity.
  - reflexivity.
  - reflexivity.
  - reflexivity.
  - discriminate.
  - reflexivity.
Defined.

(** A pass phrase of 48 bits of entropy, returned in the clear. *)
Lemma generate_password_returns_plaintext_example :
  (generate_password (Example.event "Create" "Custom::GeneratePassword")
     (Example.initial
        [("PasswordType", VStr "phrase"); ("Entropy", VInt 48)])).1
  = Ret (Some [("PlaintextPassword",
                VStr "correct horse battery staple")]).
Proof.
  rewrite (generate_password_returns_plaintext
             (Example.event "Create" "Custom::GeneratePassword")
             (Example.initial
                [("PasswordType", VStr "phrase"); ("Entropy", VInt 48)])
             (list_to_map
                [("PasswordType", VStr "phrase"); ("Entropy", VInt 48)])
             true [] "correct horse battery staple" 0%nat).
  - reflexivity.
  - now left.
  - reflexivity.
  - reflexivity.
  - reflexivity.
  - left. reflexivity.
  - reflexivity.
  - reflexivity.
Defined.


(** The scheme [sha3] is not registered. *)
Lemma get_hash_algorithm_rejects_bad_scheme_example :
  (get_hash_algorithm 1%positive
     (Example.initial [("Scheme", VStr "sha3")])).1
  = Raise (ValueError "Unknown scheme 'sha3'").
Proof.
  destruct (get_hash_algorithm_rejects_bad_scheme 1%positive
              (Example.initial [("Scheme", VStr "sha3")])
              (list_to_map [("Scheme", VStr "sha3")]) (VBool false))
    as (_ & _ & _ & Hunknown).
  - reflexivity.
  - reflexivity.
  - rewrite (Hunknown "sha3"); [reflexivity | | |].
    + reflexivity.
    + discriminate.
    + reflexivity.
Defined.

(** A list as [AllowInsecure], and no [Scheme]: the error is that of
    [AllowInsecure]. *)
Lemma allow_insecure_checked_before_scheme_example :
  (get_hash_algorithm 1%positive
     (Example.initial [("AllowInsecure", VList [VStr "yes"])])).1
  = Raise (TypeError "AllowInsecure must be true or false").
Proof.
  destruct (allow_insecure_checked_before_scheme 1%positive
              (Example.initial [("AllowInsecure", VList [VStr "yes"])])
              (list_to_map [("AllowInsecure", VList [VStr "yes"])])
              (VList [VStr "yes"]))
    as (Hlist & _).
  - reflexivity.
  - reflexivity.
  - apply Hlist. reflexivity.
Defined.

(** [sha256-crypt] and [sha256_crypt] are the same scheme. *)
Lemma scheme_hyphens_are_underscores_example :
  (get_hash_algorithm 1%positive
     (Example.initial [("Scheme", VStr "sha256-crypt")])).1
  = (get_hash_algorithm 1%positive
       (Example.initial [("Scheme", VStr "sha256_crypt")])).1.
Proof.
  destruct (scheme_hyphens_are_underscores 1%positive
              (Example.initial [("Scheme", VStr "sha256-crypt")])
              (Example.initial [("Scheme", VStr "sha256_crypt")])
              (list_to_map [("Scheme", VStr "sha256-crypt")])
              (list_to_map [("Scheme", VStr "sha256_crypt")])
              "sha256-crypt" "sha256_crypt")
    as (_ & Hsecure).
  - reflexivity.
  - reflexivity.
  - reflexivity.
  - reflexivity.
  - reflexivity.
  - reflexivity.
  - destruct (Hsecure
                {| algorithm := "sha256_crypt"; is_secure := true;
                   parameters := [("Rounds", Example.rounds);
                                  ("Salt", Example.salt)] |}
                (VBool false))
      as (-> & ->).
    + discriminate.
    + reflexivity.
    + reflexivity.
    + reflexivity.
    + reflexivity.
Defined.

(** A number as password. *)
Lemma plaintext_password_must_be_a_string_example :
  (hash_password (Example.event "Create" "Custom::HashPassword")
     (Example.initial
        [("PlaintextPassword", VInt 1234); ("Scheme", VStr "bcrypt")])).1
  = Raise (TypeError "PlaintextPassword must be a string").
Proof.
  rewrite (plaintext_password_must_be_a_string
             (Example.event "Create" "Custom::HashPassword")
             (Example.initial
                [("PlaintextPassword", VInt 1234);
                 ("Scheme", VStr "bcrypt")])
             (list_to_map
                [("PlaintextPassword", VInt 1234);
                 ("Scheme", VStr "bcrypt")])
             (VInt 1234)).
  - reflexivity.
  - now left.
  - reflexivity.
  - reflexivity.
  - reflexivity.
  - reflexivity.
Defined.

(** A text of three characters of the alphabet, which is not a whole
    group: the decoder raises [binascii.Error], and the step says that
    the encoding is invalid. *)
Lemma ciphertext_password_errors_example :
  (handle_ciphertext_password_hash_params 1%positive
     (Example.initial [("CiphertextBase64Password", VStr "abc")])).1
  = Raise (ValueError
      "Invalid base64 encoding in CiphertextBase64Password").
Proof.
  destruct (ciphertext_password_errors 1%positive
              (Example.initial [("CiphertextBase64Password", VStr "abc")])
              (list_to_map [("CiphertextBase64Password", VStr "abc")])
              (VStr "abc"))
    as (_ & Htext).
  - reflexivity.
  - reflexivity.
  - destruct (Htext "abc" eq_refl) as (_ & Hdecode & _).
    rewrite (Hdecode (Exn ["Error"; "ValueError"] "Incorrect padding")).
    + reflexivity.
    + left. reflexivity.
    + reflexivity.
    + reflexivity.
Defined.

(** The Base64 text of [secret], decrypted by a KMS that returns the
    bytes it is given. *)
Lemma ciphertext_password_is_decrypted_example :
  (handle_ciphertext_password_hash_params 1%positive
     (Example.initial [("CiphertextBase64Password", VStr "c2VjcmV0")])).1
  = Ret (VBytes "secret").
Proof.
  rewrite (ciphertext_password_is_decrypted 1%positive
             (Example.initial
                [("CiphertextBase64Password", VStr "c2VjcmV0")])
             (list_to_map [("CiphertextBase64Password", VStr "c2VjcmV0")])
             "c2VjcmV0" "secret" (VBytes "secret") 0%nat 0%nat).
  - reflexivity.
  - reflexivity.
  - reflexivity.
  - left. reflexivity.
  - reflexivity.
  - reflexivity.
  - reflexivity.
Defined.

(** A request that gives neither [Rounds] nor [Salt]. *)
Lemma parse_parameters_skips_absent_example :
  parse_parameters 1%positive
    [("Rounds", Example.rounds); ("Salt", Example.salt)] []
    (Example.initial [("Extra", VInt 1)])
  = (Ret [], Example.initial [("Extra", VInt 1)]).
Proof.
  apply (parse_parameters_skips_absent 1%positive
           [("Rounds", Example.rounds); ("Salt", Example.salt)] []
           (Example.initial [("Extra", VInt 1)])
           (list_to_map [("Extra", VInt 1)])).
  - reflexivity.
  - intros name [<- | [<- | []]]; reflexivity.
Defined.

(** A request without [Owner]. *)
Lemma find_image_requires_owner_example :
  (find_image (Example.event "Create" "Custom::FindImage")
     (Example.initial [("Architecture", VStr "x86_64")])).1
  = Raise (ValueError "Owner must be specified").
Proof.
  rewrite (find_image_requires_owner
             (Example.event "Create" "Custom::FindImage")
             (Example.initial [("Architecture", VStr "x86_64")])
             (list_to_map [("Architecture", VStr "x86_64")])).
  - reflexivity.
  - now left.
  - reflexivity.
  - reflexivity.
Defined.

(** An owner without images. *)
Lemma find_image_no_candidates_example :
  (find_image (C:=Scenario.collaborators)
     (Example.event "Create" "Custom::FindImage")
     (Scenario.initial [("Owner", VStr "nobody")])).1
  = Raise (ValueError "No AMIs found that match the filters applied.").
Proof.
  rewrite (find_image_no_candidates (C:=Scenario.collaborators)
             (Example.event "Create" "Custom::FindImage")
             (Scenario.initial [("Owner", VStr "nobody")])
             (list_to_map [("Owner", VStr "nobody")])
             (list_to_map [("Owner", VStr "nobody")])
             (VStr "nobody") [] 0%nat 0%nat (Some [])).
  - reflexivity.
  - now left.
  - reflexivity.
  - reflexivity.
  - reflexivity.
  - reflexivity.
  - reflexivity.
  - now right.
Defined.

(** Three images, the second and third dated [yesterday] and
    [tomorrow]: the error is that of the second. *)
Lemma find_image_unparsable_date_example :
  (find_image (C:=Scenario.collaborators)
     (Example.event "Create" "Custom::FindImage")
     (Scenario.initial [("Owner", VStr "undated")])).1
  = Raise (Exn ["ParseError"; "ValueError"] "Unable to parse date string").
Proof.
  pose (d := list_to_map [("Owner", VStr "undated")] : gmap string pyval).
  apply (find_image_unparsable_date (C:=Scenario.collaborators)
           (Example.event "Create" "Custom::FindImage")
           (Scenario.initial [("Owner", VStr "undated")])
           d d d (VStr "undated") [] 0%nat 0%nat
           [Image "A" "2020-01-01" "hvm" "ebs" "base-2020" "";
            Image "C" "yesterday" "hvm" "ebs" "base" "";
            Image "D" "tomorrow" "hvm" "ebs" "base" ""]
           [Image "A" "2020-01-01" "hvm" "ebs" "base-2020" ""]
           [Image "D" "tomorrow" "hvm" "ebs" "base" ""]
           (Image "C" "yesterday" "hvm" "ebs" "base" "")
           (fun _ => 20200101)).
  - now left.
  - reflexivity.
  - reflexivity.
  - reflexivity.
  - reflexivity.
  - reflexivity.
  - discriminate.
  - reflexivity.
  - intros i [<- | []]. reflexivity.
  - reflexivity.
Defined.

(** Both example images are [hvm]: a preference for [paravirtual] gives
    the ranking of no preference. *)
Lemma unmatched_preference_changes_nothing_example :
  (rank_images 1%positive Example.images
     (Example.initial
        [("PreferredVirtualizationType", VStr "paravirtual")])).1
  = Ret (Some [("ImageId", VStr "B");
               ("MatchingImageIds", VList [VStr "B"; VStr "A"])]).
Proof.
  rewrite (unmatched_preference_changes_nothing 1%positive
             (Example.initial
                [("PreferredVirtualizationType", VStr "paravirtual")])
             (list_to_map
                [("PreferredVirtualizationType", VStr "paravirtual")])
             Example.images
             (fun i => match Example.parse_date (CreationDate i) with
                       | Ret z => z
                       | Raise _ => 0
                       end)
             "PreferredVirtualizationType").
  - reflexivity.
  - reflexivity.
  - intros i [<- | [<- | []]]; reflexivity.
  - left. split; [reflexivity |].
    intros i [<- | [<- | []]]; reflexivity.
Defined.

(** The size [0], given as a string. *)
Lemma secure_random_invalid_size_example :
  (secure_random (Example.event "Create" "Custom::SecureRandom")
     (Example.initial [("Size", VStr "0")])).1
  = Raise (ValueError "Invalid size parameter: 0").
Proof.
  destruct (secure_random_invalid_size
              (Example.event "Create" "Custom::SecureRandom")
              (Example.initial [("Size", VStr "0")])
              (list_to_map [("Size", VStr "0")]) (VStr "0"))
    as (Hzero & _).
  - now left.
  - reflexivity.
  - reflexivity.
  - rewrite (Hzero 0); [reflexivity | | lia].
    reflexivity.
Defined.
